(** * Presence and group-messaging coordinator of the chat server

    A shallow embedding of the Socket.io event handlers and of the history
    and group routes of the chat server (the JavaScript part of
    [src/database.sql]), together with a model of the MySQL tables that the
    schema at the head of that file declares.

    Conventions of the embedding.
    - A JavaScript value that stands for a user id is a number or a string
      ([jsval]).  Numbers are modelled by [Z]: user ids are [INT] columns, so
      every number met here is an integer far below 2^53.
    - String-to-number conversion ([StringToNumber]) covers signed decimal
      integer literals surrounded by ASCII white space; every other text
      converts to [NaN].  Fractions, exponents and radix prefixes are outside
      the model, and so are numbers beyond the safe integers: the
      statements that depend on a conversion say on which ids they hold
      ([safe_integer], [integer_id], [id_token], [breaks_numeral]).
    - The store follows the schema: [AUTO_INCREMENT] keys, the unique keys
      of [chat_groups.group_id] and of [group_members (group_id, user_id)],
      the foreign keys to [users], under strict SQL mode.  A text bound to an
      [INT] column is converted like [StringToNumber]; the conversion that
      MySQL applies to other texts is outside the model.
    - A handler is a term of [proc]: one constructor per kind of interaction
      with the process state, the store, the clock and the transport.  The
      callbacks of [db.query] are the continuations of [DbQuery].
    - [run] executes one handler to completion against a [world]; the events
      of different connections are not interleaved inside a handler.  Store
      failures that do not follow from the tables (lost connection, ...) are
      supplied by the fault schedule of the world.
    - The handlers of [create-group], [group-message], [leave-group],
      [remove-group-member], [add-group-members], [request-groups] and
      [private-message] are terms of [proc]; [user-connected], [typing] and
      [disconnect] are state-passing actions over the same world (module
      [Presence]).  [on_disconnect] is the handler alone; Socket.io removes
      a closing socket from the server and from its rooms before the handler
      runs, which is [socket_closed], and [disconnect_event] is the two
      together.
    - The [timestamp] fields of the emitted payloads and the [created_at] and
      [joined_at] columns are left out; [console.log] is left out. *)

From Stdlib Require Import ZArith List String Ascii Bool Lia.
From Stdlib Require Import Numbers.DecimalString Numbers.DecimalZ.
From Stdlib Require Decimal.
Import ListNotations.

Local Open Scope list_scope.
Local Open Scope string_scope.
Local Open Scope Z_scope.

(** ** JavaScript values and conversions *)

Module Js.

Inductive jsval : Type :=
| JNum (n : Z)
| JStr (s : string).

(** A number after conversion: [None] is [NaN].  A JavaScript number is a
    double: the integers of this file stand for it exactly up to 2^53 in
    absolute value (the safe integers, written in plain decimal digits);
    a statement about larger ones is outside the embedding. *)
Definition number : Type := option Z.

(** [Number::toString] on an integer, and ["NaN"]. *)
Definition Z_to_string (z : Z) : string :=
  NilZero.string_of_int (Z.to_int z).

Definition number_to_string (n : number) : string :=
  match n with
  | Some z => Z_to_string z
  | None => "NaN"
  end.

Definition is_white_space (c : ascii) : bool :=
  let n := nat_of_ascii c in
  (Nat.eqb n 9 || Nat.eqb n 10 || Nat.eqb n 11 || Nat.eqb n 12
   || Nat.eqb n 13 || Nat.eqb n 32)%bool.

Fixpoint trim_start (s : string) : string :=
  match s with
  | String c s' => if is_white_space c then trim_start s' else s
  | EmptyString => EmptyString
  end.

Fixpoint trim_end (s : string) : string :=
  match s with
  | String c s' =>
      match trim_end s' with
      | EmptyString => if is_white_space c then EmptyString
                       else String c EmptyString
      | t => String c t
      end
  | EmptyString => EmptyString
  end.

Definition trim (s : string) : string := trim_end (trim_start s).

(** A non-empty run of decimal digits. *)
Definition digits_to_number (s : string) : number :=
  option_map Z.of_uint (NilZero.uint_of_string s).

(** [StringToNumber] on signed decimal integer literals: the empty text is
    0, a sign may come first.  A result [Some n] is the value that
    JavaScript gives (for a safe integer [n]).  A result [None] is [NaN] for
    a text that is no numeric literal at all; the literals with a fraction,
    an exponent or a radix prefix and [Infinity], which JavaScript converts,
    also get [None] here, so a statement may rely on [None] only for a text
    whose shape excludes them. *)
Definition string_to_number (s : string) : number :=
  match trim s with
  | EmptyString => Some 0
  | String "+" d => digits_to_number d
  | String "-" d => option_map Z.opp (digits_to_number d)
  | d => digits_to_number d
  end.

Definition to_number (v : jsval) : number :=
  match v with
  | JNum n => Some n
  | JStr s => string_to_number s
  end.

Definition to_string (v : jsval) : string :=
  match v with
  | JNum n => Z_to_string n
  | JStr s => s
  end.

(** [a == b] *)
Definition loose_eq (a b : jsval) : bool :=
  match a, b with
  | JNum x, JNum y => x =? y
  | JStr s, JStr t => String.eqb s t
  | JNum x, JStr s | JStr s, JNum x =>
      match string_to_number s with
      | Some y => x =? y
      | None => false
      end
  end.

(** [a === b], which is also the comparison of [Array.prototype.includes]
    on numbers and strings. *)
Definition strict_eq (a b : jsval) : bool :=
  match a, b with
  | JNum x, JNum y => x =? y
  | JStr s, JStr t => String.eqb s t
  | _, _ => false
  end.

Definition array_includes (l : list jsval) (v : jsval) : bool :=
  existsb (fun x => strict_eq x v) l.

(** [Math.min] and [Math.max] convert their arguments to numbers. *)
Definition math_min (a b : jsval) : number :=
  match to_number a, to_number b with
  | Some x, Some y => Some (Z.min x y)
  | _, _ => None
  end.

Definition math_max (a b : jsval) : number :=
  match to_number a, to_number b with
  | Some x, Some y => Some (Z.max x y)
  | _, _ => None
  end.

(** [hay.includes(needle)] on strings. *)
Fixpoint string_includes (hay needle : string) : bool :=
  (String.prefix needle hay
   || match hay with
      | String _ hay' => string_includes hay' needle
      | EmptyString => false
      end)%bool.

(** Truthiness of a string-or-null result. *)
Definition truthy (r : option string) : option string :=
  match r with
  | Some EmptyString => None
  | _ => r
  end.

End Js.
Import Js.

(** ** The store: the tables of the schema and the statements issued *)

Module Store.

Record user_row := { u_id : Z; u_name : string }.

Record message_row := {
  m_id : Z; m_user_id : Z; m_content : string;
  m_room_id : string; m_is_group : bool }.

Record group_row := {
  g_id : Z; g_name : string; g_creator_id : Z; g_group_id : string }.

Record member_row := { gm_id : Z; gm_group_id : string; gm_user_id : Z }.

(** [has_is_group] tells whether [messages] has the optional column
    [is_group]; the three counters are the [AUTO_INCREMENT] values. *)
Record store := {
  users : list user_row;
  messages : list message_row;
  chat_groups : list group_row;
  group_members : list member_row;
  has_is_group : bool;
  next_message_id : Z;
  next_group_id : Z;
  next_member_id : Z }.

Record sql_error := { code : string; sqlMessage : option string }.

Definition unknown_column (column where_ : string) : sql_error :=
  {| code := "ER_BAD_FIELD_ERROR";
     sqlMessage :=
       Some ("Unknown column '" ++ column ++ "' in '" ++ where_ ++ "'") |}.

Definition dup_entry : sql_error :=
  {| code := "ER_DUP_ENTRY"; sqlMessage := Some "Duplicate entry" |}.

Definition no_referenced_row : sql_error :=
  {| code := "ER_NO_REFERENCED_ROW_2";
     sqlMessage := Some "Cannot add or update a child row: a foreign key constraint fails" |}.

Definition wrong_value : sql_error :=
  {| code := "ER_TRUNCATED_WRONG_VALUE";
     sqlMessage := Some "Truncated incorrect INTEGER value" |}.

Definition parse_error : sql_error :=
  {| code := "ER_PARSE_ERROR";
     sqlMessage := Some "You have an error in your SQL syntax" |}.

Inductive result (R : Type) : Type :=
| Err (e : sql_error)
| Ok (r : R).
Arguments Err {R} e.
Arguments Ok {R} r.

(** The [ResultSetHeader] of a data-changing statement. *)
Record header := { insertId : Z; affectedRows : Z }.

Record group_summary := {
  gs_group_id : string; gs_name : string; gs_creator_id : Z;
  gs_member_count : Z }.

Record message_view := {
  mv_id : Z; mv_user_id : Z; mv_user_name : string; mv_content : string }.

Record group_info := { gi_group : group_row; gi_creator_name : string }.

Record member_view := { me_user_id : Z; me_user_name : string }.

(** One constructor per SQL statement of the handlers; the index is the
    type of what the callback receives on success. *)
Inductive query : Type -> Type :=
| InsertMessage (user_id : jsval) (content room_id : string)
    (is_group : option bool) : query header
| InsertGroup (name : string) (creator_id : jsval) (group_id : string)
    : query header
| InsertMembers (on_duplicate_update : bool) (values : list (string * jsval))
    : query header
| DeleteMember (group_id : string) (user_id : jsval) : query header
| CountMembers (group_id : string) : query Z
| DeleteGroup (group_id : string) : query header
| SelectGroupOfCreator (group_id : string) (creator_id : jsval)
    : query (list group_row)
| SelectUserName (id : jsval) : query (list string)
| SelectUsersIn (ids : list jsval) : query (list user_row)
| SelectUserGroups (user_id : jsval) : query (list group_summary)
| SelectRoomMessages (room_id : string) (only_is_group : bool)
    : query (list message_view)
| SelectGroupInfo (group_id : string) : query (list group_info)
| SelectGroupMembers (group_id : string) : query (list member_view).

Definition has_user (n : Z) (s : store) : bool :=
  existsb (fun u => u_id u =? n) (users s).

Definition user_name_of (n : Z) (s : store) : list string :=
  map u_name (filter (fun u => u_id u =? n) (users s)).

Definition is_member (g : string) (n : Z) (m : member_row) : bool :=
  (String.eqb (gm_group_id m) g && (gm_user_id m =? n))%bool.

Definition has_member (g : string) (n : Z) (s : store) : bool :=
  existsb (is_member g n) (group_members s).

Definition members_of (g : string) (s : store) : list member_row :=
  filter (fun m => String.eqb (gm_group_id m) g) (group_members s).

Definition has_group (g : string) (s : store) : bool :=
  existsb (fun r => String.eqb (g_group_id r) g) (chat_groups s).

Definition add_message (n : Z) (content room : string) (flag : bool)
  (s : store) : store :=
  {| users := users s;
     messages := (messages s ++
       [{| m_id := next_message_id s; m_user_id := n; m_content := content;
           m_room_id := room; m_is_group := flag |}])%list;
     chat_groups := chat_groups s;
     group_members := group_members s;
     has_is_group := has_is_group s;
     next_message_id := next_message_id s + 1;
     next_group_id := next_group_id s;
     next_member_id := next_member_id s |}.

Definition add_group (name : string) (creator : Z) (g : string)
  (s : store) : store :=
  {| users := users s;
     messages := messages s;
     chat_groups := (chat_groups s ++
       [{| g_id := next_group_id s; g_name := name; g_creator_id := creator;
           g_group_id := g |}])%list;
     group_members := group_members s;
     has_is_group := has_is_group s;
     next_message_id := next_message_id s;
     next_group_id := next_group_id s + 1;
     next_member_id := next_member_id s |}.

Definition add_member (g : string) (n : Z) (s : store) : store :=
  {| users := users s;
     messages := messages s;
     chat_groups := chat_groups s;
     group_members := (group_members s ++
       [{| gm_id := next_member_id s; gm_group_id := g; gm_user_id := n |}])%list;
     has_is_group := has_is_group s;
     next_message_id := next_message_id s;
     next_group_id := next_group_id s;
     next_member_id := next_member_id s + 1 |}.

Definition set_group_members (l : list member_row) (s : store) : store :=
  {| users := users s;
     messages := messages s;
     chat_groups := chat_groups s;
     group_members := l;
     has_is_group := has_is_group s;
     next_message_id := next_message_id s;
     next_group_id := next_group_id s;
     next_member_id := next_member_id s |}.

Definition set_chat_groups (l : list group_row) (s : store) : store :=
  {| users := users s;
     messages := messages s;
     chat_groups := l;
     group_members := group_members s;
     has_is_group := has_is_group s;
     next_message_id := next_message_id s;
     next_group_id := next_group_id s;
     next_member_id := next_member_id s |}.

(** The rows of one [INSERT INTO group_members ... VALUES ?], in order.  The
    unique key [(group_id, user_id)] rejects a second row for a pair unless
    the statement carries [ON DUPLICATE KEY UPDATE]; the foreign key rejects
    an unknown user.  A failing row fails the statement. *)
Fixpoint insert_member_rows (on_duplicate_update : bool)
  (values : list (string * jsval)) (s : store) : sql_error + store :=
  match values with
  | [] => inr s
  | (g, v) :: rest =>
      match to_number v with
      | None => inl wrong_value
      | Some n =>
          if has_member g n s then
            if on_duplicate_update
            then insert_member_rows on_duplicate_update rest s
            else inl dup_entry
          else if has_user n s
          then insert_member_rows on_duplicate_update rest (add_member g n s)
          else inl no_referenced_row
      end
  end.

Definition header_of (id : Z) (rows : nat) : header :=
  {| insertId := id; affectedRows := Z.of_nat rows |}.

Definition summary_of (s : store) (r : group_row) : group_summary :=
  {| gs_group_id := g_group_id r; gs_name := g_name r;
     gs_creator_id := g_creator_id r;
     gs_member_count := Z.of_nat (List.length (members_of (g_group_id r) s)) |}.

Definition view_message (s : store) (m : message_row) : list message_view :=
  map (fun u => {| mv_id := m_id m; mv_user_id := m_user_id m;
                   mv_user_name := u_name u; mv_content := m_content m |})
      (filter (fun u => u_id u =? m_user_id m) (users s)).

Definition view_group (s : store) (r : group_row) : list group_info :=
  map (fun u => {| gi_group := r; gi_creator_name := u_name u |})
      (filter (fun u => u_id u =? g_creator_id r) (users s)).

Definition view_member (s : store) (m : member_row) : list member_view :=
  map (fun u => {| me_user_id := u_id u; me_user_name := u_name u |})
      (filter (fun u => u_id u =? gm_user_id m) (users s)).

(** A parameter bound to an [INT] column is converted to an integer; one
    that has no integer value fails the statement. *)
Definition with_int {R : Type} (v : jsval) (s : store)
  (k : Z -> result R * store) : result R * store :=
  match to_number v with
  | Some n => k n
  | None => (Err wrong_value, s)
  end.

Fixpoint ints_of (l : list jsval) : option (list Z) :=
  match l with
  | [] => Some []
  | v :: rest =>
      match to_number v, ints_of rest with
      | Some n, Some ns => Some (n :: ns)
      | _, _ => None
      end
  end.

Definition exec {R : Type} (q : query R) (s : store) : result R * store :=
  match q in query R return result R * store with
  | InsertMessage v content room flag =>
      match flag, has_is_group s with
      | Some _, false => (Err (unknown_column "is_group" "field list"), s)
      | _, _ =>
          with_int v s (fun n =>
            if has_user n s
            then (Ok (header_of (next_message_id s) 1),
                  add_message n content room
                    (match flag with Some b => b | None => false end) s)
            else (Err no_referenced_row, s))
      end
  | InsertGroup name v g =>
      with_int v s (fun n =>
        if has_group g s then (Err dup_entry, s)
        else if has_user n s
        then (Ok (header_of (next_group_id s) 1), add_group name n g s)
        else (Err no_referenced_row, s))
  | InsertMembers upd values =>
      match values with
      | [] => (Err parse_error, s)
      | _ =>
          match insert_member_rows upd values s with
          | inl e => (Err e, s)
          | inr s' =>
              (Ok (header_of (next_member_id s) (List.length values)), s')
          end
      end
  | DeleteMember g v =>
      with_int v s (fun n =>
        (Ok (header_of 0
               (List.length (filter (is_member g n) (group_members s)))),
         set_group_members
           (filter (fun m => negb (is_member g n m)) (group_members s)) s))
  | CountMembers g => (Ok (Z.of_nat (List.length (members_of g s))), s)
  | DeleteGroup g =>
      (Ok (header_of 0
             (List.length
                (filter (fun r => String.eqb (g_group_id r) g)
                   (chat_groups s)))),
       set_chat_groups
         (filter (fun r => negb (String.eqb (g_group_id r) g))
            (chat_groups s)) s)
  | SelectGroupOfCreator g v =>
      with_int v s (fun n =>
        (Ok (filter (fun r => (String.eqb (g_group_id r) g
                               && (g_creator_id r =? n))%bool)
               (chat_groups s)), s))
  | SelectUserName v =>
      with_int v s (fun n => (Ok (user_name_of n s), s))
  | SelectUsersIn ids =>
      match ids, ints_of ids with
      | [], _ => (Err parse_error, s)
      | _, None => (Err wrong_value, s)
      | _, Some ns =>
          (Ok (filter (fun u => existsb (Z.eqb (u_id u)) ns) (users s)), s)
      end
  | SelectUserGroups v =>
      with_int v s (fun n =>
        (Ok (map (summary_of s)
               (filter (fun r => has_member (g_group_id r) n s)
                  (chat_groups s))), s))
  | SelectRoomMessages room only_group =>
      if (only_group && negb (has_is_group s))%bool
      then (Err (unknown_column "m.is_group" "where clause"), s)
      else
        (Ok (firstn 100
               (flat_map (view_message s)
                  (filter (fun m => (String.eqb (m_room_id m) room
                                     && (negb only_group || m_is_group m))%bool)
                     (messages s)))), s)
  | SelectGroupInfo g =>
      (Ok (flat_map (view_group s)
             (filter (fun r => String.eqb (g_group_id r) g) (chat_groups s))),
       s)
  | SelectGroupMembers g =>
      (Ok (flat_map (view_member s) (members_of g s)), s)
  end.

End Store.
Import Store.

(** ** Process state, transport and the handler language *)

Module Server.

(** An entry of [connectedUsers]. *)
Record conn := {
  socketId : string; userId : jsval; userName : string; online : bool }.

(** [connectedUsers] is a [Map]: entries in insertion order, one per key. *)
Definition registry : Type := list (string * conn).

Fixpoint connectedUsers_get (m : registry) (sid : string) : option conn :=
  match m with
  | [] => None
  | (k, c) :: rest => if String.eqb k sid then Some c
                      else connectedUsers_get rest sid
  end.

Fixpoint connectedUsers_set (m : registry) (sid : string) (c : conn)
  : registry :=
  match m with
  | [] => [(sid, c)]
  | (k, c') :: rest => if String.eqb k sid then (k, c) :: rest
                       else (k, c') :: connectedUsers_set rest sid c
  end.

(** The helper of the source: the first entry, in iteration order, whose
    [userId] is loosely equal to the argument. *)
Fixpoint findSocketIdByUserId (m : registry) (uid : jsval) : option string :=
  match m with
  | [] => None
  | (sid, userData) :: rest =>
      if loose_eq (userId userData) uid then Some sid
      else findSocketIdByUserId rest uid
  end.

(** The room token of a private conversation, as both call sites build it.
    [Math.min], [Math.max] and the template literal are exact on safe
    integers. *)
Definition roomId (a b : jsval) : string :=
  "private_" ++ number_to_string (math_min a b) ++ "_"
  ++ number_to_string (math_max a b).

Record group_object := {
  go_id : Z; go_groupId : string; go_name : string; go_creatorId : jsval;
  go_memberIds : option (list jsval) }.

(** What is emitted; the constructor stands for the event name. *)
Inductive payload : Type :=
| PrivateMessage (fromUserId : jsval) (fromUserName message : string)
| MessageSent (toUserId : jsval) (message : string) (messageId : option Z)
| GroupCreated (group : group_object)
| GroupCreatedError (error : string)
| GroupMessage (messageId : option Z) (groupId : string)
    (fromUserId : jsval) (fromUserName message : string) (isSystem : bool)
| LeaveGroupResult (groupId : string)
| LeaveGroupError (error : string)
| MemberRemoved (groupId : string) (groupName : option string)
    (userId : jsval) (userName : string)
| MembersAdded (groupId : string) (addedUsers : list user_row)
| GroupList (groups : list group_summary).

(** [socket.emit] reaches one socket, [io.to(room).emit] the sockets that
    are in the room. *)
Inductive target : Type :=
| ToSocket (sid : string)
| ToRoom (room : string).

Inductive body : Type :=
| ErrorBody (error : string)
| MessagesBody (rows : list message_view) (room : option string)
| GroupBody (group : group_info) (members : list member_view)
| GroupsBody (groups : list group_summary).

Inductive proc : Type :=
| Done
| Throw (what : string)
| DbQuery {R : Type} (q : query R) (k : result R -> proc)
| GetUser (sid : string) (k : option conn -> proc)
| GetUsers (k : registry -> proc)
| SocketRooms (sid : string) (k : list string -> proc)
| SocketsGet (sid : string) (k : bool -> proc)
| DateNow (k : Z -> proc)
| Join (sid room : string) (k : proc)
| Leave (sid room : string) (k : proc)
| Emit (t : target) (p : payload) (k : proc)
| Respond (status : Z) (b : body) (k : proc).

Notation "'let!' x ':=' c 'in' k" := (c (fun x => k))
  (at level 10, x pattern, c at level 100, k at level 200, only parsing).
Notation "c ';;' k" := (c k)
  (at level 100, k at level 200, right associativity, only parsing).

(** What the outside sees of a run, in order. *)
Inductive effect : Type :=
| Queried {R : Type} (q : query R) (r : result R)
| Joined (sid room : string)
| Left (sid room : string)
| Emitted (t : target) (recipients : list string) (p : payload)
| Responded (status : Z) (b : body)
| Uncaught (what : string).

(** [rooms] holds the pairs (socket, room) of the adapter, [faults] what the
    store answers to the next statements when it is not the tables that
    decide ([None]: the statement is executed). *)
Record world := {
  connectedUsers : registry;
  sockets : list string;
  rooms : list (string * string);
  db : store;
  faults : list (option sql_error);
  clock : Z;
  trace : list effect }.

Definition in_room (sid room : string) (w : world) : bool :=
  existsb (fun e => (String.eqb (fst e) sid && String.eqb (snd e) room)%bool)
    (rooms w).

Definition room_members (room : string) (w : world) : list string :=
  map fst (filter (fun e => String.eqb (snd e) room) (rooms w)).

Definition socket_rooms (sid : string) (w : world) : list string :=
  map snd (filter (fun e => String.eqb (fst e) sid) (rooms w)).

Definition recipients (t : target) (w : world) : list string :=
  match t with
  | ToSocket sid => [sid]
  | ToRoom room => room_members room w
  end.

Definition record (e : effect) (w : world) : world :=
  {| connectedUsers := connectedUsers w; sockets := sockets w;
     rooms := rooms w; db := db w; faults := faults w; clock := clock w;
     trace := (trace w ++ [e])%list |}.

Definition set_rooms (r : list (string * string)) (w : world) : world :=
  {| connectedUsers := connectedUsers w; sockets := sockets w;
     rooms := r; db := db w; faults := faults w; clock := clock w;
     trace := trace w |}.

Definition set_db (s : store) (fs : list (option sql_error)) (w : world)
  : world :=
  {| connectedUsers := connectedUsers w; sockets := sockets w;
     rooms := rooms w; db := s; faults := fs; clock := clock w;
     trace := trace w |}.

Definition join (sid room : string) (w : world) : world :=
  record (Joined sid room)
    (if in_room sid room w then w
     else set_rooms (rooms w ++ [(sid, room)])%list w).

Definition leave (sid room : string) (w : world) : world :=
  record (Left sid room)
    (set_rooms
       (filter (fun e => negb (String.eqb (fst e) sid
                               && String.eqb (snd e) room)%bool) (rooms w))
       w).

Definition emit (t : target) (p : payload) (w : world) : world :=
  record (Emitted t (recipients t w) p) w.

(** The answer of the store to one statement. *)
Definition answer {R : Type} (q : query R) (w : world)
  : result R * store * list (option sql_error) :=
  match faults w with
  | Some e :: fs => (Err e, db w, fs)
  | None :: fs => (exec q (db w), fs)
  | [] => (exec q (db w), [])
  end.

Definition db_query {R : Type} (q : query R) (w : world)
  : result R * world :=
  let '(r, s, fs) := answer q w in
  (r, record (Queried q r) (set_db s fs w)).

Fixpoint run (p : proc) (w : world) : world :=
  match p with
  | Done => w
  | Throw what => record (Uncaught what) w
  | DbQuery q k => let (r, w') := db_query q w in run (k r) w'
  | GetUser sid k => run (k (connectedUsers_get (connectedUsers w) sid)) w
  | GetUsers k => run (k (connectedUsers w)) w
  | SocketRooms sid k => run (k (socket_rooms sid w)) w
  | SocketsGet sid k => run (k (existsb (String.eqb sid) (sockets w))) w
  | DateNow k => run (k (clock w)) w
  | Join sid room k => run k (join sid room w)
  | Leave sid room k => run k (leave sid room w)
  | Emit t p k => run k (emit t p w)
  | Respond status b k => run k (record (Responded status b) w)
  end.

(** [list.forEach(body)] followed by [k]. *)
Definition for_each {A : Type} (l : list A) (body : A -> proc -> proc)
  (k : proc) : proc :=
  fold_right body k l.

End Server.
Import Server.

(** ** The event handlers and the routes *)

Module Handlers.

Record private_message_data := {
  pm_toUserId : jsval; pm_fromUserId : jsval;
  pm_fromUserName : string; pm_message : string }.

Record create_group_data := {
  cg_groupName : string; cg_memberIds : option (list jsval) }.

Record group_message_data := { gm_groupId : string; gm_message : string }.

Record remove_member_data := { rm_groupId : string; rm_userId : jsval }.

Record add_members_data := { am_groupId : string; am_userIds : list jsval }.

Definition skip : proc -> proc := fun k => k.

Definition dquote : string := String (ascii_of_nat 34) EmptyString.

Definition system_message (groupId message : string) : payload :=
  GroupMessage None groupId (JStr "system") "System" message true.

(** [socket.on('private-message')] *)
Definition on_private_message (socket_id : string)
  (data : private_message_data) : proc :=
  let! users := GetUsers in
  let recipientSocketId := findSocketIdByUserId users (pm_toUserId data) in
  let roomId := roomId (pm_fromUserId data) (pm_toUserId data) in
  let! r := DbQuery (InsertMessage (pm_fromUserId data) (pm_message data)
                       roomId None) in
  (match truthy recipientSocketId with
   | Some recipient =>
       Emit (ToRoom recipient)
         (PrivateMessage (pm_fromUserId data) (pm_fromUserName data)
            (pm_message data))
   | None => skip
   end) ;;
  Emit (ToSocket socket_id)
    (MessageSent (pm_toUserId data) (pm_message data)
       (match r with
        | Ok result => Some (insertId result)
        | Err _ => None
        end)) ;;
  Done.

(** [socket.on('create-group')] *)
Definition on_create_group (socket_id : string) (data : create_group_data)
  : proc :=
  let! userData := GetUser socket_id in
  match userData with
  | None => Done
  | Some userData =>
      let! now := DateNow in
      let groupId := "group_" ++ Z_to_string now in
      let groupName := cg_groupName data in
      let memberIds :=
        match cg_memberIds data with Some l => l | None => [] end in
      let memberIds :=
        if array_includes memberIds (userId userData) then memberIds
        else (memberIds ++ [userId userData])%list in
      let! r := DbQuery (InsertGroup groupName (userId userData) groupId) in
      match r with
      | Err _ =>
          Emit (ToSocket socket_id)
            (GroupCreatedError "Failed to create group") ;;
          Done
      | Ok result =>
          let memberValues :=
            map (fun memberId => (groupId, memberId)) memberIds in
          let! r := DbQuery (InsertMembers false memberValues) in
          match r with
          | Err _ =>
              Emit (ToSocket socket_id)
                (GroupCreatedError "Failed to add members") ;;
              Done
          | Ok _ =>
              Join socket_id groupId ;;
              let groupObject :=
                {| go_id := insertId result; go_groupId := groupId;
                   go_name := groupName; go_creatorId := userId userData;
                   go_memberIds := Some memberIds |} in
              for_each memberIds (fun memberId k =>
                let! users := GetUsers in
                match truthy (findSocketIdByUserId users memberId) with
                | Some memberSocketId =>
                    Emit (ToRoom memberSocketId) (GroupCreated groupObject) ;;
                    if negb (String.eqb memberSocketId socket_id) then
                      let! memberSocket := SocketsGet memberSocketId in
                      if memberSocket then Join memberSocketId groupId k
                      else k
                    else k
                | None => k
                end) ;;
              Emit (ToRoom groupId)
                (system_message groupId
                   ("Group " ++ dquote ++ groupName ++ dquote
                    ++ " created by " ++ userName userData)) ;;
              Done
          end
      end
  end.

(** The inner function of the group-message handler. *)
Definition sendGroupMessage (result : header) (groupId : string)
  (userData : conn) (message : string) : proc -> proc :=
  Emit (ToRoom groupId)
    (GroupMessage (Some (insertId result)) groupId (userId userData)
       (userName userData) message false).

(** [socket.on('group-message')] *)
Definition on_group_message (socket_id : string) (data : group_message_data)
  : proc :=
  let! userData := GetUser socket_id in
  match userData with
  | None => Done
  | Some userData =>
      let groupId := gm_groupId data in
      let message := gm_message data in
      let! rooms := SocketRooms socket_id in
      (if negb (existsb (String.eqb groupId) rooms)
       then Join socket_id groupId else skip) ;;
      let! r := DbQuery (InsertMessage (userId userData) message groupId
                           (Some true)) in
      match r with
      | Err err =>
          if String.eqb (code err) "ER_BAD_FIELD_ERROR" then
            match sqlMessage err with
            | None => Throw "TypeError"
            | Some text =>
                if string_includes text "is_group" then
                  let! r := DbQuery (InsertMessage (userId userData) message
                                       groupId None) in
                  match r with
                  | Err _ => Done
                  | Ok result =>
                      sendGroupMessage result groupId userData message ;;
                      Done
                  end
                else Done
            end
          else Done
      | Ok result =>
          sendGroupMessage result groupId userData message ;; Done
      end
  end.

(** [socket.on('leave-group')] *)
Definition on_leave_group (socket_id : string) (groupId : string) : proc :=
  let! userData := GetUser socket_id in
  match userData with
  | None => Done
  | Some userData =>
      let! r := DbQuery (DeleteMember groupId (userId userData)) in
      match r with
      | Err _ =>
          Emit (ToSocket socket_id) (LeaveGroupError "Failed to leave group") ;;
          Done
      | Ok _ =>
          Leave socket_id groupId ;;
          Emit (ToSocket socket_id) (LeaveGroupResult groupId) ;;
          Emit (ToRoom groupId)
            (system_message groupId
               (userName userData ++ " has left the group")) ;;
          let! r := DbQuery (CountMembers groupId) in
          match r with
          | Err _ => Done
          | Ok memberCount =>
              if memberCount =? 0
              then let! _ := DbQuery (DeleteGroup groupId) in Done
              else Done
          end
      end
  end.

(** [socket.on('remove-group-member')] *)
Definition on_remove_group_member (socket_id : string)
  (data : remove_member_data) : proc :=
  let! userData := GetUser socket_id in
  match userData with
  | None => Done
  | Some userData =>
      let groupId := rm_groupId data in
      let userId_ := rm_userId data in
      let! r := DbQuery (SelectGroupOfCreator groupId (userId userData)) in
      match r with
      | Err _ | Ok [] => Done
      | Ok (groupInfo :: _) =>
          let! r := DbQuery (SelectUserName userId_) in
          match r with
          | Err _ | Ok [] => Done
          | Ok (userName_ :: _) =>
              let! r := DbQuery (DeleteMember groupId userId_) in
              match r with
              | Err _ => Done
              | Ok _ =>
                  let! users := GetUsers in
                  (match truthy (findSocketIdByUserId users userId_) with
                   | Some removedUserSocketId => fun k =>
                       Emit (ToRoom removedUserSocketId)
                         (MemberRemoved groupId (Some (g_name groupInfo))
                            userId_ userName_) ;;
                       let! removedSocket := SocketsGet removedUserSocketId in
                       if removedSocket
                       then Leave removedUserSocketId groupId k
                       else k
                   | None => skip
                   end) ;;
                  Emit (ToRoom groupId)
                    (MemberRemoved groupId None userId_ userName_) ;;
                  Emit (ToRoom groupId)
                    (system_message groupId
                       (userName_ ++ " has been removed from the group by "
                        ++ userName userData)) ;;
                  Done
              end
          end
      end
  end.

(** [socket.on('add-group-members')] *)
Definition on_add_group_members (socket_id : string) (data : add_members_data)
  : proc :=
  let! userData := GetUser socket_id in
  match userData with
  | None => Done
  | Some userData =>
      let groupId := am_groupId data in
      let userIds := am_userIds data in
      let! r := DbQuery (SelectGroupOfCreator groupId (userId userData)) in
      match r with
      | Err _ | Ok [] => Done
      | Ok (groupInfo :: _) =>
          let memberValues :=
            map (fun memberId => (groupId, memberId)) userIds in
          let! r := DbQuery (InsertMembers true memberValues) in
          match r with
          | Err _ => Done
          | Ok _ =>
              let! r := DbQuery (SelectUsersIn userIds) in
              match r with
              | Err _ => Done
              | Ok addedUsers =>
                  for_each addedUsers (fun addedUser k =>
                    let! users := GetUsers in
                    match truthy (findSocketIdByUserId users
                                    (JNum (u_id addedUser))) with
                    | Some addedUserSocketId =>
                        let! addedSocket := SocketsGet addedUserSocketId in
                        (if addedSocket
                         then Join addedUserSocketId groupId else skip) ;;
                        Emit (ToRoom addedUserSocketId)
                          (GroupCreated
                             {| go_id := g_id groupInfo;
                                go_groupId := groupId;
                                go_name := g_name groupInfo;
                                go_creatorId := userId userData;
                                go_memberIds := None |}) ;;
                        k
                    | None => k
                    end) ;;
                  Emit (ToRoom groupId) (MembersAdded groupId addedUsers) ;;
                  for_each addedUsers (fun addedUser k =>
                    Emit (ToRoom groupId)
                      (system_message groupId
                         (u_name addedUser
                          ++ " has been added to the group by "
                          ++ userName userData)) ;;
                    k) ;;
                  Done
              end
          end
      end
  end.

(** [!userId] on a number or a string. *)
Definition falsy (v : jsval) : bool :=
  match v with
  | JNum n => n =? 0
  | JStr s => String.eqb s EmptyString
  end.

(** The helper [sendUserGroups(socket, userId)]. *)
Definition sendUserGroups (socket_id : string) (userId_ : jsval) : proc :=
  if falsy userId_ then Done
  else
    let! r := DbQuery (SelectUserGroups userId_) in
    match r with
    | Err _ => Done
    | Ok results => Emit (ToSocket socket_id) (GroupList results) ;; Done
    end.

(** [socket.on('request-groups')] *)
Definition on_request_groups (socket_id : string) : proc :=
  let! userData := GetUser socket_id in
  match userData with
  | None => Done
  | Some userData => sendUserGroups socket_id (userId userData)
  end.


(** [GET /api/groups/:groupId] *)
Definition get_group (groupId : string) : proc :=
  let! r := DbQuery (SelectGroupInfo groupId) in
  match r with
  | Err _ => Respond 500 (ErrorBody "Database error") ;; Done
  | Ok [] => Respond 404 (ErrorBody "Group not found") ;; Done
  | Ok (group :: _) =>
      let! r := DbQuery (SelectGroupMembers groupId) in
      match r with
      | Err _ => Respond 500 (ErrorBody "Database error") ;; Done
      | Ok memberResults =>
          Respond 200 (GroupBody group memberResults) ;; Done
      end
  end.

(** [GET /api/users/:userId/groups] *)
Definition get_user_groups (userId_ : string) : proc :=
  let! r := DbQuery (SelectUserGroups (JStr userId_)) in
  match r with
  | Err _ => Respond 500 (ErrorBody "Database error") ;; Done
  | Ok results => Respond 200 (GroupsBody results) ;; Done
  end.

(** [GET /api/groups/:groupId/messages] *)
Definition get_group_messages (groupId : string) : proc :=
  let! r := DbQuery (SelectRoomMessages groupId true) in
  match r with
  | Err err =>
      if (String.eqb (code err) "ER_BAD_FIELD_ERROR"
          && match sqlMessage err with
             | Some text =>
                 negb (String.eqb text EmptyString)
                 && string_includes text "is_group"
             | None => false
             end)%bool
      then
        let! r := DbQuery (SelectRoomMessages groupId false) in
        match r with
        | Err _ => Respond 500 (ErrorBody "Database error") ;; Done
        | Ok results => Respond 200 (MessagesBody results None) ;; Done
        end
      else Respond 500 (ErrorBody "Database error") ;; Done
  | Ok results => Respond 200 (MessagesBody results None) ;; Done
  end.

End Handlers.
Import Handlers.

(** ** Vocabulary of the statements *)

Module Spec.

Fixpoint string_forall (P : ascii -> bool) (s : string) : bool :=
  match s with
  | EmptyString => true
  | String c s' => (P c && string_forall P s')%bool
  end.

Definition is_digit (c : ascii) : bool :=
  (Nat.leb 48 (nat_of_ascii c) && Nat.leb (nat_of_ascii c) 57)%bool.

Definition is_decimal_char (c : ascii) : bool :=
  (is_digit c || Ascii.eqb c "-")%bool.

Definition not_white_space (c : ascii) : bool := negb (is_white_space c).

Definition not_underscore (c : ascii) : bool := negb (Ascii.eqb c "_").

(** An id token whose text, when it is a text with a numeric value, is the
    decimal writing of that value. *)
Definition canonical_id (v : jsval) : bool :=
  match v with
  | JNum _ => true
  | JStr s =>
      match string_to_number s with
      | Some n => String.eqb s (Z_to_string n)
      | None => true
      end
  end.

(** [Number.isSafeInteger]: the integers that a JavaScript number holds
    exactly and writes in plain decimal digits.  The ids of the schema are
    [INT] columns, well inside. *)
Definition safe_integer (n : Z) : bool := Z.abs n <? 2 ^ 53.

(** An integer id: a number that is a safe integer, or a text that is a
    decimal integer literal of one (a sign, leading zeros and ASCII white
    space around it are allowed).  On integer ids [Number], [==] against a
    number, [Math.min], [Math.max] and the template literal are those of
    JavaScript. *)
Definition integer_id (v : jsval) : bool :=
  match to_number v with
  | Some n => safe_integer n
  | None => false
  end.

(** An id token: a number that is a safe integer, or the decimal writing of
    one.  On id tokens the conversions of this file are those of
    JavaScript: [Number], [parseInt], [Math.min], [Math.max] and the template
    literal. *)
Definition id_token (v : jsval) : bool :=
  match v with
  | JNum n => safe_integer n
  | JStr s =>
      match string_to_number s with
      | Some n => (String.eqb s (Z_to_string n) && safe_integer n)%bool
      | None => false
      end
  end.

(** The world after the defensive re-join of the group-message handler. *)
Definition rejoin (sid g : string) (w : world) : world :=
  if existsb (String.eqb g) (socket_rooms sid w) then w else join sid g w.

(** What [sendGroupMessage] broadcasts for a stored message. *)
Definition group_broadcast (c : conn) (data : group_message_data)
  (h : header) : payload :=
  GroupMessage (Some (insertId h)) (gm_groupId data) (userId c)
    (userName c) (gm_message data) false.

(** The failure that names the missing optional column. *)
Definition missing_is_group (e : sql_error) : bool :=
  (String.eqb (code e) "ER_BAD_FIELD_ERROR"
   && match sqlMessage e with
      | Some text => string_includes text "is_group"
      | None => false
      end)%bool.

(** Group [g] is stored with user [n] as its creator. *)
Definition has_creator (g : string) (n : Z) (s : store) : bool :=
  existsb (fun r => (String.eqb (g_group_id r) g
                     && (g_creator_id r =? n))%bool) (chat_groups s).

(** Number of membership rows of the pair [(g, n)]. *)
Definition member_rows (g : string) (n : Z) (s : store) : nat :=
  List.length (filter (is_member g n) (group_members s)).

(** The member list that create-group persists for an invite list. *)
Definition with_creator (invited : list jsval) (creator : jsval)
  : list jsval :=
  if array_includes invited creator then invited
  else (invited ++ [creator])%list.

(** A handler part that only reads the process state and acts on the
    transport: no statement, no response, no exception. *)
Inductive transport_only : proc -> Prop :=
| transport_Done : transport_only Done
| transport_GetUser (sid : string) (k : option conn -> proc) :
    (forall x, transport_only (k x)) -> transport_only (GetUser sid k)
| transport_GetUsers (k : registry -> proc) :
    (forall x, transport_only (k x)) -> transport_only (GetUsers k)
| transport_SocketRooms (sid : string) (k : list string -> proc) :
    (forall x, transport_only (k x)) -> transport_only (SocketRooms sid k)
| transport_SocketsGet (sid : string) (k : bool -> proc) :
    (forall x, transport_only (k x)) -> transport_only (SocketsGet sid k)
| transport_Join (sid room : string) (k : proc) :
    transport_only k -> transport_only (Join sid room k)
| transport_Leave (sid room : string) (k : proc) :
    transport_only k -> transport_only (Leave sid room k)
| transport_Emit (t : target) (p : payload) (k : proc) :
    transport_only k -> transport_only (Emit t p k).

(** An observation of the world that a handler part leaves unchanged. *)
Definition keeps {A : Type} (f : world -> A) (p : proc) : Prop :=
  forall w, f (run p w) = f w.

(** The group ids that were sent to the store in [INSERT INTO chat_groups],
    in order. *)
Definition group_id_of_effect (e : effect) : list string :=
  match e with
  | Queried q _ =>
      match q with
      | InsertGroup _ _ g => [g]
      | _ => []
      end
  | _ => []
  end.

Definition created_group_ids (w : world) : list string :=
  flat_map group_id_of_effect (trace w).

(** [messageId] of the acknowledgment: the stored id, or [null]. *)
Definition id_or_null (r : result header) : option Z :=
  match r with
  | Ok h => Some (insertId h)
  | Err _ => None
  end.

End Spec.
Import Spec.

(** ** A small deployment used to exercise the statements *)

Module Scenario.

Definition ann : conn :=
  {| socketId := "sA"; userId := JNum 1; userName := "Ann"; online := true |}.

(** Bo's client sent its id as a text. *)
Definition bo : conn :=
  {| socketId := "sB"; userId := JStr "2"; userName := "Bo"; online := true |}.

Definition bo_phone : conn :=
  {| socketId := "sP"; userId := JNum 2; userName := "Bo"; online := true |}.

Definition store0 : store :=
  {| users := [ {| u_id := 1; u_name := "Ann" |};
                {| u_id := 2; u_name := "Bo" |};
                {| u_id := 3; u_name := "Cy" |} ];
     messages := []; chat_groups := []; group_members := [];
     has_is_group := true;
     next_message_id := 1; next_group_id := 1; next_member_id := 1 |}.

Definition world0 : world :=
  {| connectedUsers :=
       connectedUsers_set (connectedUsers_set [] "sA" ann) "sB" bo;
     sockets := ["sA"; "sB"];
     rooms := [("sA", "sA"); ("sB", "sB")];
     db := store0; faults := []; clock := 1700000000000; trace := [] |}.

(** The same deployment on the schema without [messages.is_group]. *)
Definition legacy0 : world :=
  {| connectedUsers := connectedUsers world0; sockets := sockets world0;
     rooms := rooms world0;
     db := {| users := users store0; messages := []; chat_groups := [];
              group_members := []; has_is_group := false;
              next_message_id := 1; next_group_id := 1;
              next_member_id := 1 |};
     faults := []; clock := clock world0; trace := [] |}.

Definition connection_lost : sql_error :=
  {| code := "PROTOCOL_CONNECTION_LOST"; sqlMessage := None |}.


Definition team : string := "group_1700000000000".

(** Ann creates the group "Team" and invites Bo. *)
Definition team_created : world :=
  run (on_create_group "sA"
         {| cg_groupName := "Team"; cg_memberIds := Some [JNum 2] |}) world0.

(** Then Bo leaves it. *)
Definition bo_left : world := run (on_leave_group "sB" team) team_created.

Definition hello : group_message_data :=
  {| gm_groupId := team; gm_message := "hi" |}.

Definition direct : private_message_data :=
  {| pm_toUserId := JStr "2"; pm_fromUserId := JNum 1;
     pm_fromUserName := "Ann"; pm_message := "hi" |}.

End Scenario.
Import Scenario.

(** ** Presence: identification, typing and disconnection

    The three handlers that the group and message handlers leave out.  They
    emit events of their own and issue two read statements of their own, so
    they are written as state-passing actions over the same [world] that
    return what they emitted.  Their two statements consume the fault
    schedule like the others but are not recorded in the trace. *)

Module Presence.

Record user_data := { ud_userId : jsval; ud_userName : string }.

Record typing_data := {
  ty_toUserId : jsval; ty_userId : jsval; ty_userName : string;
  ty_isTyping : bool }.

(** A row of the full user list sent to a newly identified client. *)
Record presence := { pr_userId : Z; pr_userName : string; pr_online : bool }.

(** What the three handlers emit; the constructor stands for the event name
    and the shape of its payload. *)
Inductive notice : Type :=
| UsersOnline (entries : list conn)
| UsersAll (users : list presence)
| StatusChange (userId : jsval) (userName : string) (online : bool)
| GroupsOfUser (groups : list (string * string))
| TypingNotice (userId : jsval) (userName : string) (isTyping : bool).

(** [io.emit], [socket.broadcast.emit], [socket.emit], [io.to(room).emit]. *)
Inductive audience : Type :=
| Everyone
| Others (sid : string)
| Self (sid : string)
| RoomOf (room : string).

Definition listeners (a : audience) (w : world) : list string :=
  match a with
  | Everyone => sockets w
  | Others sid => filter (fun s => negb (String.eqb s sid)) (sockets w)
  | Self sid => [sid]
  | RoomOf room => room_members room w
  end.

Record sent := { sent_to : audience; reached : list string; what : notice }.

(** An action: a result, the next world and the emissions, in order. *)
Definition act (A : Type) : Type := world -> A * world * list sent.

Definition ret {A : Type} (a : A) : act A := fun w => (a, w, []).

Definition bind {A B : Type} (m : act A) (k : A -> act B) : act B :=
  fun w =>
    let '(a, w1, l1) := m w in
    let '(b, w2, l2) := k a w1 in
    (b, w2, (l1 ++ l2)%list).

Notation "x <- m ;;; k" := (bind m (fun x => k))
  (at level 100, m at next level, right associativity, only parsing).
Notation "m ;;; k" := (bind m (fun _ => k))
  (at level 100, right associativity, only parsing).

Definition notify (a : audience) (n : notice) : act unit :=
  fun w => (tt, w, [{| sent_to := a; reached := listeners a w; what := n |}]).

Definition set_users (m : registry) (w : world) : world :=
  {| connectedUsers := m; sockets := sockets w; rooms := rooms w;
     db := db w; faults := faults w; clock := clock w; trace := trace w |}.

Definition connectedUsers_delete (m : registry) (sid : string) : registry :=
  filter (fun e => negb (String.eqb (fst e) sid)) m.

Definition users_set (sid : string) (c : conn) : act unit :=
  fun w => (tt, set_users (connectedUsers_set (connectedUsers w) sid c) w, []).

Definition users_delete (sid : string) : act unit :=
  fun w => (tt, set_users (connectedUsers_delete (connectedUsers w) sid) w, []).

Definition users_get (sid : string) : act (option conn) :=
  fun w => (connectedUsers_get (connectedUsers w) sid, w, []).

(** [Array.from(connectedUsers.values())] *)
Definition users_values : act (list conn) :=
  fun w => (map snd (connectedUsers w), w, []).

Definition users_entries : act registry :=
  fun w => (connectedUsers w, w, []).

Definition socket_join (sid room : string) : act unit :=
  fun w => (tt, join sid room w, []).

(** A read statement: the scheduled fault, or the rows of the tables. *)
Definition ask {R : Type} (rows : store -> result R) : act (result R) :=
  fun w =>
    match faults w with
    | Some e :: fs => (Err e, set_db (db w) fs w, [])
    | None :: fs => (rows (db w), set_db (db w) fs w, [])
    | [] => (rows (db w), w, [])
    end.

(** [SELECT id, name FROM users] *)
Definition select_users : act (result (list user_row)) :=
  ask (fun s => Ok (users s)).

(** [SELECT g.group_id, g.name FROM chat_groups g JOIN group_members gm
    ON g.group_id = gm.group_id WHERE gm.user_id = ?] *)
Definition groups_of (v : jsval) (s : store)
  : result (list (string * string)) :=
  match to_number v with
  | Some n =>
      Ok (flat_map
            (fun g =>
               map (fun _ => (g_group_id g, g_name g))
                 (filter (is_member (g_group_id g) n) (group_members s)))
            (chat_groups s))
  | None => Err wrong_value
  end.

Definition select_groups_of (v : jsval) : act (result (list (string * string))) :=
  ask (groups_of v).

Fixpoint each {A : Type} (l : list A) (body : A -> act unit) : act unit :=
  match l with
  | [] => ret tt
  | a :: rest => body a ;;; each rest body
  end.

Definition is_decimal_digit (c : ascii) : bool :=
  (Nat.leb 48 (nat_of_ascii c) && Nat.leb (nat_of_ascii c) 57)%bool.

(** The longest prefix of decimal digits. *)
Fixpoint digit_prefix (s : string) : string :=
  match s with
  | String c s' =>
      if is_decimal_digit c then String c (digit_prefix s') else EmptyString
  | EmptyString => EmptyString
  end.

Definition hex_value (c : ascii) : option Z :=
  let n := nat_of_ascii c in
  if (Nat.leb 48 n && Nat.leb n 57)%bool then Some (Z.of_nat n - 48)
  else if (Nat.leb 97 n && Nat.leb n 102)%bool then Some (Z.of_nat n - 87)
  else if (Nat.leb 65 n && Nat.leb n 70)%bool then Some (Z.of_nat n - 55)
  else None.

(** The value of the longest prefix of hexadecimal digits, [NaN] when it is
    empty. *)
Fixpoint hex_prefix (s : string) (acc : number) : number :=
  match s with
  | String c s' =>
      match hex_value c with
      | Some d =>
          hex_prefix s'
            (Some (16 * match acc with Some a => a | None => 0 end + d))
      | None => acc
      end
  | EmptyString => acc
  end.

(** The digits of [parseInt] after the sign: radix 16 after [0x] or [0X],
    radix 10 otherwise. *)
Definition parse_magnitude (s : string) : number :=
  match s with
  | String "0" (String "x" h) | String "0" (String "X" h) =>
      hex_prefix h None
  | _ => digits_to_number (digit_prefix s)
  end.

(** [parseInt(v)] with no radix: leading white space, a sign, then the
    longest prefix of digits.  A number is first written as text: in decimal
    digits, which is what JavaScript writes for a safe integer (and not for
    a number from 1e21 on).  The result is exact for a safe integer. *)
Definition parse_int (v : jsval) : number :=
  match trim_start (to_string v) with
  | String "-" t => option_map Z.opp (parse_magnitude t)
  | String "+" t => parse_magnitude t
  | t => parse_magnitude t
  end.

(** [socket.on('user-connected')] *)
Definition on_user_connected (socket_id : string) (userData : user_data)
  : act unit :=
  users_set socket_id
    {| socketId := socket_id; userId := ud_userId userData;
       userName := ud_userName userData; online := true |} ;;;
  entries <- users_values ;;;
  notify Everyone (UsersOnline entries) ;;;
  notify (Others socket_id)
    (StatusChange (ud_userId userData) (ud_userName userData) true) ;;;
  r <- select_users ;;;
  (match r with
   | Err _ => ret tt
   | Ok results =>
       entries <- users_values ;;;
       let allUsers :=
         map (fun user =>
                let isOnline :=
                  existsb (fun u =>
                             match parse_int (userId u) with
                             | Some k => k =? u_id user
                             | None => false
                             end) entries in
                {| pr_userId := u_id user; pr_userName := u_name user;
                   pr_online := isOnline |}) results in
       notify (Self socket_id) (UsersAll allUsers)
   end) ;;;
  r <- select_groups_of (ud_userId userData) ;;;
  match r with
  | Err _ => ret tt
  | Ok results =>
      if (0 <? List.length results)%nat then
        each results (fun group => socket_join socket_id (fst group)) ;;;
        notify (Self socket_id) (GroupsOfUser results)
      else notify (Self socket_id) (GroupsOfUser [])
  end.

(** [socket.on('typing')] *)
Definition on_typing (socket_id : string) (data : typing_data) : act unit :=
  users <- users_entries ;;;
  match truthy (findSocketIdByUserId users (ty_toUserId data)) with
  | Some recipientSocketId =>
      notify (RoomOf recipientSocketId)
        (TypingNotice (ty_userId data) (ty_userName data) (ty_isTyping data))
  | None => ret tt
  end.

(** [socket.on('disconnect')] *)
Definition on_disconnect (socket_id : string) : act unit :=
  userData <- users_get socket_id ;;;
  match userData with
  | Some userData =>
      users_delete socket_id ;;;
      notify Everyone (StatusChange (userId userData) (userName userData)
                         false) ;;;
      entries <- users_values ;;;
      notify Everyone (UsersOnline entries)
  | None => ret tt
  end.

(** What Socket.io has done when the handler of [disconnect] runs: the
    closing socket is in no room and is no longer a socket of the server.
    [on_disconnect] is the handler alone; the event is the handler on the
    world of [socket_closed], where [reached] no longer lists the socket. *)
Definition socket_closed (socket_id : string) (w : world) : world :=
  {| connectedUsers := connectedUsers w;
     sockets := filter (fun s => negb (String.eqb s socket_id)) (sockets w);
     rooms := filter (fun e => negb (String.eqb (fst e) socket_id)) (rooms w);
     db := db w; faults := faults w; clock := clock w; trace := trace w |}.

Definition disconnect_event (socket_id : string) : act unit :=
  fun w => on_disconnect socket_id (socket_closed socket_id w).

(** The world and the emissions of an action. *)
Definition world_after {A : Type} (m : act A) (w : world) : world :=
  snd (fst (m w)).

Definition emitted {A : Type} (m : act A) (w : world) : list sent :=
  snd (m w).

End Presence.
Import Presence.

(** ** Vocabulary of the further statements *)

Module Further.

Definition member_key (m : member_row) : string * Z :=
  (gm_group_id m, gm_user_id m).

(** The keys of the schema: [chat_groups.group_id] is unique,
    [group_members (group_id, user_id)] is unique, and the three foreign
    keys to [users] hold. *)
Record store_ok (s : store) : Prop := {
  groups_unique : NoDup (map g_group_id (chat_groups s));
  members_unique : NoDup (map member_key (group_members s));
  members_refer :
    forall m, In m (group_members s) -> has_user (gm_user_id m) s = true;
  creators_refer :
    forall g, In g (chat_groups s) -> has_user (g_creator_id g) s = true;
  authors_refer :
    forall m, In m (messages s) -> has_user (m_user_id m) s = true }.

(** The rows that the history statement without the flag reads for a room,
    before the limit. *)
Definition room_view (room : string) (s : store) : list message_view :=
  flat_map (view_message s)
    (filter (fun m => (String.eqb (m_room_id m) room
                       && (negb false || m_is_group m))%bool) (messages s)).

(** [ALTER TABLE messages ADD COLUMN is_group BOOLEAN DEFAULT FALSE]: every
    row that is there receives the default. *)
Definition add_is_group_column (s : store) : store :=
  {| users := users s;
     messages :=
       map (fun m => {| m_id := m_id m; m_user_id := m_user_id m;
                        m_content := m_content m; m_room_id := m_room_id m;
                        m_is_group := false |}) (messages s);
     chat_groups := chat_groups s;
     group_members := group_members s;
     has_is_group := true;
     next_message_id := next_message_id s;
     next_group_id := next_group_id s;
     next_member_id := next_member_id s |}.

(** The first step of the schema check script, on a store that answers:
    the column is added when [SHOW COLUMNS] does not list it. *)
Definition checkMessageTable (s : store) : store :=
  if has_is_group s then s else add_is_group_column s.

(** The world with other tables. *)
Definition with_db (s : store) (w : world) : world := set_db s (faults w) w.

(** The rows of the full user list: a user is shown online when the id of
    some registered connection parses to the user's id. *)
Definition presence_rows (entries : list conn) (results : list user_row)
  : list presence :=
  map (fun user =>
         {| pr_userId := u_id user; pr_userName := u_name user;
            pr_online :=
              existsb (fun u =>
                         match parse_int (userId u) with
                         | Some k => k =? u_id user
                         | None => false
                         end) entries |}) results.

(** A character after which a text that starts with decimal digits is no
    numeric literal: a printable ASCII character that is no digit, no
    decimal point, no exponent mark and no radix mark.  [Number] of such a
    text is [NaN], while [parseInt] reads the digits. *)
Definition breaks_numeral (c : ascii) : bool :=
  let n := nat_of_ascii c in
  (Nat.leb 33 n && Nat.leb n 126 && negb (is_decimal_digit c)
   && negb (existsb (Ascii.eqb c) ["."; "e"; "E"; "x"; "X"; "o"; "O"; "b"; "B"]%char))%bool.

(** The entry that identification stores. *)
Definition entry_of (sid : string) (ud : user_data) : conn :=
  {| socketId := sid; userId := ud_userId ud; userName := ud_userName ud;
     online := true |}.

(** The connections that create-group joins besides the creator's: for each
    member id the first connection registered for it, when it is not the
    creator's and is a live socket. *)
Definition member_sockets (m : registry) (live : list string) (sid : string)
  (memberIds : list jsval) : list string :=
  flat_map
    (fun v =>
       match truthy (findSocketIdByUserId m v) with
       | Some ms =>
           if (negb (String.eqb ms sid) && existsb (String.eqb ms) live)%bool
           then [ms] else []
       | None => []
       end) memberIds.

End Further.
Import Further.

(** ** Further scenarios *)

Module Cases.

(** Bo is connected from two devices. *)
Definition two_devices : world :=
  {| connectedUsers := [("sA", ann); ("sB", bo); ("sP", bo_phone)];
     sockets := ["sA"; "sB"; "sP"];
     rooms := [("sA", "sA"); ("sB", "sB"); ("sP", "sP")];
     db := store0; faults := []; clock := clock world0; trace := [] |}.

(** Ann's client sent its id as a text, and she invites herself by
    number. *)
Definition ann_text : conn :=
  {| socketId := "sA"; userId := JStr "1"; userName := "Ann";
     online := true |}.

Definition text0 : world :=
  {| connectedUsers := [("sA", ann_text)]; sockets := ["sA"];
     rooms := [("sA", "sA")];
     db := store0; faults := []; clock := clock world0; trace := [] |}.

Definition with_herself : create_group_data :=
  {| cg_groupName := "Team"; cg_memberIds := Some [JNum 1; JNum 2] |}.



(** The store answers the next statement and fails the one after. *)
Definition second_fails : world :=
  set_db store0 [None; Some connection_lost] world0.

(** The group of Ann and Bo is there, and the store fails the next
    statement. *)
Definition team_outage : world :=
  set_db (db team_created) [Some connection_lost] team_created.

(** Ann invites Cy, who is not connected; Cy identifies later. *)
Definition with_cy : create_group_data :=
  {| cg_groupName := "Plans"; cg_memberIds := Some [JNum 3] |}.

Definition cy_arrives : user_data :=
  {| ud_userId := JStr "3"; ud_userName := "Cy" |}.

(** A client that identifies under a text with a digit prefix. *)
Definition cy_tagged : user_data :=
  {| ud_userId := JStr "3abc"; ud_userName := "Cy" |}.

Definition bo_returns : user_data :=
  {| ud_userId := JNum 2; ud_userName := "Bo" |}.

Definition ann_types : typing_data :=
  {| ty_toUserId := JNum 2; ty_userId := JNum 1; ty_userName := "Ann";
     ty_isTyping := true |}.

End Cases.
Import Cases.

(** Projections of a world through the state updates. *)
Ltac world_simpl :=
  cbn [db rooms faults trace connectedUsers sockets clock
       set_db set_rooms record emit leave
       set_chat_groups set_group_members add_member add_group add_message
       group_members chat_groups users messages has_is_group].

(** ** Conversions between numbers and their decimal text *)

Section Conversions.

Lemma digit_not_white_space (c : ascii) :
  is_decimal_char c = true -> not_white_space c = true.
Proof.
  destruct c as [[|] [|] [|] [|] [|] [|] [|] [|]];
    vm_compute; congruence.
Qed.

Lemma digit_not_underscore (c : ascii) :
  is_decimal_char c = true -> not_underscore c = true.
Proof.
  destruct c as [[|] [|] [|] [|] [|] [|] [|] [|]];
    vm_compute; congruence.
Qed.

Lemma string_forall_impl (P Q : ascii -> bool) (s : string) :
  (forall c, P c = true -> Q c = true) ->
  string_forall P s = true -> string_forall Q s = true.
Proof.
  intros HPQ. induction s as [|c s IH]; simpl; [reflexivity|].
  intros H. apply andb_true_iff in H as [Hc Hs].
  now rewrite (HPQ _ Hc), IH.
Qed.

Lemma string_of_uint_digits (d : Decimal.uint) :
  string_forall is_digit (NilEmpty.string_of_uint d) = true.
Proof.
  induction d; simpl; auto.
Qed.

Lemma string_of_uint_nonempty (d : Decimal.uint) :
  d <> Decimal.Nil -> NilEmpty.string_of_uint d <> EmptyString.
Proof.
  destruct d; simpl; congruence.
Qed.

Lemma Z_to_string_decimal (z : Z) :
  string_forall is_decimal_char (Z_to_string z) = true.
Proof.
  assert (Hd : forall d, string_forall is_decimal_char
                           (NilZero.string_of_uint d) = true).
  { intros d. apply string_forall_impl with (P := is_digit).
    - intros c Hc. unfold is_decimal_char. now rewrite Hc.
    - destruct d; try apply (string_of_uint_digits (_ d)); reflexivity. }
  destruct z; unfold Z_to_string; simpl; auto.
Qed.

Lemma trim_end_id (s : string) :
  string_forall not_white_space s = true -> trim_end s = s.
Proof.
  induction s as [|c s IH]; simpl; [reflexivity|].
  intros H. apply andb_true_iff in H as [Hc Hs].
  rewrite (IH Hs). unfold not_white_space in Hc.
  apply negb_true_iff in Hc. rewrite Hc. now destruct s.
Qed.

Lemma trim_id (s : string) :
  string_forall not_white_space s = true -> trim s = s.
Proof.
  intros H. unfold trim.
  replace (trim_start s) with s; [now apply trim_end_id|].
  destruct s as [|c s]; simpl in *; [reflexivity|].
  apply andb_true_iff in H as [Hc _].
  unfold not_white_space in Hc. apply negb_true_iff in Hc. now rewrite Hc.
Qed.

Lemma string_to_number_digits (c : ascii) (s : string) :
  string_forall is_digit (String c s) = true ->
  string_to_number (String c s) = digits_to_number (String c s).
Proof.
  intros H. unfold string_to_number. rewrite trim_id.
  - simpl in H. apply andb_true_iff in H as [Hc _]. revert Hc.
    destruct c as [[|] [|] [|] [|] [|] [|] [|] [|]];
      vm_compute; congruence.
  - revert H. apply string_forall_impl. intros a Ha.
    apply digit_not_white_space. unfold is_decimal_char. now rewrite Ha.
Qed.

Lemma digits_of_pos (p : positive) :
  digits_to_number (NilEmpty.string_of_uint (Pos.to_uint p))
  = Some (Z.pos p).
Proof.
  unfold digits_to_number.
  pose proof (NilZero.usu (Pos.to_uint p)
                (DecimalPos.Unsigned.to_uint_nonnil p)) as H.
  assert (E : NilZero.string_of_uint (Pos.to_uint p)
              = NilEmpty.string_of_uint (Pos.to_uint p)).
  { pose proof (DecimalPos.Unsigned.to_uint_nonnil p).
    now destruct (Pos.to_uint p). }
  rewrite E in H. rewrite H. simpl. unfold Z.of_uint.
  now rewrite DecimalPos.Unsigned.of_to.
Qed.

(** The text of a number converts back to the number. *)
Lemma string_to_number_Z_to_string (z : Z) :
  string_to_number (Z_to_string z) = Some z.
Proof.
  destruct z as [|p|p].
  - reflexivity.
  - unfold Z_to_string. simpl Z.to_int. simpl NilZero.string_of_int.
    pose proof (DecimalPos.Unsigned.to_uint_nonnil p) as Hn.
    assert (E : NilZero.string_of_uint (Pos.to_uint p)
                = NilEmpty.string_of_uint (Pos.to_uint p))
      by now destruct (Pos.to_uint p).
    rewrite E.
    pose proof (string_of_uint_digits (Pos.to_uint p)) as Hd.
    pose proof (string_of_uint_nonempty _ Hn) as Hne.
    pose proof (digits_of_pos p) as Hp.
    destruct (NilEmpty.string_of_uint (Pos.to_uint p)) as [|c s];
      [congruence|].
    now rewrite string_to_number_digits.
  - unfold Z_to_string. simpl Z.to_int. simpl NilZero.string_of_int.
    pose proof (DecimalPos.Unsigned.to_uint_nonnil p) as Hn.
    assert (E : NilZero.string_of_uint (Pos.to_uint p)
                = NilEmpty.string_of_uint (Pos.to_uint p))
      by now destruct (Pos.to_uint p).
    rewrite E. unfold string_to_number. rewrite trim_id.
    + rewrite digits_of_pos. reflexivity.
    + simpl. apply string_forall_impl with (P := is_digit).
      * intros a Ha. apply digit_not_white_space.
        unfold is_decimal_char. now rewrite Ha.
      * apply string_of_uint_digits.
Qed.

Lemma Z_to_string_inj (a b : Z) : Z_to_string a = Z_to_string b -> a = b.
Proof.
  intros H.
  pose proof (string_to_number_Z_to_string a) as Ha.
  rewrite H, string_to_number_Z_to_string in Ha. congruence.
Qed.

(** Two texts without underscore that are followed by an underscore are
    cut at the same place. *)
Lemma append_underscore_inj (s s' t t' : string) :
  string_forall not_underscore s = true ->
  string_forall not_underscore s' = true ->
  (s ++ String "_" t = s' ++ String "_" t')%string -> s = s' /\ t = t'.
Proof.
  revert s'. induction s as [|c s IH]; intros [|c' s'] Hs Hs' E; simpl in *.
  - injection E as ->. auto.
  - injection E as <- _. discriminate.
  - injection E as -> _. discriminate.
  - apply andb_true_iff in Hs as [_ Hs].
    apply andb_true_iff in Hs' as [_ Hs'].
    injection E as -> E. destruct (IH _ Hs Hs' E) as [-> ->]. auto.
Qed.

End Conversions.

(** ** The private room token *)

Section RoomToken.

Lemma roomId_numbers (va vb : jsval) (a b : Z) :
  to_number va = Some a -> to_number vb = Some b ->
  roomId va vb
  = ("private_" ++ Z_to_string (Z.min a b) ++ "_"
     ++ Z_to_string (Z.max a b))%string.
Proof.
  intros Ha Hb. unfold roomId, math_min, math_max. now rewrite Ha, Hb.
Qed.

(** The scenario of users 5 and 9, in both directions and with a text id. *)
Example roomId_5_9 :
  roomId (JNum 5) (JNum 9) = "private_5_9" /\
  roomId (JNum 9) (JNum 5) = "private_5_9" /\
  roomId (JStr "9") (JNum 5) = "private_5_9".
Proof. repeat split. Qed.

(** C7.  For two distinct numeric user ids the private room token does not
    depend on the order of the two arguments, and two pairs of distinct ids
    have the same token exactly when they are the same unordered pair.  The
    ids are safe integers, as the values of an [INT] column are: beyond
    2^53 two ids can be the same double and get the same token. *)
Theorem roomId_order_independent_and_injective
  (va vb vc vd : jsval) (a b c d : Z) :
  to_number va = Some a -> to_number vb = Some b ->
  to_number vc = Some c -> to_number vd = Some d ->
  safe_integer a = true -> safe_integer b = true ->
  safe_integer c = true -> safe_integer d = true ->
  a <> b -> c <> d ->
  roomId va vb = roomId vb va /\
  (roomId va vb = roomId vc vd <-> (a = c /\ b = d) \/ (a = d /\ b = c)).
Proof.
  intros Ha Hb Hc Hd _ _ _ _ Hab Hcd.
  rewrite (roomId_numbers va vb a b), (roomId_numbers vb va b a),
    (roomId_numbers vc vd c d) by assumption.
  split.
  - now rewrite Z.min_comm, Z.max_comm.
  - split.
    + intros E. simpl in E.
      injection E as E.
      apply append_underscore_inj in E as [Emin Emax].
      * apply Z_to_string_inj in Emin. apply Z_to_string_inj in Emax. lia.
      * apply string_forall_impl with (P := is_decimal_char);
          [apply digit_not_underscore | apply Z_to_string_decimal].
      * apply string_forall_impl with (P := is_decimal_char);
          [apply digit_not_underscore | apply Z_to_string_decimal].
    + intros [[-> ->] | [-> ->]]; [reflexivity|].
      now rewrite Z.min_comm, Z.max_comm.
Qed.

Lemma roomId_order_independent_and_injective_witness :
  (safe_integer 5 = true /\ safe_integer 9 = true) /\
  roomId (JNum 5) (JStr "9") = roomId (JStr "9") (JNum 5) /\
  (roomId (JNum 5) (JStr "9") = roomId (JNum 9) (JNum 5)
   <-> (5 = 9 /\ 9 = 5) \/ (5 = 5 /\ 9 = 9)).
Proof.
  split; [split; reflexivity|].
  apply (roomId_order_independent_and_injective
           (JNum 5) (JStr "9") (JNum 9) (JNum 5) 5 9 9 5);
    solve [reflexivity | lia].
Defined.

End RoomToken.

(** ** Lookup of a connection by user id *)

Section Lookup.

Lemma loose_eq_to_number (a b : jsval) :
  loose_eq a b = true -> to_number a = to_number b.
Proof.
  destruct a as [x|s], b as [y|t]; simpl.
  - intros H. apply Z.eqb_eq in H. now subst.
  - destruct (string_to_number t); [|discriminate].
    intros H. apply Z.eqb_eq in H. now subst.
  - destruct (string_to_number s); [|discriminate].
    intros H. apply Z.eqb_eq in H. now subst.
  - intros H. apply String.eqb_eq in H. now subst.
Qed.

Lemma loose_eq_canonical (v u : jsval) (n : Z) :
  canonical_id v = true -> canonical_id u = true -> to_number u = Some n ->
  loose_eq v u = true <-> to_number v = Some n.
Proof.
  intros Hv Hu Hn. split.
  - intros H. apply loose_eq_to_number in H. congruence.
  - destruct v as [x|s], u as [y|t]; simpl in *.
    + intros [= ->]. injection Hn as ->. apply Z.eqb_refl.
    + rewrite Hn. intros [= ->]. apply Z.eqb_refl.
    + intros ->. injection Hn as ->. apply Z.eqb_refl.
    + intros Hs. rewrite Hs in Hv. rewrite Hn in Hu.
      apply String.eqb_eq in Hv, Hu. subst. apply String.eqb_refl.
Qed.

Lemma findSocketIdByUserId_first (m : registry) (u : jsval) (sid : string) :
  findSocketIdByUserId m u = Some sid ->
  exists pre c post,
    m = (pre ++ (sid, c) :: post)%list /\
    loose_eq (userId c) u = true /\
    forall e, In e pre -> loose_eq (userId (snd e)) u = false.
Proof.
  induction m as [|[k c] m IH]; simpl; [discriminate|].
  destruct (loose_eq (userId c) u) eqn:E.
  - intros [= ->]. exists [], c, m. repeat split; auto.
    intros e [].
  - intros H. destruct (IH H) as (pre & c' & post & -> & Hc & Hpre).
    exists ((k, c) :: pre), c', post. repeat split; auto.
    intros e [<- | He]; auto.
Qed.

Lemma findSocketIdByUserId_none (m : registry) (u : jsval) :
  findSocketIdByUserId m u = None <->
  forall sid c, In (sid, c) m -> loose_eq (userId c) u = false.
Proof.
  induction m as [|[k c] m IH]; simpl.
  - split; [intros _ sid c [] | reflexivity].
  - destruct (loose_eq (userId c) u) eqn:E.
    + split; [discriminate|]. intros H.
      specialize (H k c (or_introl eq_refl)). congruence.
    + rewrite IH. split.
      * intros H sid c' [[= <- <-] | Hin]; eauto.
      * intros H sid c' Hin. eauto.
Qed.

Lemma findSocketIdByUserId_ext (m : registry) (u u' : jsval) :
  (forall sid c, In (sid, c) m ->
                 loose_eq (userId c) u = loose_eq (userId c) u') ->
  findSocketIdByUserId m u = findSocketIdByUserId m u'.
Proof.
  induction m as [|[k c] m IH]; simpl; [reflexivity|].
  intros H. rewrite (H k c (or_introl eq_refl)).
  destruct (loose_eq (userId c) u'); [reflexivity|].
  apply IH. intros sid c' Hin. apply (H sid c'). now right.
Qed.

Lemma findSocketIdByUserId_oldest (pre post : registry) (s1 : string)
  (c1 : conn) (u : jsval) :
  loose_eq (userId c1) u = true ->
  (forall e, In e pre -> loose_eq (userId (snd e)) u = false) ->
  findSocketIdByUserId (pre ++ (s1, c1) :: post)%list u = Some s1.
Proof.
  intros Hc Hpre. induction pre as [|[k c] pre IH]; simpl.
  - now rewrite Hc.
  - pose proof (Hpre (k, c) (or_introl eq_refl)) as Hk. simpl in Hk.
    rewrite Hk. apply IH. intros e He. apply Hpre. now right.
Qed.

Lemma bool_eq_iff (x y : bool) : (x = true <-> y = true) -> x = y.
Proof. destruct x, y; intuition congruence. Qed.

Lemma id_token_canonical (v : jsval) :
  id_token v = true ->
  canonical_id v = true /\
  exists n, to_number v = Some n /\ safe_integer n = true.
Proof.
  destruct v as [x|s]; simpl.
  - intros H. split; [reflexivity|]. now exists x.
  - destruct (string_to_number s) as [n|]; [|discriminate].
    intros H. apply andb_true_iff in H as [Hs Hn]. split; [exact Hs|].
    now exists n.
Qed.

(** C9, as the code has it.  The comparison is [==], which compares two
    texts as texts: a connection registered under the text ["02"] is found
    by the number 2 and not by the text ["2"], so a number and its textual
    form do not find the same entry, and the text ["2"] gets not-found
    although an entry has the numeric value 2. *)
Lemma findSocketIdByUserId_number_and_text_differ :
  let m := [("sA", {| socketId := "sA"; userId := JStr "02";
                      userName := "Ann"; online := true |})] in
  to_number (JStr "02") = Some 2 /\
  to_number (JStr "2") = Some 2 /\
  findSocketIdByUserId m (JNum 2) = Some "sA" /\
  findSocketIdByUserId m (JStr "2") = None.
Proof.
  cbv zeta. split; [reflexivity|]. split; [reflexivity|].
  split; reflexivity.
Qed.

Lemma loose_eq_number (v : jsval) (n : Z) :
  loose_eq v (JNum n) = true <-> to_number v = Some n.
Proof.
  destruct v as [x|s]; simpl.
  - rewrite Z.eqb_eq. split; congruence.
  - destruct (string_to_number s) as [y|]; [|split; discriminate].
    rewrite Z.eqb_eq. split; congruence.
Qed.

(** C9, amended.  For a numeric argument (a safe integer) and a registry
    whose ids are integer ids, the lookup compares by numeric value: it
    returns the first entry, in the order of registration, whose id has the
    value of the argument, and [null] exactly when no entry has it.  A text
    argument finds the same entry as its number when it and the ids of the
    registry are id tokens, that is numbers or canonical decimal
    writings. *)
Theorem findSocketIdByUserId_compares_numeric_value
  (m : registry) (n : Z) :
  Forall (fun e => integer_id (userId (snd e)) = true) m ->
  safe_integer n = true ->
  (forall sid,
     findSocketIdByUserId m (JNum n) = Some sid <->
     exists pre c post,
       m = (pre ++ (sid, c) :: post)%list /\
       to_number (userId c) = Some n /\
       forall e, In e pre -> to_number (userId (snd e)) <> Some n) /\
  (findSocketIdByUserId m (JNum n) = None <->
   forall sid c, In (sid, c) m -> to_number (userId c) <> Some n) /\
  (Forall (fun e => id_token (userId (snd e)) = true) m ->
   forall u, id_token u = true -> to_number u = Some n ->
     findSocketIdByUserId m u = findSocketIdByUserId m (JNum n)).
Proof.
  intros _ _. split; [|split].
  - intros sid. split.
    + intros H.
      destruct (findSocketIdByUserId_first _ _ _ H)
        as (pre & c & post & E & Hc & Hpre).
      exists pre, c, post. split; [exact E|]. split.
      * now apply loose_eq_number.
      * intros e Hin Hv. apply loose_eq_number in Hv.
        rewrite (Hpre e Hin) in Hv. discriminate.
    + intros (pre & c & post & -> & Hc & Hpre).
      apply findSocketIdByUserId_oldest.
      * now apply loose_eq_number.
      * intros e Hin. destruct (loose_eq (userId (snd e)) (JNum n)) eqn:E;
          [|reflexivity].
        apply loose_eq_number in E. destruct (Hpre e Hin E).
  - rewrite findSocketIdByUserId_none. split.
    + intros H sid c Hin Hv. apply loose_eq_number in Hv.
      rewrite (H sid c Hin) in Hv. discriminate.
    + intros H sid c Hin.
      destruct (loose_eq (userId c) (JNum n)) eqn:E; [|reflexivity].
      apply loose_eq_number in E. destruct (H sid c Hin E).
  - intros Hm u Hu Hn.
    apply id_token_canonical in Hu as [Hu _].
    apply findSocketIdByUserId_ext. intros sid c Hin.
    rewrite Forall_forall in Hm.
    destruct (id_token_canonical _ (Hm (sid, c) Hin)) as [Hc _].
    apply bool_eq_iff.
    rewrite (loose_eq_canonical _ u n), loose_eq_number; auto. tauto.
Qed.

End Lookup.

(** ** Frame facts of the interpreter *)

Section Frames.

Lemma db_query_frame {R : Type} (q : query R) (w w' : world) (r : result R) :
  db_query q w = (r, w') ->
  connectedUsers w' = connectedUsers w /\ sockets w' = sockets w /\
  rooms w' = rooms w /\ clock w' = clock w /\
  trace w' = (trace w ++ [Queried q r])%list.
Proof.
  unfold db_query. destruct (answer q w) as [[r0 s] fs].
  intros [= <- <-]. simpl. auto.
Qed.

Lemma db_query_answer {R : Type} (q : query R) (w w' : world) (r : result R) :
  db_query q w = (r, w') ->
  answer q w = (r, db w', faults w').
Proof.
  unfold db_query. destruct (answer q w) as [[r0 s] fs].
  now intros [= <- <-].
Qed.

(** A statement that succeeds was executed on the tables. *)
Lemma db_query_ok {R : Type} (q : query R) (w w' : world) (x : R) :
  db_query q w = (Ok x, w') -> exec q (db w) = (Ok x, db w').
Proof.
  intros H. apply db_query_answer in H. unfold answer in H.
  destruct (faults w) as [|[e|] fs].
  - destruct (exec q (db w)) as [r s]. now injection H as -> ->.
  - discriminate.
  - destruct (exec q (db w)) as [r s]. now injection H as -> ->.
Qed.

(** Without scheduled faults the tables decide. *)
Lemma db_query_healthy {R : Type} (q : query R) (w : world) :
  faults w = [] ->
  db_query q w
  = (fst (exec q (db w)),
     record (Queried q (fst (exec q (db w))))
       (set_db (snd (exec q (db w))) [] w)).
Proof.
  intros H. unfold db_query, answer. rewrite H.
  now destruct (exec q (db w)).
Qed.

Lemma socket_rooms_in_room (sid g : string) (w : world) :
  existsb (String.eqb g) (socket_rooms sid w) = in_room sid g w.
Proof.
  unfold socket_rooms, in_room.
  induction (rooms w) as [|[s r] l IH]; simpl; [reflexivity|].
  destruct (String.eqb s sid); simpl; [|exact IH].
  now rewrite IH, (String.eqb_sym g r).
Qed.

Lemma in_room_members (sid g : string) (w : world) :
  in_room sid g w = true -> In sid (room_members g w).
Proof.
  unfold in_room, room_members. intros H.
  apply existsb_exists in H as [[s r] [Hin H]]. simpl in H.
  apply andb_true_iff in H as [Hs Hr].
  apply String.eqb_eq in Hs. subst s.
  apply in_map_iff. exists (sid, r). split; [reflexivity|].
  apply filter_In. auto.
Qed.

Lemma in_room_join (sid g : string) (w : world) :
  in_room sid g (join sid g w) = true.
Proof.
  unfold join. destruct (in_room sid g w) eqn:E; [exact E|].
  unfold in_room. simpl. rewrite existsb_app. simpl.
  now rewrite !String.eqb_refl, orb_true_r.
Qed.

Lemma in_room_join_mono (sid g s r : string) (w : world) :
  in_room s r w = true -> in_room s r (join sid g w) = true.
Proof.
  unfold join. destruct (in_room sid g w); [auto|].
  unfold in_room. simpl. rewrite existsb_app. intros ->. reflexivity.
Qed.

Lemma in_room_rejoin (sid g : string) (w : world) :
  in_room sid g (rejoin sid g w) = true.
Proof.
  unfold rejoin. rewrite socket_rooms_in_room.
  destruct (in_room sid g w) eqn:E; [exact E | apply in_room_join].
Qed.

Lemma rejoin_frame (sid g : string) (w : world) :
  connectedUsers (rejoin sid g w) = connectedUsers w /\
  db (rejoin sid g w) = db w /\ faults (rejoin sid g w) = faults w /\
  trace (rejoin sid g w)
  = (trace w ++ if in_room sid g w then [] else [Joined sid g])%list.
Proof.
  unfold rejoin. rewrite socket_rooms_in_room.
  destruct (in_room sid g w) eqn:E.
  - rewrite app_nil_r. auto.
  - unfold join. rewrite E. simpl. auto.
Qed.

Lemma run_rejoin (sid g : string) (k : proc) (w : world) :
  run ((if negb (existsb (String.eqb g) (socket_rooms sid w))
        then Join sid g else skip) k) w
  = run k (rejoin sid g w).
Proof.
  unfold rejoin. now destruct (existsb (String.eqb g) (socket_rooms sid w)).
Qed.

End Frames.

(** ** Group messages: persist, then broadcast *)

Section GroupMessage.

Variables (w : world) (sid : string) (c : conn) (data : group_message_data).
Hypothesis identified : connectedUsers_get (connectedUsers w) sid = Some c.

Let g := gm_groupId data.
Let m := gm_message data.
Let primary := InsertMessage (userId c) m g (Some true).
Let fallback := InsertMessage (userId c) m g None.
Let w1 := rejoin sid g w.

(** The handler, run against the world. *)
Lemma run_on_group_message :
  run (on_group_message sid data) w =
  let (r1, w2) := db_query primary w1 in
  match r1 with
  | Ok h => emit (ToRoom g) (group_broadcast c data h) w2
  | Err e =>
      if String.eqb (code e) "ER_BAD_FIELD_ERROR" then
        match sqlMessage e with
        | None => record (Uncaught "TypeError") w2
        | Some text =>
            if string_includes text "is_group" then
              let (r2, w3) := db_query fallback w2 in
              match r2 with
              | Ok h => emit (ToRoom g) (group_broadcast c data h) w3
              | Err _ => w3
              end
            else w2
        end
      else w2
  end.
Proof.
  unfold on_group_message. cbn [run]. rewrite identified. cbn [run].
  rewrite run_rejoin. cbn [run]. fold g m primary w1.
  destruct (db_query primary w1) as [[e|h] w2]; [|reflexivity].
  destruct (String.eqb (code e) "ER_BAD_FIELD_ERROR"); [|reflexivity].
  destruct (sqlMessage e) as [text|]; [|reflexivity].
  destruct (string_includes text "is_group"); [|reflexivity].
  cbn [run]. fold fallback.
  destruct (db_query fallback w2) as [[e2|h] w3]; reflexivity.
Qed.

Lemma room_members_after_query {R : Type} (q : query R) (r : result R)
  (u u' : world) (room : string) :
  db_query q u = (r, u') -> room_members room u' = room_members room u.
Proof.
  intros H. apply db_query_frame in H as (_ & _ & Hr & _).
  unfold room_members. now rewrite Hr.
Qed.

End GroupMessage.

(** C1.  A group message from an identified connection: the sender's
    connection is in the broadcast group before the store is asked, by the
    rooms of the adapter alone; when the insert succeeds the message goes to
    every connection in the room, the sender among them, with the id the
    store assigned; an emission only ever follows a successful insert. *)
Theorem group_message_persist_then_broadcast
  (w : world) (sid : string) (c : conn) (data : group_message_data) :
  connectedUsers_get (connectedUsers w) sid = Some c ->
  let g := gm_groupId data in
  let primary := InsertMessage (userId c) (gm_message data) g (Some true) in
  let fallback := InsertMessage (userId c) (gm_message data) g None in
  let w1 := rejoin sid g w in
  let w' := run (on_group_message sid data) w in
  (in_room sid g w1 = true /\
   db w1 = db w /\ faults w1 = faults w /\
   trace w1 = (trace w ++ if in_room sid g w then [] else [Joined sid g])%list)
  /\
  (forall h w2, db_query primary w1 = (Ok h, w2) ->
     w' = emit (ToRoom g) (group_broadcast c data h) w2 /\
     recipients (ToRoom g) w2 = room_members g w1 /\
     In sid (room_members g w1))
  /\
  (exists r1 rest,
     trace w' = (trace w1 ++ Queried primary r1 :: rest)%list /\
     match r1 with
     | Ok h =>
         rest = [Emitted (ToRoom g) (room_members g w1)
                   (group_broadcast c data h)]
     | Err e =>
         rest = [] \/ rest = [Uncaught "TypeError"] \/
         (exists e2, rest = [Queried fallback (Err e2)]) \/
         (exists h,
            rest = [Queried fallback (Ok h);
                    Emitted (ToRoom g) (room_members g w1)
                      (group_broadcast c data h)])
     end).
Proof.
  intros Hid g primary fallback w1 w'.
  pose proof (rejoin_frame sid g w) as (_ & Hdb & Hf & Ht).
  split; [|split].
  - repeat split; auto. apply in_room_rejoin.
  - intros h w2 Hq. subst w'. rewrite (run_on_group_message _ _ _ _ Hid).
    fold g primary w1. rewrite Hq.
    repeat split.
    + simpl. apply (room_members_after_query _ _ _ _ _ Hq).
    + apply in_room_members, in_room_rejoin.
  - subst w'. rewrite (run_on_group_message _ _ _ _ Hid).
    fold g primary fallback w1.
    destruct (db_query primary w1) as [r1 w2] eqn:Hq.
    pose proof (db_query_frame _ _ _ _ Hq) as (_ & _ & _ & _ & Ht2).
    pose proof (room_members_after_query _ _ _ _ g Hq) as Hm2.
    exists r1. destruct r1 as [e|h].
    + destruct (String.eqb (code e) "ER_BAD_FIELD_ERROR");
        [|exists []; auto].
      destruct (sqlMessage e) as [text|].
      * destruct (string_includes text "is_group"); [|exists []; auto].
        destruct (db_query fallback w2) as [r2 w3] eqn:Hq2.
        pose proof (db_query_frame _ _ _ _ Hq2) as (_ & _ & _ & _ & Ht3).
        pose proof (room_members_after_query _ _ _ _ g Hq2) as Hm3.
        destruct r2 as [e2|h].
        -- exists [Queried fallback (Err e2)]. split; [|eauto].
           now rewrite Ht3, Ht2, <- app_assoc.
        -- exists [Queried fallback (Ok h);
                   Emitted (ToRoom g) (room_members g w1)
                     (group_broadcast c data h)].
           split; [|right; right; right; eauto].
           simpl. rewrite Ht3, Ht2, Hm3, Hm2.
           now rewrite <- !app_assoc.
      * exists [Uncaught "TypeError"]. split; [|auto].
        simpl. now rewrite Ht2, <- app_assoc.
    + exists [Emitted (ToRoom g) (room_members g w1)
                (group_broadcast c data h)].
      split; [|reflexivity].
      simpl. now rewrite Ht2, Hm2, <- app_assoc.
Qed.

(** ** The schema fallback *)

Section SchemaFallback.

Lemma missing_is_group_unknown_column :
  missing_is_group (unknown_column "is_group" "field list") = true /\
  missing_is_group (unknown_column "m.is_group" "where clause") = true.
Proof. split; reflexivity. Qed.

(** The test of the history route is the same signature. *)
Lemma history_signature (e : sql_error) :
  (String.eqb (code e) "ER_BAD_FIELD_ERROR"
   && match sqlMessage e with
      | Some text =>
          negb (String.eqb text EmptyString)
          && string_includes text "is_group"
      | None => false
      end)%bool = missing_is_group e.
Proof.
  unfold missing_is_group. f_equal.
  destruct (sqlMessage e) as [[|a text]|]; reflexivity.
Qed.

Lemma run_get_group_messages (w : world) (g : string) :
  run (get_group_messages g) w =
  let (r1, w2) := db_query (SelectRoomMessages g true) w in
  match r1 with
  | Ok rows => record (Responded 200 (MessagesBody rows None)) w2
  | Err e =>
      if missing_is_group e then
        let (r2, w3) := db_query (SelectRoomMessages g false) w2 in
        match r2 with
        | Ok rows => record (Responded 200 (MessagesBody rows None)) w3
        | Err _ => record (Responded 500 (ErrorBody "Database error")) w3
        end
      else record (Responded 500 (ErrorBody "Database error")) w2
  end.
Proof.
  unfold get_group_messages. cbn [run].
  destruct (db_query (SelectRoomMessages g true) w) as [[e|rows] w2];
    [|reflexivity].
  rewrite history_signature.
  destruct (missing_is_group e); [|reflexivity].
  cbn [run].
  destruct (db_query (SelectRoomMessages g false) w2) as [[e2|rows] w3];
    reflexivity.
Qed.

End SchemaFallback.

(** C2.  When the insert with [is_group] fails with the unknown-column
    failure that names [is_group], the same insert is issued without the
    column and what follows is what follows the primary insert: a stored
    message is broadcast with its id.  On a store whose [messages] table
    lacks the column the message is stored and broadcast.  After any other
    failure of the primary insert nothing is emitted.  The history route
    reads with the filter first and, on the same failure, without it. *)
Theorem schema_fallback_insert_and_history
  (w : world) (sid : string) (c : conn) (data : group_message_data)
  (room : string) :
  connectedUsers_get (connectedUsers w) sid = Some c ->
  let g := gm_groupId data in
  let m := gm_message data in
  let primary := InsertMessage (userId c) m g (Some true) in
  let fallback := InsertMessage (userId c) m g None in
  let w1 := rejoin sid g w in
  let w' := run (on_group_message sid data) w in
  let filtered := SelectRoomMessages room true in
  let unfiltered := SelectRoomMessages room false in
  let v' := run (get_group_messages room) w in
  (forall e w2, db_query primary w1 = (Err e, w2) ->
     missing_is_group e = true ->
     forall r2 w3, db_query fallback w2 = (r2, w3) ->
       w' = match r2 with
            | Ok h => emit (ToRoom g) (group_broadcast c data h) w3
            | Err _ => w3
            end)
  /\
  (forall h w2, db_query primary w1 = (Ok h, w2) ->
     w' = emit (ToRoom g) (group_broadcast c data h) w2)
  /\
  (forall n, has_is_group (db w) = false -> faults w = [] ->
     to_number (userId c) = Some n -> has_user n (db w) = true ->
     let h := header_of (next_message_id (db w)) 1 in
     messages (db w')
     = (messages (db w) ++
        [{| m_id := next_message_id (db w); m_user_id := n; m_content := m;
            m_room_id := g; m_is_group := false |}])%list /\
     trace w'
     = (trace w1 ++
        [Queried primary (Err (unknown_column "is_group" "field list"));
         Queried fallback (Ok h);
         Emitted (ToRoom g) (room_members g w1)
           (group_broadcast c data h)])%list)
  /\
  (forall e w2, db_query primary w1 = (Err e, w2) ->
     missing_is_group e = false ->
     db w' = db w2 /\ rooms w' = rooms w1 /\
     exists rest,
       trace w' = (trace w1 ++ Queried primary (Err e) :: rest)%list /\
       (rest = [] \/ rest = [Uncaught "TypeError"]))
  /\
  (forall rows w2, db_query filtered w = (Ok rows, w2) ->
     v' = record (Responded 200 (MessagesBody rows None)) w2)
  /\
  (forall e w2, db_query filtered w = (Err e, w2) ->
     missing_is_group e = true ->
     forall r2 w3, db_query unfiltered w2 = (r2, w3) ->
       v' = match r2 with
            | Ok rows => record (Responded 200 (MessagesBody rows None)) w3
            | Err _ => record (Responded 500 (ErrorBody "Database error")) w3
            end)
  /\
  (forall e w2, db_query filtered w = (Err e, w2) ->
     missing_is_group e = false ->
     v' = record (Responded 500 (ErrorBody "Database error")) w2).
Proof.
  intros Hid g m primary fallback w1 w' filtered unfiltered v'.
  assert (Hrun := run_on_group_message w sid c data Hid).
  fold g m primary fallback w1 w' in Hrun.
  assert (Hhist := run_get_group_messages w room).
  fold filtered unfiltered v' in Hhist.
  repeat apply conj.
  - intros e w2 Hq He r2 w3 Hq2. rewrite Hrun, Hq.
    unfold missing_is_group in He. apply andb_true_iff in He as [Hc Ht].
    rewrite Hc. destruct (sqlMessage e) as [text|]; [|discriminate].
    now rewrite Ht, Hq2.
  - intros h w2 Hq. now rewrite Hrun, Hq.
  - intros n Hleg Hf Hn Hu h.
    pose proof (rejoin_frame sid g w) as (_ & Hdb1 & Hf1 & _).
    fold w1 in Hdb1, Hf1.
    rewrite Hrun. rewrite db_query_healthy by congruence.
    cbn [exec primary fst snd]. rewrite Hdb1, Hleg.
    cbn [fst snd unknown_column code sqlMessage String.eqb Ascii.eqb
         Bool.eqb].
    change (string_includes
              ("Unknown column '" ++ "is_group" ++ "' in '"
               ++ "field list" ++ "'")
              "is_group") with true.
    cbv iota.
    rewrite db_query_healthy by reflexivity.
    cbn [exec fallback fst snd db set_db record].
    unfold with_int. rewrite Hn, Hu.
    cbn [fst snd]. split; [reflexivity|].
    cbn [emit record set_db trace recipients]. rewrite <- !app_assoc.
    reflexivity.
  - intros e w2 Hq He. rewrite Hrun, Hq.
    pose proof (db_query_frame _ _ _ _ Hq) as (_ & _ & Hr & _ & Ht).
    unfold missing_is_group in He.
    destruct (String.eqb (code e) "ER_BAD_FIELD_ERROR");
      [|repeat split; auto; exists []; auto].
    destruct (sqlMessage e) as [text|].
    + simpl in He. rewrite He. repeat split; auto. exists []; auto.
    + repeat split; auto. exists [Uncaught "TypeError"].
      split; [|auto]. simpl. now rewrite Ht, <- app_assoc.
  - intros rows w2 Hq. now rewrite Hhist, Hq.
  - intros e w2 Hq He r2 w3 Hq2. rewrite Hhist, Hq, He, Hq2.
    now destruct r2.
  - intros e w2 Hq He. now rewrite Hhist, Hq, He.
Qed.

(** ** Direct messages *)


(** ** Guards *)

(** C10.  An event of a connection without an entry in [connectedUsers]
    leaves the world as it is: no statement is sent to the store, no room
    changes and nothing is emitted. *)
Theorem unidentified_events_are_noops
  (w : world) (sid : string)
  (cg : create_group_data) (gm : group_message_data) (lg : string)
  (rm : remove_member_data) (am : add_members_data) :
  connectedUsers_get (connectedUsers w) sid = None ->
  run (on_create_group sid cg) w = w /\
  run (on_group_message sid gm) w = w /\
  run (on_leave_group sid lg) w = w /\
  run (on_remove_group_member sid rm) w = w /\
  run (on_add_group_members sid am) w = w /\
  run (on_request_groups sid) w = w.
Proof.
  intros H.
  unfold on_create_group, on_group_message, on_leave_group,
    on_remove_group_member, on_add_group_members, on_request_groups.
  cbn [run]. rewrite H. cbn [run]. repeat split.
Qed.

Section CreatorOnly.

Lemma existsb_false_filter {A : Type} (f : A -> bool) (l : list A) :
  existsb f l = false -> filter f l = [].
Proof.
  induction l as [|a l IH]; simpl; [reflexivity|].
  destruct (f a); simpl; [discriminate | exact IH].
Qed.

(** What the creator check receives when the caller is not the creator. *)
Lemma creator_check_rejects (w w2 : world) (c : conn) (g : string) (n : Z)
  (r : result (list group_row)) :
  to_number (userId c) = Some n ->
  has_creator g n (db w) = false ->
  db_query (SelectGroupOfCreator g (userId c)) w = (r, w2) ->
  (r = Ok [] \/ exists e, r = Err e) /\ db w2 = db w.
Proof.
  intros Hn Hc Hq. apply db_query_answer in Hq. unfold answer in Hq.
  assert (Hx : exec (SelectGroupOfCreator g (userId c)) (db w)
               = (Ok [], db w)).
  { cbn [exec]. unfold with_int. rewrite Hn.
    unfold has_creator in Hc. now rewrite (existsb_false_filter _ _ Hc). }
  rewrite Hx in Hq.
  destruct (faults w) as [|[e|] fs]; injection Hq as <- <- _; eauto.
Qed.

End CreatorOnly.

(** C4.  When the caller of add-members or remove-member is not the
    persisted creator of the group (the group has another creator, or there
    is no such group), the handler stops after the creator check: the tables
    and the rooms are as before and the only effect is the check itself, so
    no row is written, no connection joins or leaves and nothing is
    emitted. *)
Theorem creator_only_operations_have_no_side_effects
  (w : world) (sid : string) (c : conn) (n : Z)
  (am : add_members_data) (rm : remove_member_data) :
  connectedUsers_get (connectedUsers w) sid = Some c ->
  to_number (userId c) = Some n ->
  (has_creator (am_groupId am) n (db w) = false ->
   let w' := run (on_add_group_members sid am) w in
   db w' = db w /\ rooms w' = rooms w /\
   exists r,
     trace w'
     = (trace w ++
        [Queried (SelectGroupOfCreator (am_groupId am) (userId c)) r])%list)
  /\
  (has_creator (rm_groupId rm) n (db w) = false ->
   let w' := run (on_remove_group_member sid rm) w in
   db w' = db w /\ rooms w' = rooms w /\
   exists r,
     trace w'
     = (trace w ++
        [Queried (SelectGroupOfCreator (rm_groupId rm) (userId c)) r])%list).
Proof.
  intros Hid Hn. split; intros Hc w'; subst w'.
  - unfold on_add_group_members. cbn [run]. rewrite Hid. cbn [run].
    destruct (db_query (SelectGroupOfCreator (am_groupId am) (userId c)) w)
      as [r w2] eqn:Hq.
    pose proof (db_query_frame _ _ _ _ Hq) as (_ & _ & Hr & _ & Ht).
    destruct (creator_check_rejects _ _ _ _ _ _ Hn Hc Hq)
      as [[-> | [e ->]] Hdb]; cbn [run]; eauto.
  - unfold on_remove_group_member. cbn [run]. rewrite Hid. cbn [run].
    destruct (db_query (SelectGroupOfCreator (rm_groupId rm) (userId c)) w)
      as [r w2] eqn:Hq.
    pose proof (db_query_frame _ _ _ _ Hq) as (_ & _ & Hr & _ & Ht).
    destruct (creator_check_rejects _ _ _ _ _ _ Hn Hc Hq)
      as [[-> | [e ->]] Hdb]; cbn [run]; eauto.
Qed.

(** ** Group creation *)

Section CreateGroup.

Lemma strict_eq_eq (a b : jsval) : strict_eq a b = true -> a = b.
Proof.
  destruct a, b; simpl; try discriminate; intros H.
  - apply Z.eqb_eq in H. now subst.
  - apply String.eqb_eq in H. now subst.
Qed.

Lemma with_creator_complete (invited : list jsval) (creator v : jsval) :
  In v (creator :: invited) -> In v (with_creator invited creator).
Proof.
  unfold with_creator, array_includes.
  destruct (existsb (fun x => strict_eq x creator) invited) eqn:E.
  - intros [<- | Hin]; [|exact Hin].
    apply existsb_exists in E as (x & Hx & Hs).
    apply strict_eq_eq in Hs. now subst.
  - intros [<- | Hin]; apply in_or_app; [right; now left | now left].
Qed.

Lemma has_member_false_rows (g : string) (n : Z) (s : store) :
  has_member g n s = false -> member_rows g n s = 0%nat.
Proof.
  unfold has_member, member_rows. intros H.
  now rewrite (existsb_false_filter _ _ H).
Qed.

Lemma member_rows_add (g g' : string) (n n' : Z) (s : store) :
  member_rows g n (add_member g' n' s)
  = (member_rows g n s
     + if (String.eqb g' g && (n' =? n)%Z)%bool then 1 else 0)%nat.
Proof.
  unfold member_rows, add_member. simpl.
  rewrite filter_app, length_app. simpl. unfold is_member at 2. simpl.
  now destruct (String.eqb g' g && (n' =? n))%bool.
Qed.

Lemma has_member_add (g g' : string) (n n' : Z) (s : store) :
  has_member g n (add_member g' n' s)
  = (has_member g n s || (String.eqb g' g && (n' =? n)))%bool.
Proof.
  unfold has_member, add_member. simpl. rewrite existsb_app. simpl.
  unfold is_member at 2. simpl. now rewrite orb_false_r.
Qed.

(** Rows that are there stay as they are through a plain insert. *)
Lemma insert_member_rows_keeps (g : string) (n : Z)
  (values : list (string * jsval)) :
  forall s s', insert_member_rows false values s = inr s' ->
    has_member g n s = true ->
    member_rows g n s' = member_rows g n s /\ has_member g n s' = true.
Proof.
  induction values as [|[g0 v0] rest IH]; simpl; intros s s'.
  - intros [= <-]. auto.
  - destruct (to_number v0) as [n0|]; [|discriminate].
    destruct (has_member g0 n0 s) eqn:E0; [discriminate|].
    destruct (has_user n0 s); [|discriminate].
    intros H Hm.
    assert (Hne : (String.eqb g0 g && (n0 =? n))%bool = false).
    { destruct (String.eqb g0 g && (n0 =? n))%bool eqn:E; [|reflexivity].
      apply andb_true_iff in E as [Eg En].
      apply String.eqb_eq in Eg. apply Z.eqb_eq in En. congruence. }
    destruct (IH _ _ H) as [Hr Hh].
    + now rewrite has_member_add, Hm.
    + split; [|exact Hh].
      now rewrite Hr, member_rows_add, Hne, Nat.add_0_r.
Qed.

(** A plain insert that succeeds leaves one row for each of its pairs. *)
Lemma insert_member_rows_once (values : list (string * jsval)) :
  forall s s', insert_member_rows false values s = inr s' ->
    forall g v, In (g, v) values ->
      exists n, to_number v = Some n /\ member_rows g n s' = 1%nat.
Proof.
  induction values as [|[g0 v0] rest IH]; simpl; intros s s' H g v Hin.
  - destruct Hin.
  - destruct (to_number v0) as [n0|] eqn:En; [|discriminate].
    destruct (has_member g0 n0 s) eqn:E0; [discriminate|].
    destruct (has_user n0 s); [|discriminate].
    destruct Hin as [[= <- <-] | Hin]; [|eauto].
    exists n0. split; [exact En|].
    destruct (insert_member_rows_keeps g0 n0 _ _ _ H) as [Hr _].
    + now rewrite has_member_add, String.eqb_refl, Z.eqb_refl, orb_true_r.
    + rewrite Hr, member_rows_add, String.eqb_refl, Z.eqb_refl.
      now rewrite (has_member_false_rows _ _ _ E0).
Qed.

Lemma insert_member_rows_frame (upd : bool)
  (values : list (string * jsval)) :
  forall s s', insert_member_rows upd values s = inr s' ->
    chat_groups s' = chat_groups s /\ users s' = users s.
Proof.
  induction values as [|[g0 v0] rest IH]; simpl; intros s s'.
  - intros [= <-]. auto.
  - destruct (to_number v0) as [n0|]; [|discriminate].
    destruct (has_member g0 n0 s).
    + destruct upd; [apply IH | discriminate].
    + destruct (has_user n0 s); [|discriminate].
      intros H. now destruct (IH _ _ H).
Qed.

Lemma member_rows_has_member (g : string) (n : Z) (s : store) :
  member_rows g n s = 1%nat -> has_member g n s = true.
Proof.
  unfold member_rows, has_member.
  destruct (existsb (is_member g n) (group_members s)) eqn:E;
    [reflexivity|].
  now rewrite (existsb_false_filter _ _ E).
Qed.

Lemma exec_InsertGroup_ok (name g : string) (v : jsval) (s s' : store)
  (h : header) :
  exec (InsertGroup name v g) s = (Ok h, s') ->
  exists n, to_number v = Some n /\ s' = add_group name n g s.
Proof.
  cbn [exec]. unfold with_int.
  destruct (to_number v) as [n|]; [|discriminate].
  destruct (has_group g s); [discriminate|].
  destruct (has_user n s); [|discriminate].
  intros [= _ <-]. eauto.
Qed.

Lemma exec_InsertMembers_ok (values : list (string * jsval)) (s s' : store)
  (h : header) :
  exec (InsertMembers false values) s = (Ok h, s') ->
  insert_member_rows false values s = inr s'.
Proof.
  cbn [exec]. destruct values as [|p rest]; [discriminate|].
  destruct (insert_member_rows false (p :: rest) s) as [e|s''];
    [discriminate|].
  now intros [= _ <-].
Qed.

Lemma transport_only_for_each {A : Type} (l : list A)
  (body : A -> proc -> proc) (k : proc) :
  (forall a k', transport_only k' -> transport_only (body a k')) ->
  transport_only k -> transport_only (for_each l body k).
Proof.
  intros Hbody Hk. induction l as [|a l IH]; simpl; auto.
Qed.

Lemma transport_only_keeps {A : Type} (f : world -> A) (p : proc) :
  (forall s r u, f (join s r u) = f u) ->
  (forall s r u, f (leave s r u) = f u) ->
  (forall t x u, f (emit t x u) = f u) ->
  transport_only p -> keeps f p.
Proof.
  intros Hj Hl He Hp.
  induction Hp as [|sid k _ IH|k _ IH|sid k _ IH|sid k _ IH
                   |sid room k _ IH|sid room k _ IH|t x k _ IH];
    intros u; cbn [run]; try apply IH.
  - reflexivity.
  - now rewrite IH.
  - now rewrite IH.
  - now rewrite IH.
Qed.

Lemma transport_only_keeps_db (p : proc) : transport_only p -> keeps db p.
Proof.
  apply transport_only_keeps.
  - intros s r u. unfold join. now destruct (in_room s r u).
  - reflexivity.
  - reflexivity.
Qed.

Lemma created_group_ids_record (e : effect) (u : world) :
  created_group_ids (record e u)
  = (created_group_ids u ++ group_id_of_effect e)%list.
Proof.
  unfold created_group_ids. simpl. rewrite flat_map_app. simpl.
  now rewrite app_nil_r.
Qed.

Lemma transport_only_keeps_group_ids (p : proc) :
  transport_only p -> keeps created_group_ids p.
Proof.
  apply transport_only_keeps.
  - intros s r u. unfold join. rewrite created_group_ids_record.
    simpl. rewrite app_nil_r. now destruct (in_room s r u).
  - intros s r u. unfold leave. rewrite created_group_ids_record.
    simpl. now rewrite app_nil_r.
  - intros t x u. unfold emit. rewrite created_group_ids_record.
    simpl. now rewrite app_nil_r.
Qed.

(** What create-group does after its two inserts. *)
Lemma create_group_notifications_transport_only
  (sid g : string) (memberIds : list jsval) (obj : group_object)
  (note : payload) :
  transport_only
    (Join sid g
       (for_each memberIds
          (fun memberId k =>
             GetUsers (fun users =>
               match truthy (findSocketIdByUserId users memberId) with
               | Some memberSocketId =>
                   Emit (ToRoom memberSocketId) (GroupCreated obj)
                     (if negb (String.eqb memberSocketId sid)
                      then SocketsGet memberSocketId (fun memberSocket =>
                             if memberSocket
                             then Join memberSocketId g k else k)
                      else k)
               | None => k
               end))
          (Emit (ToRoom g) note Done))).
Proof.
  constructor. apply transport_only_for_each.
  - intros v k Hk. constructor. intros users.
    destruct (truthy (findSocketIdByUserId users v)) as [ms|]; [|exact Hk].
    constructor. destruct (negb (String.eqb ms sid)); [|exact Hk].
    constructor. intros [|]; [now constructor | exact Hk].
  - repeat constructor.
Qed.

End CreateGroup.

(** C5.  After a create-group whose two inserts succeeded, the tables are
    those left by the second insert, the group row exists, every user among
    the creator and the invite list has exactly one membership row for the
    new group, and the groups of each of them include the new group. *)
Theorem create_group_one_membership_row_each
  (w : world) (sid : string) (c : conn) (data : create_group_data)
  (h h2 : header) (w1 w2 : world) :
  connectedUsers_get (connectedUsers w) sid = Some c ->
  let g := ("group_" ++ Z_to_string (clock w))%string in
  let invited := match cg_memberIds data with Some l => l | None => [] end in
  let memberIds := with_creator invited (userId c) in
  let w' := run (on_create_group sid data) w in
  db_query (InsertGroup (cg_groupName data) (userId c) g) w = (Ok h, w1) ->
  db_query (InsertMembers false (map (fun v => (g, v)) memberIds)) w1
  = (Ok h2, w2) ->
  db w' = db w2 /\
  has_group g (db w') = true /\
  (forall v, In v (userId c :: invited) ->
     exists n, to_number v = Some n /\ member_rows g n (db w') = 1%nat) /\
  (forall v, In v (userId c :: invited) ->
     exists rows,
       exec (SelectUserGroups v) (db w') = (Ok rows, db w') /\
       In g (map gs_group_id rows)).
Proof.
  intros Hid g invited memberIds w' Hq1 Hq2.
  assert (Hdb : db w' = db w2).
  { subst w'. unfold on_create_group. cbn [run]. rewrite Hid. cbn [run].
    fold g invited. fold (with_creator invited (userId c)). fold memberIds.
    rewrite Hq1. cbn [run]. rewrite Hq2.
    match goal with
    | |- db (run ?p w2) = _ =>
        apply (transport_only_keeps_db p)
    end.
    apply create_group_notifications_transport_only. }
  apply db_query_ok in Hq1, Hq2.
  apply exec_InsertGroup_ok in Hq1 as (nc & Hnc & Hs1).
  apply exec_InsertMembers_ok in Hq2.
  pose proof (insert_member_rows_frame _ _ _ _ Hq2) as [Hcg _].
  assert (Hrows : forall v, In v (userId c :: invited) ->
            exists n, to_number v = Some n /\ member_rows g n (db w2) = 1%nat).
  { intros v Hv.
    apply (insert_member_rows_once _ _ _ Hq2 g v).
    apply in_map_iff. exists v. split; [reflexivity|].
    now apply with_creator_complete. }
  assert (Hin : In {| g_id := next_group_id (db w);
                      g_name := cg_groupName data;
                      g_creator_id := nc; g_group_id := g |}
                  (chat_groups (db w2))).
  { rewrite Hcg, Hs1. simpl. apply in_or_app. right. now left. }
  rewrite Hdb. repeat apply conj.
  - reflexivity.
  - unfold has_group. apply existsb_exists. eexists. split; [exact Hin|].
    apply String.eqb_refl.
  - exact Hrows.
  - intros v Hv. destruct (Hrows v Hv) as (n & Hn & Hr).
    cbn [exec]. unfold with_int. rewrite Hn. eexists. split; [reflexivity|].
    rewrite map_map. apply in_map_iff.
    exists {| g_id := next_group_id (db w); g_name := cg_groupName data;
              g_creator_id := nc; g_group_id := g |}.
    split; [reflexivity|]. apply filter_In.
    split; [exact Hin|]. simpl. now apply member_rows_has_member.
Qed.

(** ** Leaving a group *)

Section LeaveGroup.

Lemma in_room_leave (sid g : string) (w : world) :
  in_room sid g (leave sid g w) = false.
Proof.
  unfold in_room, leave. simpl.
  induction (rooms w) as [|[s r] l IH]; simpl; [reflexivity|].
  destruct (String.eqb s sid && String.eqb r g)%bool eqn:E; simpl;
    [exact IH | now rewrite E].
Qed.

Lemma filter_filter_negb {A : Type} (f : A -> bool) (l : list A) :
  filter f (filter (fun a => negb (f a)) l) = [].
Proof.
  induction l as [|a l IH]; simpl; [reflexivity|].
  destruct (f a) eqn:E; simpl; [exact IH | now rewrite E].
Qed.

Lemma existsb_filter_negb {A : Type} (f : A -> bool) (l : list A) :
  existsb f (filter (fun a => negb (f a)) l) = false.
Proof.
  induction l as [|a l IH]; simpl; [reflexivity|].
  destruct (f a) eqn:E; simpl; [exact IH | now rewrite E].
Qed.

End LeaveGroup.

(** C6.  Leave-group by an identified user, with the store answering from
    its tables: the caller's membership row is deleted and no other, the
    connection leaves the room, the caller is answered and the room is sent
    the system message, then the members of the group are counted; the group
    row is deleted when the count is zero and only then, and after that the
    lookup of the group answers not-found. *)
Theorem leave_group_deletes_row_and_empty_group
  (w : world) (sid : string) (c : conn) (g : string) (n : Z) :
  connectedUsers_get (connectedUsers w) sid = Some c ->
  faults w = [] ->
  to_number (userId c) = Some n ->
  let w' := run (on_leave_group sid g) w in
  let remaining :=
    filter (fun m => negb (is_member g n m)) (group_members (db w)) in
  let left :=
    List.length
      (filter (fun m => String.eqb (gm_group_id m) g) remaining) in
  let group_rows :=
    List.length
      (filter (fun r => String.eqb (g_group_id r) g) (chat_groups (db w))) in
  group_members (db w') = remaining /\
  member_rows g n (db w') = 0%nat /\
  in_room sid g w' = false /\
  trace w'
  = (trace w ++
     [Queried (DeleteMember g (userId c))
        (Ok (header_of 0 (member_rows g n (db w))));
      Left sid g;
      Emitted (ToSocket sid) [sid] (LeaveGroupResult g);
      Emitted (ToRoom g) (room_members g (leave sid g w))
        (system_message g (userName c ++ " has left the group"));
      Queried (CountMembers g) (Ok (Z.of_nat left))] ++
     match left with
     | O => [Queried (DeleteGroup g) (Ok (header_of 0 group_rows))]
     | S _ => []
     end)%list /\
  (left = 0%nat ->
   has_group g (db w') = false /\
   trace (run (get_group g) w')
   = (trace w' ++
      [Queried (SelectGroupInfo g) (Ok []);
       Responded 404 (ErrorBody "Group not found")])%list) /\
  (left <> 0%nat -> chat_groups (db w') = chat_groups (db w)).
Proof.
  intros Hid Hf Hn w' remaining left group_rows.
  assert (Hrun :
    w' = let u := emit (ToRoom g)
                    (system_message g (userName c ++ " has left the group"))
                    (emit (ToSocket sid) (LeaveGroupResult g)
                       (leave sid g
                          (record
                             (Queried (DeleteMember g (userId c))
                                (Ok (header_of 0 (member_rows g n (db w)))))
                             (set_db (set_group_members remaining (db w))
                                [] w)))) in
         let u1 := record (Queried (CountMembers g) (Ok (Z.of_nat left)))
                     (set_db (db u) [] u) in
         match left with
         | O => record
                  (Queried (DeleteGroup g) (Ok (header_of 0 group_rows)))
                  (set_db
                     (set_chat_groups
                        (filter
                           (fun r => negb (String.eqb (g_group_id r) g))
                           (chat_groups (db w))) (db u1)) [] u1)
         | S _ => u1
         end).
  { subst w'. unfold on_leave_group. cbn [run]. rewrite Hid. cbn [run].
    rewrite db_query_healthy by exact Hf.
    cbn [exec]. unfold with_int. rewrite Hn. cbn [fst snd run].
    rewrite db_query_healthy by reflexivity.
    cbn [exec fst snd run].
    fold remaining. unfold members_of.
    cbn [emit leave record set_db set_rooms db set_group_members
         group_members].
    fold left. destruct left as [|k] eqn:El.
    - cbn [Z.of_nat Z.eqb run].
      rewrite db_query_healthy by reflexivity. reflexivity.
    - reflexivity. }
  rewrite Hrun. clear Hrun.
  repeat apply conj.
  - now destruct left.
  - unfold member_rows. destruct left; world_simpl; subst remaining;
      now rewrite filter_filter_negb.
  - destruct left; cbn; apply (in_room_leave sid g w).
  - destruct left; cbn [trace record emit leave set_db set_rooms recipients];
      rewrite <- !app_assoc; reflexivity.
  - intros ->. split.
    + unfold has_group. world_simpl. apply existsb_filter_negb.
    + unfold get_group. cbn [run].
      rewrite db_query_healthy by reflexivity.
      cbn [exec fst snd]. world_simpl.
      rewrite filter_filter_negb. cbn [flat_map run]. world_simpl.
      now rewrite <- !app_assoc.
  - intros Hl. destruct left; [congruence | reflexivity].
Qed.

(** ** The group id token *)

(** C8, as the code has it.  Two create-group events handled within the
    same millisecond send the same group id to the store: the second is the
    id of the first. *)
Lemma create_group_ids_collide_within_a_millisecond :
  let first := run (on_create_group "sA"
                      {| cg_groupName := "Team";
                         cg_memberIds := Some [JNum 2] |}) Scenario.world0 in
  let second := run (on_create_group "sB"
                       {| cg_groupName := "Club";
                          cg_memberIds := Some [JNum 3] |}) first in
  created_group_ids second
  = ["group_1700000000000"; "group_1700000000000"] /\
  ~ NoDup (created_group_ids second).
Proof.
  split; [reflexivity|].
  change (~ NoDup ["group_1700000000000"; "group_1700000000000"]).
  intros H. inversion H as [|x l Hx _]. apply Hx. now left.
Qed.

(** C8, amended.  The group id that a create-group event sends to the store
    is ["group_"] followed by the clock reading in milliseconds; the ids of
    two events are the same exactly when the two readings are the same; an
    id that is already the id of a group row is refused by the store and the
    caller is told that the creation failed. *)
Theorem create_group_id_is_the_clock_reading
  (w : world) (sid : string) (c : conn) (data : create_group_data) :
  connectedUsers_get (connectedUsers w) sid = Some c ->
  let g := ("group_" ++ Z_to_string (clock w))%string in
  let w' := run (on_create_group sid data) w in
  created_group_ids w' = (created_group_ids w ++ [g])%list /\
  (forall v : world,
     ("group_" ++ Z_to_string (clock v))%string = g <-> clock v = clock w) /\
  (has_group g (db w) = true -> faults w = [] ->
   db w' = db w /\
   exists e,
     trace w'
     = (trace w ++
        [Queried (InsertGroup (cg_groupName data) (userId c) g) (Err e);
         Emitted (ToSocket sid) [sid]
           (GroupCreatedError "Failed to create group")])%list).
Proof.
  intros Hid g w'. repeat apply conj.
  - subst w'. unfold on_create_group. cbn [run]. rewrite Hid. cbn [run].
    fold g.
    destruct (db_query (InsertGroup (cg_groupName data) (userId c) g) w)
      as [r1 w1] eqn:Hq1.
    pose proof (db_query_frame _ _ _ _ Hq1) as (_ & _ & _ & _ & Ht1).
    assert (H1 : created_group_ids w1 = (created_group_ids w ++ [g])%list).
    { unfold created_group_ids. rewrite Ht1, flat_map_app. reflexivity. }
    destruct r1 as [e|h]; cbn [run].
    + unfold emit. now rewrite created_group_ids_record, app_nil_r.
    + match goal with
      | |- context [db_query ?q w1] =>
          destruct (db_query q w1) as [r2 w2] eqn:Hq2
      end.
      pose proof (db_query_frame _ _ _ _ Hq2) as (_ & _ & _ & _ & Ht2).
      assert (H2 : created_group_ids w2 = created_group_ids w1).
      { unfold created_group_ids. rewrite Ht2, flat_map_app. simpl.
        now rewrite app_nil_r. }
      destruct r2 as [e|h2].
      * cbn [run]. unfold emit.
        now rewrite created_group_ids_record, app_nil_r, H2.
      * rewrite <- H1, <- H2.
        match goal with
        | |- created_group_ids (run ?p w2) = _ =>
            apply (transport_only_keeps_group_ids p)
        end.
        apply create_group_notifications_transport_only.
  - intros v. subst g. split.
    + intros E. simpl in E. injection E as E. now apply Z_to_string_inj.
    + now intros ->.
  - intros Hg Hf. subst w'. unfold on_create_group. cbn [run].
    rewrite Hid. cbn [run]. fold g.
    rewrite db_query_healthy by exact Hf.
    cbn [exec]. unfold with_int.
    destruct (to_number (userId c)) as [n|].
    + rewrite Hg. cbn [fst snd run]. split; [reflexivity|].
      exists dup_entry. world_simpl. now rewrite <- app_assoc.
    + cbn [fst snd run]. split; [reflexivity|].
      exists wrong_value. world_simpl. now rewrite <- app_assoc.
Qed.

(** ** The statements on the small deployment *)

(** Bo, who is not yet in the room of the group, sends a message: the
    connection joins, the message is stored and then broadcast. *)
Lemma group_message_persist_then_broadcast_witness :
  connectedUsers_get (connectedUsers world0) "sB" = Some bo /\
  trace (run (on_group_message "sB" hello) world0)
  = [Joined "sB" team;
     Queried (InsertMessage (JStr "2") "hi" team (Some true))
       (Ok (header_of 1 1));
     Emitted (ToRoom team) ["sB"]
       (GroupMessage (Some 1) team (JStr "2") "Bo" "hi" false)].
Proof.
  split; [reflexivity|].
  destruct (group_message_persist_then_broadcast world0 "sB" bo hello
              eq_refl) as (_ & Hok & _).
  destruct (Hok (header_of 1 1)
              (snd (db_query (InsertMessage (JStr "2") "hi" team (Some true))
                      (rejoin "sB" team world0))) eq_refl) as (-> & _).
  reflexivity.
Defined.

(** On the schema without the column the message is stored through the
    reduced insert and broadcast with its id. *)
Lemma schema_fallback_insert_and_history_witness :
  connectedUsers_get (connectedUsers legacy0) "sB" = Some bo /\
  has_is_group (db legacy0) = false /\
  messages (db (run (on_group_message "sB" hello) legacy0))
  = [{| m_id := 1; m_user_id := 2; m_content := "hi"; m_room_id := team;
        m_is_group := false |}] /\
  trace (run (on_group_message "sB" hello) legacy0)
  = [Joined "sB" team;
     Queried (InsertMessage (JStr "2") "hi" team (Some true))
       (Err (unknown_column "is_group" "field list"));
     Queried (InsertMessage (JStr "2") "hi" team None) (Ok (header_of 1 1));
     Emitted (ToRoom team) ["sB"]
       (GroupMessage (Some 1) team (JStr "2") "Bo" "hi" false)].
Proof.
  split; [reflexivity|]. split; [reflexivity|].
  destruct (schema_fallback_insert_and_history legacy0 "sB" bo hello team
              eq_refl) as (_ & _ & Hleg & _).
  destruct (Hleg 2 eq_refl eq_refl eq_refl eq_refl) as [Hm Ht].
  split; [exact Hm | exact Ht].
Defined.


(** Bo is not the creator of Ann's group. *)
Lemma creator_only_operations_have_no_side_effects_witness :
  connectedUsers_get (connectedUsers team_created) "sB" = Some bo /\
  to_number (userId bo) = Some 2 /\
  has_group team (db team_created) = true /\
  has_creator team 2 (db team_created) = false /\
  db (run (on_add_group_members "sB"
             {| am_groupId := team; am_userIds := [JNum 3] |}) team_created)
  = db team_created /\
  db (run (on_remove_group_member "sB"
             {| rm_groupId := team; rm_userId := JNum 1 |}) team_created)
  = db team_created.
Proof.
  do 4 (split; [reflexivity|]).
  destruct (creator_only_operations_have_no_side_effects team_created "sB"
              bo 2 {| am_groupId := team; am_userIds := [JNum 3] |}
              {| rm_groupId := team; rm_userId := JNum 1 |} eq_refl eq_refl)
    as [Hadd Hrem].
  destruct (Hadd eq_refl) as (Ha & _). destruct (Hrem eq_refl) as (Hr & _).
  split; [exact Ha | exact Hr].
Defined.

(** Ann invites herself, Bo and Cy. *)
Lemma create_group_one_membership_row_each_witness :
  let data := {| cg_groupName := "Team";
                 cg_memberIds := Some [JNum 1; JNum 2; JNum 3] |} in
  let w' := run (on_create_group "sA" data) world0 in
  connectedUsers_get (connectedUsers world0) "sA" = Some ann /\
  (member_rows team 1 (db w') = 1%nat /\
   member_rows team 2 (db w') = 1%nat /\
   member_rows team 3 (db w') = 1%nat) /\
  has_group team (db w') = true.
Proof.
  intros data w'. split; [reflexivity|].
  set (q1 := InsertGroup "Team" (JNum 1) team).
  set (q2 := InsertMembers false
               [(team, JNum 1); (team, JNum 2); (team, JNum 3)]).
  destruct (create_group_one_membership_row_each world0 "sA" ann data
              (header_of 1 1) (header_of 1 3)
              (snd (db_query q1 world0))
              (snd (db_query q2 (snd (db_query q1 world0))))
              eq_refl eq_refl eq_refl) as (_ & Hg & Hrows & _).
  split; [|exact Hg].
  split; [|split].
  - destruct (Hrows (JNum 1)) as (n & [= <-] & H); [now left | exact H].
  - destruct (Hrows (JNum 2)) as (n & [= <-] & H);
      [right; right; now left | exact H].
  - destruct (Hrows (JNum 3)) as (n & [= <-] & H);
      [right; right; right; now left | exact H].
Defined.

(** After Bo, Ann leaves: the group had two members and is gone. *)
Lemma leave_group_deletes_row_and_empty_group_witness :
  connectedUsers_get (connectedUsers bo_left) "sA" = Some ann /\
  faults bo_left = [] /\
  has_group team (db bo_left) = true /\
  has_group team (db (run (on_leave_group "sA" team) bo_left)) = false.
Proof.
  split; [reflexivity|]. split; [reflexivity|]. split; [reflexivity|].
  destruct (leave_group_deletes_row_and_empty_group bo_left "sA" ann team 1
              eq_refl eq_refl eq_refl) as (_ & _ & _ & _ & Hempty & _).
  destruct (Hempty eq_refl) as [H _]. exact H.
Defined.

(** Bo is connected twice, first under a padded text and then under a
    number. *)
Lemma findSocketIdByUserId_compares_numeric_value_witness :
  let padded := {| socketId := "sT"; userId := JStr " 02";
                   userName := "Bo"; online := true |} in
  let m := [("sA", ann); ("sT", padded); ("sP", bo_phone)] in
  Forall (fun e => integer_id (userId (snd e)) = true) m /\
  safe_integer 2 = true /\
  findSocketIdByUserId m (JNum 2) = Some "sT".
Proof.
  intros padded m.
  assert (Hm : Forall (fun e => integer_id (userId (snd e)) = true) m)
    by (repeat constructor).
  split; [exact Hm|]. split; [reflexivity|].
  destruct (findSocketIdByUserId_compares_numeric_value m 2 Hm eq_refl)
    as (Hfirst & _ & _).
  apply Hfirst. exists [("sA", ann)], padded, [("sP", bo_phone)].
  split; [reflexivity|]. split; [reflexivity|].
  intros e [<- | []]. discriminate.
Defined.

(** A connection that never identified itself. *)
Lemma unidentified_events_are_noops_witness :
  connectedUsers_get (connectedUsers world0) "sX" = None /\
  run (on_group_message "sX" hello) world0 = world0 /\
  run (on_leave_group "sX" team) world0 = world0.
Proof.
  split; [reflexivity|].
  destruct (unidentified_events_are_noops world0 "sX"
              {| cg_groupName := "Team"; cg_memberIds := None |} hello team
              {| rm_groupId := team; rm_userId := JNum 1 |}
              {| am_groupId := team; am_userIds := [] |} eq_refl)
    as (_ & Hgm & Hlg & _).
  split; [exact Hgm | exact Hlg].
Defined.

(** Ann creates a group at clock reading 1700000000000. *)
Lemma create_group_id_is_the_clock_reading_witness :
  connectedUsers_get (connectedUsers world0) "sA" = Some ann /\
  created_group_ids team_created = [team].
Proof.
  split; [reflexivity|].
  destruct (create_group_id_is_the_clock_reading world0 "sA" ann
              {| cg_groupName := "Team"; cg_memberIds := Some [JNum 2] |}
              eq_refl) as (H & _).
  exact H.
Defined.

(** * Further properties of the handlers *)

(** ** What no handler changes, and the keys of the schema *)

Section RunFrames.

Lemma run_keeps_process_state (p : proc) :
  forall w,
    connectedUsers (run p w) = connectedUsers w /\
    sockets (run p w) = sockets w /\ clock (run p w) = clock w.
Proof.
  induction p as [|what|R q k IH|sid k IH|k IH|sid k IH|sid k IH|k IH
                  |sid room k IH|sid room k IH|t x k IH|status b k IH];
    intros w; cbn [run]; auto.
  - destruct (db_query q w) as [r w'] eqn:Hq.
    destruct (db_query_frame _ _ _ _ Hq) as (Hu & Hs & _ & Hc & _).
    destruct (IH r w') as (-> & -> & ->). auto.
  - destruct (IH (join sid room w)) as (-> & -> & ->).
    unfold join. now destruct (in_room sid room w).
  - destruct (IH (leave sid room w)) as (-> & -> & ->). auto.
  - destruct (IH (emit t x w)) as (-> & -> & ->). auto.
  - destruct (IH (record (Responded status b) w)) as (-> & -> & ->). auto.
Qed.

End RunFrames.

Section SchemaKeys.

Lemma has_user_same_users (n : Z) (s s' : store) :
  users s' = users s -> has_user n s' = has_user n s.
Proof. unfold has_user. now intros ->. Qed.

Lemma NoDup_map_filter {A B : Type} (f : A -> B) (keep : A -> bool)
  (l : list A) :
  NoDup (map f l) -> NoDup (map f (filter keep l)).
Proof.
  induction l as [|a l IH]; simpl; [auto|].
  intros H. inversion H as [|x xs Hx Hl]; subst.
  destruct (keep a); simpl; [|auto].
  constructor; [|auto].
  intros Hin. apply Hx. apply in_map_iff in Hin as (b & Hb & Hf).
  apply filter_In in Hf as [Hf _]. apply in_map_iff. eauto.
Qed.

Lemma NoDup_snoc {A : Type} (l : list A) (a : A) :
  NoDup l -> ~ In a l -> NoDup (l ++ [a]).
Proof.
  intros Hl Ha. induction l as [|x l IH]; simpl.
  - constructor; [intros []|constructor].
  - inversion Hl as [|y ys Hy Hys]; subst. constructor.
    + intros Hin. apply in_app_or in Hin as [Hin | [<- | []]]; [auto|].
      apply Ha. now left.
    + apply IH; [assumption|]. intros Hin. apply Ha. now right.
Qed.

Lemma has_group_false_fresh (g : string) (s : store) :
  has_group g s = false -> ~ In g (map g_group_id (chat_groups s)).
Proof.
  unfold has_group. intros H Hin.
  apply in_map_iff in Hin as (r & <- & Hr).
  assert (E : existsb (fun r0 => String.eqb (g_group_id r0) (g_group_id r))
                (chat_groups s) = true).
  { apply existsb_exists. exists r. split; [assumption|].
    apply String.eqb_refl. }
  congruence.
Qed.

Lemma has_member_false_fresh (g : string) (n : Z) (s : store) :
  has_member g n s = false -> ~ In (g, n) (map member_key (group_members s)).
Proof.
  unfold has_member. intros H Hin.
  apply in_map_iff in Hin as (m & Hk & Hm).
  assert (E : existsb (is_member g n) (group_members s) = true).
  { apply existsb_exists. exists m. split; [assumption|].
    unfold member_key in Hk. injection Hk as <- <-.
    unfold is_member. now rewrite String.eqb_refl, Z.eqb_refl. }
  congruence.
Qed.

Lemma add_member_store_ok (g : string) (n : Z) (s : store) :
  store_ok s -> has_member g n s = false -> has_user n s = true ->
  store_ok (add_member g n s).
Proof.
  intros [Hg Hm Hmr Hcr Har] Hfresh Huser. constructor; simpl; auto.
  - rewrite map_app. simpl. apply NoDup_snoc; [assumption|].
    now apply has_member_false_fresh.
  - intros m Hin. apply in_app_or in Hin as [Hin | [<- | []]]; simpl.
    + apply Hmr, Hin.
    + exact Huser.
Qed.

Lemma insert_member_rows_store_ok (upd : bool)
  (values : list (string * jsval)) :
  forall s s', insert_member_rows upd values s = inr s' ->
    store_ok s -> store_ok s'.
Proof.
  induction values as [|[g v] rest IH]; simpl; intros s s'.
  - now intros [= <-].
  - destruct (to_number v) as [n|]; [|discriminate].
    destruct (has_member g n s) eqn:Em.
    + destruct upd; [apply IH | discriminate].
    + destruct (has_user n s) eqn:Eu; [|discriminate].
      intros H Hok. apply (IH _ _ H). now apply add_member_store_ok.
Qed.

(** Every statement of the handlers keeps the keys. *)
Lemma exec_store_ok {R : Type} (q : query R) (s : store) :
  store_ok s -> store_ok (snd (exec q s)).
Proof.
  intros Hok. pose proof Hok as [Hg Hm Hmr Hcr Har].
  destruct q; cbn [exec]; unfold with_int;
    try (destruct (to_number _) as [n|]; [|exact Hok]);
    try exact Hok.
  - destruct is_group as [b|].
    + destruct (has_is_group s); [|exact Hok].
      destruct (to_number user_id) as [n|]; [|exact Hok].
      destruct (has_user n s) eqn:Eu; [|exact Hok].
      constructor; simpl; auto.
      intros m Hin. apply in_app_or in Hin as [Hin | [<- | []]]; simpl; auto.
      now apply Har.
    + destruct (to_number user_id) as [n|]; [|exact Hok].
      destruct (has_user n s) eqn:Eu; [|exact Hok].
      constructor; simpl; auto.
      intros m Hin. apply in_app_or in Hin as [Hin | [<- | []]]; simpl; auto.
      now apply Har.
  - destruct (has_group group_id s) eqn:Eg; [exact Hok|].
    destruct (has_user n s) eqn:Eu; [|exact Hok].
    constructor; simpl; auto.
    + rewrite map_app. simpl. apply NoDup_snoc; [assumption|].
      now apply has_group_false_fresh.
    + intros g Hin. apply in_app_or in Hin as [Hin | [<- | []]]; simpl; auto.
      now apply Hcr.
  - destruct values as [|p rest]; [exact Hok|].
    destruct (insert_member_rows on_duplicate_update (p :: rest) s) as [e|s']
      eqn:E; [exact Hok|].
    simpl. now apply (insert_member_rows_store_ok _ _ _ _ E).
  - constructor; simpl; auto.
    + now apply NoDup_map_filter.
    + intros m Hin. apply filter_In in Hin as [Hin _]. now apply Hmr.
  - constructor; simpl; auto.
    + now apply NoDup_map_filter.
    + intros g Hin. apply filter_In in Hin as [Hin _]. now apply Hcr.
  - destruct ids as [|i rest]; [exact Hok|].
    destruct (ints_of (i :: rest)); exact Hok.
  - destruct (only_is_group && negb (has_is_group s))%bool; exact Hok.
Qed.

Lemma db_query_db {R : Type} (q : query R) (w : world) :
  db (snd (db_query q w)) = db w \/
  db (snd (db_query q w)) = snd (exec q (db w)).
Proof.
  unfold db_query, answer.
  destruct (faults w) as [|[e|] fs]; simpl; auto;
    destruct (exec q (db w)); simpl; auto.
Qed.

End SchemaKeys.

(** The statements of the store model keep the keys, so every run does: the
    hypothesis [store_ok] of the statements on the routes is met by every
    world reached from one that meets it. *)
Lemma run_keeps_store_ok (p : proc) (w : world) :
  store_ok (db w) -> store_ok (db (run p w)).
Proof.
  revert w.
  induction p as [|what|R q k IH|sid k IH|k IH|sid k IH|sid k IH|k IH
                  |sid room k IH|sid room k IH|t x k IH|status b k IH];
    intros w Hok; cbn [run]; try solve [assumption | apply IH; exact Hok].
  - destruct (db_query q w) as [r w'] eqn:Hq. apply IH.
    destruct (db_query_db q w) as [E | E]; rewrite Hq in E; simpl in E;
      rewrite E; [assumption | now apply exec_store_ok].
  - apply IH. unfold join. now destruct (in_room sid room w).
Qed.

(** ** Direct messages, rooms and the history of a pair *)

Section DirectMessages.

Lemma run_on_private_message (w : world) (sid : string)
  (data : private_message_data) :
  run (on_private_message sid data) w =
  let (r, w2) :=
    db_query (InsertMessage (pm_fromUserId data) (pm_message data)
                (roomId (pm_fromUserId data) (pm_toUserId data)) None) w in
  emit (ToSocket sid)
    (MessageSent (pm_toUserId data) (pm_message data) (id_or_null r))
    match truthy (findSocketIdByUserId (connectedUsers w)
                    (pm_toUserId data)) with
    | Some rs =>
        emit (ToRoom rs)
          (PrivateMessage (pm_fromUserId data) (pm_fromUserName data)
             (pm_message data)) w2
    | None => w2
    end.
Proof.
  unfold on_private_message. cbn [run].
  destruct (db_query _ w) as [r w2].
  destruct (truthy (findSocketIdByUserId (connectedUsers w)
                      (pm_toUserId data))); reflexivity.
Qed.

Lemma truthy_nonempty (s : string) : s <> EmptyString -> truthy (Some s) = Some s.
Proof. destruct s; [congruence | reflexivity]. Qed.

Lemma exec_history (room : string) (s : store) :
  exec (SelectRoomMessages room false) s
  = (Ok (firstn 100 (room_view room s)), s).
Proof. reflexivity. Qed.

Lemma room_view_add_message (room r : string) (n : Z) (content : string)
  (flag : bool) (s : store) :
  room_view r (add_message n content room flag s)
  = (room_view r s ++
     if String.eqb room r
     then view_message s
            {| m_id := next_message_id s; m_user_id := n;
               m_content := content; m_room_id := room; m_is_group := flag |}
     else [])%list.
Proof.
  unfold room_view. cbn [messages add_message].
  rewrite filter_app, flat_map_app. cbn [filter m_room_id negb orb andb].
  rewrite andb_true_r.
  assert (E : forall l,
    flat_map (view_message (add_message n content room flag s)) l
    = flat_map (view_message s) l) by reflexivity.
  rewrite !E. destruct (String.eqb room r); simpl; [|reflexivity].
  now rewrite app_nil_r.
Qed.

Lemma view_message_of_user (s : store) (m : message_row) :
  has_user (m_user_id m) s = true ->
  exists name rest,
    view_message s m
    = {| mv_id := m_id m; mv_user_id := m_user_id m; mv_user_name := name;
         mv_content := m_content m |} :: rest.
Proof.
  unfold has_user, view_message. intros H.
  induction (users s) as [|u l IH]; simpl in *; [discriminate|].
  destruct (u_id u =? m_user_id m); simpl; eauto.
Qed.

Lemma firstn_app_head {A : Type} (k : nat) (l : list A) (a : A)
  (rest : list A) :
  (List.length l < k)%nat -> In a (firstn k (l ++ a :: rest)).
Proof.
  revert k. induction l as [|x l IH]; intros k Hk; simpl in *.
  - destruct k; [lia | now left].
  - destruct k; [lia|]. right. apply IH. lia.
Qed.



End DirectMessages.

(** X2.  A direct message goes to the connection of the recipient that was
    registered first: connections of the same user registered later are not
    addressed, whatever the store answers. *)
Theorem private_message_addresses_the_oldest_connection
  (w : world) (sid : string) (data : private_message_data)
  (pre post : registry) (s1 : string) (c1 : conn) :
  connectedUsers w = (pre ++ (s1, c1) :: post)%list ->
  loose_eq (userId c1) (pm_toUserId data) = true ->
  (forall e, In e pre -> loose_eq (userId (snd e)) (pm_toUserId data) = false) ->
  s1 <> EmptyString ->
  exists r,
    trace (run (on_private_message sid data) w)
    = (trace w ++
       [Queried (InsertMessage (pm_fromUserId data) (pm_message data)
                   (roomId (pm_fromUserId data) (pm_toUserId data)) None) r;
        Emitted (ToRoom s1) (room_members s1 w)
          (PrivateMessage (pm_fromUserId data) (pm_fromUserName data)
             (pm_message data));
        Emitted (ToSocket sid) [sid]
          (MessageSent (pm_toUserId data) (pm_message data)
             (id_or_null r))])%list.
Proof.
  intros Hreg Hc Hpre Hne. rewrite run_on_private_message.
  destruct (db_query _ w) as [r w2] eqn:Hq. exists r.
  pose proof (db_query_frame _ _ _ _ Hq) as (_ & _ & Hr & _ & Ht).
  rewrite Hreg, (findSocketIdByUserId_oldest _ _ _ _ _ Hc Hpre).
  rewrite (truthy_nonempty _ Hne).
  cbn [emit record trace recipients]. unfold room_members.
  now rewrite Hr, Ht, <- !app_assoc.
Qed.



(** ** Group messages: what is not checked *)

Section GroupMessageStore.

Variables (w : world) (sid : string) (c : conn) (data : group_message_data).
Hypothesis identified : connectedUsers_get (connectedUsers w) sid = Some c.

Lemma group_message_rooms :
  rooms (run (on_group_message sid data) w)
  = rooms (rejoin sid (gm_groupId data) w).
Proof.
  rewrite (run_on_group_message w sid c data identified).
  destruct (db_query _ (rejoin sid (gm_groupId data) w)) as [r1 w2] eqn:Hq.
  pose proof (db_query_frame _ _ _ _ Hq) as (_ & _ & Hr & _).
  destruct r1 as [e|h]; [|exact Hr].
  destruct (String.eqb (code e) "ER_BAD_FIELD_ERROR"); [|exact Hr].
  destruct (sqlMessage e) as [text|]; [|exact Hr].
  destruct (string_includes text "is_group"); [|exact Hr].
  destruct (db_query _ w2) as [r2 w3] eqn:Hq2.
  pose proof (db_query_frame _ _ _ _ Hq2) as (_ & _ & Hr2 & _).
  destruct r2; simpl; congruence.
Qed.

(** On a store that answers, the message of a known user is stored under
    the room id that the client gave, through the insert that the schema
    allows. *)
Lemma group_message_stored (n : Z) :
  faults w = [] ->
  to_number (userId c) = Some n ->
  has_user n (db w) = true ->
  let w' := run (on_group_message sid data) w in
  faults w' = [] /\
  db w' = add_message n (gm_message data) (gm_groupId data)
            (has_is_group (db w)) (db w).
Proof.
  intros Hf Hn Hu w'. subst w'.
  rewrite (run_on_group_message w sid c data identified).
  pose proof (rejoin_frame sid (gm_groupId data) w) as (_ & Hdb1 & Hf1 & _).
  rewrite db_query_healthy by congruence.
  cbn [exec fst snd]. rewrite Hdb1.
  destruct (has_is_group (db w)) eqn:Hcol.
  - unfold with_int. rewrite Hn, Hu. cbn [fst snd]. split; reflexivity.
  - cbn [fst snd unknown_column code sqlMessage String.eqb Ascii.eqb
         Bool.eqb].
    change (string_includes
              ("Unknown column '" ++ "is_group" ++ "' in '"
               ++ "field list" ++ "'")
              "is_group") with true.
    cbv iota.
    rewrite db_query_healthy by reflexivity.
    cbn [exec fst snd db set_db record].
    unfold with_int. rewrite Hn, Hu. cbn [fst snd]. split; reflexivity.
Qed.

End GroupMessageStore.

(** X5.  The group-message handler checks neither that the group exists nor
    that the sender belongs to it: on a store that answers, a message of any
    identified, known user is stored under the room id that the client
    gave, the sender's connection is in the room of that name afterwards,
    and the group and membership tables are not read or changed. *)
Theorem group_message_checks_neither_group_nor_membership
  (w : world) (sid : string) (c : conn) (data : group_message_data) (n : Z) :
  connectedUsers_get (connectedUsers w) sid = Some c ->
  faults w = [] ->
  has_is_group (db w) = true ->
  to_number (userId c) = Some n ->
  has_user n (db w) = true ->
  let g := gm_groupId data in
  let w' := run (on_group_message sid data) w in
  let h := header_of (next_message_id (db w)) 1 in
  messages (db w')
  = (messages (db w) ++
     [{| m_id := next_message_id (db w); m_user_id := n;
         m_content := gm_message data; m_room_id := g;
         m_is_group := true |}])%list /\
  chat_groups (db w') = chat_groups (db w) /\
  group_members (db w') = group_members (db w) /\
  in_room sid g w' = true /\
  trace w'
  = (trace (rejoin sid g w) ++
     [Queried (InsertMessage (userId c) (gm_message data) g (Some true))
        (Ok h);
      Emitted (ToRoom g) (room_members g (rejoin sid g w))
        (group_broadcast c data h)])%list.
Proof.
  intros Hid Hf Hcol Hn Hu g w' h.
  destruct (group_message_stored w sid c data Hid n Hf Hn Hu) as [_ Hdb].
  fold w' in Hdb. rewrite Hcol in Hdb.
  repeat apply conj; try (rewrite Hdb; reflexivity).
  - unfold in_room. subst w'. rewrite (group_message_rooms w sid c data Hid).
    apply (in_room_rejoin sid g w).
  - subst w'. rewrite (run_on_group_message w sid c data Hid).
    pose proof (rejoin_frame sid g w) as (_ & Hdb1 & Hf1 & _).
    fold g. rewrite db_query_healthy by congruence.
    cbn [exec fst snd]. rewrite Hdb1, Hcol. unfold with_int.
    rewrite Hn, Hu. cbn [fst snd]. world_simpl.
    now rewrite <- app_assoc.
Qed.

(** X6.  The room of a group message is whatever name the client gives.
    When the name is the socket id of another connection, the sender is
    joined to the room in which that connection receives its direct
    messages: the next direct message addressed to it is delivered to the
    sender as well. *)
Theorem group_message_to_a_socket_id_taps_direct_messages
  (w : world) (sid : string) (c : conn) (data : group_message_data)
  (sender : string) (pm : private_message_data) (victim : string) :
  connectedUsers_get (connectedUsers w) sid = Some c ->
  gm_groupId data = victim ->
  findSocketIdByUserId (connectedUsers w) (pm_toUserId pm) = Some victim ->
  victim <> EmptyString ->
  let w1 := run (on_group_message sid data) w in
  let w2 := run (on_private_message sender pm) w1 in
  exists r reached,
    trace w2
    = (trace w1 ++
       [Queried (InsertMessage (pm_fromUserId pm) (pm_message pm)
                   (roomId (pm_fromUserId pm) (pm_toUserId pm)) None) r;
        Emitted (ToRoom victim) reached
          (PrivateMessage (pm_fromUserId pm) (pm_fromUserName pm)
             (pm_message pm));
        Emitted (ToSocket sender) [sender]
          (MessageSent (pm_toUserId pm) (pm_message pm) (id_or_null r))])%list
    /\ In sid reached.
Proof.
  intros Hid Hg Hfind Hne w1 w2.
  assert (Hreg : connectedUsers w1 = connectedUsers w)
    by apply run_keeps_process_state.
  assert (Hin : in_room sid victim w1 = true).
  { unfold in_room. subst w1. rewrite (group_message_rooms w sid c data Hid).
    rewrite Hg. apply (in_room_rejoin sid victim w). }
  subst w2. rewrite run_on_private_message.
  destruct (db_query _ w1) as [r w'] eqn:Hq.
  pose proof (db_query_frame _ _ _ _ Hq) as (_ & _ & Hr & _ & Ht).
  exists r, (room_members victim w1). split.
  - rewrite Hreg, Hfind, (truthy_nonempty _ Hne).
    cbn [emit record trace recipients]. unfold room_members.
    now rewrite Hr, Ht, <- !app_assoc.
  - now apply in_room_members.
Qed.


(** ** Group history across the schema change *)

Section SchemaChange.

Lemma filtered_read_after_column_added (room : string) (s : store) :
  has_is_group s = false ->
  exec (SelectRoomMessages room true) (checkMessageTable s)
  = (Ok [], checkMessageTable s).
Proof.
  intros H. unfold checkMessageTable. rewrite H. cbn [exec].
  cbn [has_is_group add_is_group_column andb negb].
  replace (filter _ (messages (add_is_group_column s))) with (@nil message_row);
    [reflexivity|].
  cbn [messages add_is_group_column].
  induction (messages s) as [|m l IH]; simpl; [reflexivity|].
  now rewrite andb_false_r.
Qed.

End SchemaChange.

(** X8.  A group message stored on the schema without [is_group] is
    returned by the group history route through the read without the flag.
    After the schema check script has added the column, every row that was
    there carries the default [FALSE], the read with the flag succeeds, and
    the route returns no message of before the change. *)
Theorem fallback_messages_leave_the_history_when_the_column_is_added
  (w : world) (sid : string) (c : conn) (data : group_message_data) (n : Z) :
  connectedUsers_get (connectedUsers w) sid = Some c ->
  faults w = [] ->
  has_is_group (db w) = false ->
  to_number (userId c) = Some n ->
  has_user n (db w) = true ->
  (List.length (room_view (gm_groupId data) (db w)) < 100)%nat ->
  let g := gm_groupId data in
  let w' := run (on_group_message sid data) w in
  let migrated := with_db (checkMessageTable (db w')) w' in
  (exists rows name,
     trace (run (get_group_messages g) w')
     = (trace w' ++
        [Queried (SelectRoomMessages g true)
           (Err (unknown_column "m.is_group" "where clause"));
         Queried (SelectRoomMessages g false) (Ok rows);
         Responded 200 (MessagesBody rows None)])%list /\
     In {| mv_id := next_message_id (db w); mv_user_id := n;
           mv_user_name := name; mv_content := gm_message data |} rows) /\
  has_is_group (db migrated) = true /\
  trace (run (get_group_messages g) migrated)
  = (trace w' ++
     [Queried (SelectRoomMessages g true) (Ok []);
      Responded 200 (MessagesBody [] None)])%list.
Proof.
  intros Hid Hf Hcol Hn Hu Hlen g w' migrated.
  destruct (group_message_stored w sid c data Hid n Hf Hn Hu) as [Hf' Hdb].
  fold w' g in Hf', Hdb. rewrite Hcol in Hdb.
  assert (Hcol' : has_is_group (db w') = false) by (now rewrite Hdb).
  repeat apply conj.
  - destruct (view_message_of_user (db w)
                {| m_id := next_message_id (db w); m_user_id := n;
                   m_content := gm_message data; m_room_id := g;
                   m_is_group := false |} Hu) as (name & rest & Hview).
    exists (firstn 100 (room_view g (db w'))), name. split.
    + rewrite run_get_group_messages.
      rewrite db_query_healthy by exact Hf'.
      cbn [exec fst snd]. rewrite Hcol'. cbn [andb negb fst snd].
      change (missing_is_group
                (unknown_column "m.is_group" "where clause")) with true.
      cbv iota. rewrite db_query_healthy by reflexivity.
      rewrite exec_history. cbn [fst snd]. world_simpl.
      now rewrite <- !app_assoc.
    + rewrite Hdb, room_view_add_message, String.eqb_refl, Hview.
      simpl m_id. apply firstn_app_head. exact Hlen.
  - subst migrated. unfold with_db, checkMessageTable. rewrite Hcol'.
    reflexivity.
  - rewrite run_get_group_messages.
    rewrite db_query_healthy by (subst migrated; exact Hf').
    subst migrated. unfold with_db. cbn [db set_db].
    rewrite (filtered_read_after_column_added g _ Hcol').
    cbn [fst snd]. world_simpl. now rewrite <- !app_assoc.
Qed.

(** ** Group creation: the half-way failure and the rooms *)

Section CreateGroupMore.

Lemma insert_member_rows_app (upd : bool) (l1 l2 : list (string * jsval)) :
  forall s,
    insert_member_rows upd (l1 ++ l2)%list s
    = match insert_member_rows upd l1 s with
      | inl e => inl e
      | inr s1 => insert_member_rows upd l2 s1
      end.
Proof.
  induction l1 as [|[g v] l1 IH]; intros s; simpl; [reflexivity|].
  destruct (to_number v) as [n|]; [|reflexivity].
  destruct (has_member g n s).
  - destruct upd; [apply IH | reflexivity].
  - destruct (has_user n s); [apply IH | reflexivity].
Qed.

(** A plain insert that names a user twice is refused. *)
Lemma insert_member_rows_twice (g : string) (invited : list jsval)
  (creator v : jsval) (n : Z) (s : store) :
  In v invited -> to_number v = Some n -> to_number creator = Some n ->
  exists e,
    insert_member_rows false
      (map (fun x => (g, x)) (invited ++ [creator])%list) s = inl e.
Proof.
  intros Hin Hv Hc. rewrite map_app, insert_member_rows_app.
  destruct (insert_member_rows false (map (fun x => (g, x)) invited) s)
    as [e|s1] eqn:E; [eauto|].
  destruct (insert_member_rows_once _ _ _ E g v) as (k & Hk & Hrows).
  { apply in_map_iff. eauto. }
  assert (k = n) by congruence. subst k.
  simpl. rewrite Hc, (member_rows_has_member _ _ _ Hrows). eauto.
Qed.

Lemma in_room_join_iff (s r s0 g : string) (u : world) :
  in_room s r (join s0 g u)
  = (in_room s r u || (String.eqb s s0 && String.eqb r g))%bool.
Proof.
  unfold join. destruct (in_room s0 g u) eqn:E.
  - destruct (String.eqb s s0 && String.eqb r g)%bool eqn:E2;
      [|now rewrite orb_false_r].
    apply andb_true_iff in E2 as [Es Er].
    apply String.eqb_eq in Es, Er. subst.
    change (in_room s0 g (record (Joined s0 g) u)) with (in_room s0 g u).
    now rewrite E.
  - unfold in_room. simpl. rewrite existsb_app. simpl.
    rewrite orb_false_r. f_equal.
    now rewrite (String.eqb_sym s0 s), (String.eqb_sym g r).
Qed.

(** The rooms after the notification loop of create-group. *)
Lemma create_group_loop_rooms (sid g : string) (obj : group_object)
  (k : proc) (s r : string) (memberIds : list jsval) :
  (forall u, rooms (run k u) = rooms u) ->
  forall u,
    in_room s r
      (run (for_each memberIds
              (fun memberId k' =>
                 GetUsers (fun users =>
                   match truthy (findSocketIdByUserId users memberId) with
                   | Some memberSocketId =>
                       Emit (ToRoom memberSocketId) (GroupCreated obj)
                         (if negb (String.eqb memberSocketId sid)
                          then SocketsGet memberSocketId (fun memberSocket =>
                                 if memberSocket
                                 then Join memberSocketId g k' else k')
                          else k')
                   | None => k'
                   end)) k) u)
    = (in_room s r u
       || (String.eqb r g
           && existsb (String.eqb s)
                (member_sockets (connectedUsers u) (sockets u) sid
                   memberIds)))%bool.
Proof.
  intros Hk. induction memberIds as [|v l IH]; intros u.
  - simpl. unfold in_room. rewrite Hk. now rewrite andb_false_r, orb_false_r.
  - assert (Hcons :
      member_sockets (connectedUsers u) (sockets u) sid (v :: l)
      = (match truthy (findSocketIdByUserId (connectedUsers u) v) with
         | Some ms =>
             if (negb (String.eqb ms sid)
                 && existsb (String.eqb ms) (sockets u))%bool
             then [ms] else []
         | None => []
         end ++ member_sockets (connectedUsers u) (sockets u) sid l)%list)
      by reflexivity.
    rewrite Hcons, existsb_app. clear Hcons.
    cbn [for_each fold_right run]. fold (for_each l).
    destruct (truthy (findSocketIdByUserId (connectedUsers u) v)) as [ms|];
      [|apply IH].
    cbn [run]. destruct (negb (String.eqb ms sid)) eqn:Ens; cbn [andb];
      [|rewrite IH; reflexivity].
    cbn [run]. change (sockets (emit (ToRoom ms) (GroupCreated obj) u))
      with (sockets u).
    destruct (existsb (String.eqb ms) (sockets u)) eqn:Elive;
      [|rewrite IH; reflexivity].
    cbn [run]. rewrite IH.
    assert (Hreg : connectedUsers (join ms g (emit (ToRoom ms)
                       (GroupCreated obj) u)) = connectedUsers u)
      by (unfold join; now destruct (in_room ms g _)).
    assert (Hso : sockets (join ms g (emit (ToRoom ms)
                       (GroupCreated obj) u)) = sockets u)
      by (unfold join; now destruct (in_room ms g _)).
    rewrite Hreg, Hso, in_room_join_iff.
    change (in_room s r (emit (ToRoom ms) (GroupCreated obj) u))
      with (in_room s r u).
    cbn [existsb]. rewrite (String.eqb_sym s ms).
    destruct (in_room s r u), (String.eqb r g), (String.eqb ms s),
      (existsb (String.eqb s)
         (member_sockets (connectedUsers u) (sockets u) sid l));
      reflexivity.
Qed.

End CreateGroupMore.

(** X9.  A creator whose registered id and whose entry in the invite list
    are the same user under two types (the text ["1"] and the number [1])
    is appended to the list a second time, which the unique key of
    [group_members] refuses: on a store that answers, the group row is
    inserted, the whole member insert fails, nothing is rolled back, no
    room changes and the creator is told that adding the members failed. *)
Theorem create_group_with_the_creator_under_two_types_fails_half_way
  (w : world) (sid : string) (c : conn) (data : create_group_data)
  (invited : list jsval) (v : jsval) (n : Z) :
  connectedUsers_get (connectedUsers w) sid = Some c ->
  faults w = [] ->
  cg_memberIds data = Some invited ->
  array_includes invited (userId c) = false ->
  In v invited -> to_number v = Some n -> to_number (userId c) = Some n ->
  has_user n (db w) = true ->
  let g := ("group_" ++ Z_to_string (clock w))%string in
  let w' := run (on_create_group sid data) w in
  has_group g (db w) = false ->
  db w' = add_group (cg_groupName data) n g (db w) /\
  rooms w' = rooms w /\
  exists e,
    trace w'
    = (trace w ++
       [Queried (InsertGroup (cg_groupName data) (userId c) g)
          (Ok (header_of (next_group_id (db w)) 1));
        Queried (InsertMembers false
                   (map (fun x => (g, x)) (invited ++ [userId c])%list))
          (Err e);
        Emitted (ToSocket sid) [sid]
          (GroupCreatedError "Failed to add members")])%list.
Proof.
  intros Hid Hf Hdata Hinc Hin Hv Hc Hu g w' Hfresh.
  destruct (insert_member_rows_twice g invited (userId c) v n
              (add_group (cg_groupName data) n g (db w)) Hin Hv Hc)
    as [e He].
  assert (Hrun :
    w' = emit (ToSocket sid) (GroupCreatedError "Failed to add members")
           (record
              (Queried (InsertMembers false
                          (map (fun x => (g, x)) (invited ++ [userId c])%list))
                 (Err e))
              (set_db (add_group (cg_groupName data) n g (db w)) []
                 (record
                    (Queried (InsertGroup (cg_groupName data) (userId c) g)
                       (Ok (header_of (next_group_id (db w)) 1)))
                    (set_db (add_group (cg_groupName data) n g (db w)) []
                       w))))).
  { subst w'. unfold on_create_group. cbn [run]. rewrite Hid. cbn [run].
    fold g. rewrite Hdata, Hinc.
    rewrite db_query_healthy by exact Hf.
    cbn [exec]. unfold with_int. rewrite Hc, Hfresh, Hu. cbn [fst snd run].
    rewrite db_query_healthy by reflexivity.
    cbn [exec]. world_simpl.
    destruct (map (fun x => (g, x)) (invited ++ [userId c])%list)
      as [|p rest] eqn:Emap.
    { destruct invited; discriminate. }
    rewrite He. cbn [fst snd run]. reflexivity. }
  rewrite Hrun. repeat apply conj; try reflexivity.
  exists e. world_simpl. now rewrite <- !app_assoc.
Qed.

(** X10.  After a group creation whose two inserts succeeded, the
    connections in the room of the new group are those that were in a room
    of that name, the creator's, and for each member id the first
    connection registered for it when it is a live socket; no other room
    changes. *)
Theorem create_group_joins_the_connected_members
  (w : world) (sid : string) (c : conn) (data : create_group_data)
  (h h2 : header) (w1 w2 : world) :
  connectedUsers_get (connectedUsers w) sid = Some c ->
  let g := ("group_" ++ Z_to_string (clock w))%string in
  let invited := match cg_memberIds data with Some l => l | None => [] end in
  let memberIds := with_creator invited (userId c) in
  let w' := run (on_create_group sid data) w in
  db_query (InsertGroup (cg_groupName data) (userId c) g) w = (Ok h, w1) ->
  db_query (InsertMembers false (map (fun v => (g, v)) memberIds)) w1
  = (Ok h2, w2) ->
  forall s r,
    in_room s r w'
    = (in_room s r w
       || (String.eqb r g
           && (String.eqb s sid
               || existsb (String.eqb s)
                    (member_sockets (connectedUsers w) (sockets w) sid
                       memberIds))))%bool.
Proof.
  intros Hid g invited memberIds w' Hq1 Hq2 s r.
  pose proof (db_query_frame _ _ _ _ Hq1) as (Hu1 & Hs1 & Hr1 & _).
  pose proof (db_query_frame _ _ _ _ Hq2) as (Hu2 & Hs2 & Hr2 & _).
  subst w'. unfold on_create_group. cbn [run]. rewrite Hid. cbn [run].
  fold g invited. fold (with_creator invited (userId c)). fold memberIds.
  rewrite Hq1. cbn [run]. rewrite Hq2. cbn [run].
  rewrite create_group_loop_rooms by reflexivity.
  assert (Hreg : connectedUsers (join sid g w2) = connectedUsers w).
  { unfold join. destruct (in_room sid g w2); simpl; congruence. }
  assert (Hso : sockets (join sid g w2) = sockets w).
  { unfold join. destruct (in_room sid g w2); simpl; congruence. }
  rewrite Hreg, Hso, in_room_join_iff.
  assert (Hin : in_room s r w2 = in_room s r w).
  { unfold in_room. congruence. }
  rewrite Hin.
  destruct (in_room s r w), (String.eqb r g), (String.eqb s sid),
    (existsb (String.eqb s) (member_sockets _ _ sid memberIds));
    reflexivity.
Qed.

(** ** Adding and removing members, leaving, listing *)

Section MemberOperations.

Lemma run_keeps_healthy (p : proc) :
  forall w, faults w = [] -> faults (run p w) = [].
Proof.
  induction p as [|what|R q k IH|sid k IH|k IH|sid k IH|sid k IH|k IH
                  |sid room k IH|sid room k IH|t x k IH|status b k IH];
    intros w Hf; cbn [run]; try solve [assumption | apply IH; exact Hf].
  - rewrite db_query_healthy by exact Hf. apply IH. reflexivity.
  - apply IH. unfold join. now destruct (in_room sid room w).
Qed.

(** A statement that fails leaves the tables as they were. *)
Lemma exec_err_unchanged {R : Type} (q : query R) (s : store) (e : sql_error) :
  fst (exec q s) = Err e -> snd (exec q s) = s.
Proof.
  destruct q; cbn [exec]; unfold with_int;
    try (destruct (to_number _) as [n|]; [|reflexivity]);
    try reflexivity; try discriminate.
  - destruct is_group as [b|].
    + destruct (has_is_group s); [|reflexivity].
      destruct (to_number user_id) as [n|]; [|reflexivity].
      destruct (has_user n s); [discriminate | reflexivity].
    + destruct (to_number user_id) as [n|]; [|reflexivity].
      destruct (has_user n s); [discriminate | reflexivity].
  - destruct (has_group group_id s); [reflexivity|].
    destruct (has_user n s); [discriminate | reflexivity].
  - destruct values as [|p rest]; [reflexivity|].
    destruct (insert_member_rows on_duplicate_update (p :: rest) s);
      [reflexivity | discriminate].
  - destruct ids as [|i rest]; [reflexivity|].
    destruct (ints_of (i :: rest)); reflexivity.
  - destruct (only_is_group && negb (has_is_group s))%bool; reflexivity.
Qed.

Lemma db_query_err {R : Type} (q : query R) (w w2 : world) (e : sql_error) :
  db_query q w = (Err e, w2) -> db w2 = db w.
Proof.
  intros H. apply db_query_answer in H. unfold answer in H.
  pose proof (exec_err_unchanged q (db w) e) as Hx.
  destruct (faults w) as [|[e'|] fs].
  - destruct (exec q (db w)) as [r s]. injection H as -> <- _.
    now apply Hx.
  - now injection H as _ <- _.
  - destruct (exec q (db w)) as [r s]. injection H as -> <- _.
    now apply Hx.
Qed.

Lemma has_member_prefix (g : string) (n : Z) (s s' : store)
  (added : list member_row) :
  group_members s' = (group_members s ++ added)%list ->
  has_member g n s = true -> has_member g n s' = true.
Proof.
  unfold has_member. intros -> H. rewrite existsb_app, H. reflexivity.
Qed.

(** The insert with [ON DUPLICATE KEY UPDATE], for known users: it succeeds,
    only appends, and leaves every named pair present. *)
Lemma upsert_member_rows_ok (values : list (string * jsval)) :
  forall s,
    (forall g v, In (g, v) values ->
       exists k, to_number v = Some k /\ has_user k s = true) ->
    exists s' added,
      insert_member_rows true values s = inr s' /\
      group_members s' = (group_members s ++ added)%list /\
      (forall g v k, In (g, v) values -> to_number v = Some k ->
         has_member g k s' = true).
Proof.
  induction values as [|[g v] rest IH]; intros s Hval.
  - exists s, []. simpl. rewrite app_nil_r. repeat split. intros g v k [].
  - destruct (Hval g v (or_introl eq_refl)) as (k & Hk & Hu).
    simpl. rewrite Hk.
    destruct (has_member g k s) eqn:Em.
    + destruct (IH s) as (s' & added & Hins & Hpre & Hall).
      { intros g' v' Hin. apply (Hval g' v'). now right. }
      exists s', added. repeat split; auto.
      intros g' v' k' [[= <- <-] | Hin] Hk'; [|eauto].
      assert (k' = k) by congruence. subst k'.
      now apply (has_member_prefix _ _ _ _ _ Hpre).
    + rewrite Hu.
      destruct (IH (add_member g k s)) as (s' & added & Hins & Hpre & Hall).
      { intros g' v' Hin. destruct (Hval g' v' (or_intror Hin))
          as (k' & Hk' & Hu'). exists k'. split; [assumption|].
        now rewrite (has_user_same_users k' s (add_member g k s)). }
      exists s'. eexists. split; [exact Hins|]. split.
      * rewrite Hpre. cbn [group_members add_member].
        rewrite <- app_assoc. reflexivity.
      * intros g' v' k' [[= <- <-] | Hin] Hk'; [|eauto].
        assert (k' = k) by congruence. subst k'.
        apply (has_member_prefix _ _ _ _ _ Hpre).
        now rewrite has_member_add, String.eqb_refl, Z.eqb_refl, orb_true_r.
Qed.

(** The same insert over pairs that are all present changes nothing. *)
Lemma upsert_member_rows_idem (values : list (string * jsval)) (s : store) :
  (forall g v, In (g, v) values ->
     exists k, to_number v = Some k /\ has_member g k s = true) ->
  insert_member_rows true values s = inr s.
Proof.
  induction values as [|[g v] rest IH]; intros Hval; simpl; [reflexivity|].
  destruct (Hval g v (or_introl eq_refl)) as (k & Hk & Hm).
  rewrite Hk, Hm. apply IH. intros g' v' Hin. apply (Hval g' v'). now right.
Qed.

Lemma has_creator_row (g : string) (n : Z) (s : store) :
  has_creator g n s = true ->
  exists row rest,
    filter (fun r => (String.eqb (g_group_id r) g
                      && (g_creator_id r =? n))%bool) (chat_groups s)
    = row :: rest.
Proof.
  unfold has_creator.
  induction (chat_groups s) as [|r l IH]; simpl; [discriminate|].
  destruct (String.eqb (g_group_id r) g && (g_creator_id r =? n))%bool;
    simpl; eauto.
Qed.

(** What add-members does after its statements. *)
Lemma add_members_notifications_transport_only
  (g : string) (c : conn) (groupInfo : group_row) (addedUsers : list user_row) :
  transport_only
    (for_each addedUsers
       (fun addedUser k =>
          GetUsers (fun users =>
            match truthy (findSocketIdByUserId users
                            (JNum (u_id addedUser))) with
            | Some addedUserSocketId =>
                SocketsGet addedUserSocketId (fun addedSocket =>
                  (if addedSocket
                   then Join addedUserSocketId g else skip)
                    (Emit (ToRoom addedUserSocketId)
                       (GroupCreated
                          {| go_id := g_id groupInfo; go_groupId := g;
                             go_name := g_name groupInfo;
                             go_creatorId := userId c;
                             go_memberIds := None |}) k))
            | None => k
            end))
       (Emit (ToRoom g) (MembersAdded g addedUsers)
          (for_each addedUsers
             (fun addedUser k =>
                Emit (ToRoom g)
                  (system_message g
                     (u_name addedUser ++ " has been added to the group by "
                      ++ userName c)) k)
             Done))).
Proof.
  apply transport_only_for_each.
  - intros u k Hk. constructor. intros users.
    destruct (truthy _) as [ms|]; [|exact Hk].
    constructor. intros [|]; unfold skip; repeat constructor; exact Hk.
  - constructor. apply transport_only_for_each; [|constructor].
    intros u k Hk. now constructor.
Qed.

(** The tables after add-members by the creator, on a store that answers. *)
Lemma add_members_tables (w : world) (sid : string) (c : conn) (n : Z)
  (data : add_members_data) (s' : store) :
  connectedUsers_get (connectedUsers w) sid = Some c ->
  faults w = [] ->
  to_number (userId c) = Some n ->
  has_creator (am_groupId data) n (db w) = true ->
  am_userIds data <> [] ->
  insert_member_rows true
    (map (fun v => (am_groupId data, v)) (am_userIds data)) (db w) = inr s' ->
  db (run (on_add_group_members sid data) w) = s'.
Proof.
  intros Hid Hf Hn Hc Hne Hins.
  unfold on_add_group_members. cbn [run]. rewrite Hid. cbn [run].
  rewrite db_query_healthy by exact Hf.
  cbn [exec]. unfold with_int. rewrite Hn. cbn [fst snd].
  destruct (has_creator_row _ _ _ Hc) as (row & rest & ->). cbn [run].
  rewrite db_query_healthy by reflexivity.
  cbn [exec]. world_simpl.
  destruct (map (fun v => (am_groupId data, v)) (am_userIds data))
    as [|p l] eqn:Emap.
  { destruct (am_userIds data); [congruence | discriminate]. }
  rewrite Hins. cbn [fst snd run].
  rewrite db_query_healthy by reflexivity.
  match goal with
  | |- db (run (match fst ?x with _ => _ end) ?u) = _ =>
      assert (Hsnd : snd x = s') by
        (cbn [exec]; destruct (am_userIds data) as [|i r0];
         [reflexivity | destruct (ints_of (i :: r0)); reflexivity]);
      destruct (fst x) as [e|addedUsers]
  end.
  - cbn [run]. world_simpl. exact Hsnd.
  - rewrite (transport_only_keeps_db _
               (add_members_notifications_transport_only
                  (am_groupId data) c row addedUsers)).
    world_simpl. exact Hsnd.
Qed.

End MemberOperations.

(** X11.  Add-members by the creator, with known users and a store that
    answers: the membership table only grows, every named user is a member
    afterwards, the group row is untouched, and doing it again changes no
    row (a user who is a member already is not an error). *)
Theorem add_members_is_an_upsert
  (w : world) (sid : string) (c : conn) (n : Z) (data : add_members_data) :
  connectedUsers_get (connectedUsers w) sid = Some c ->
  faults w = [] ->
  to_number (userId c) = Some n ->
  has_creator (am_groupId data) n (db w) = true ->
  am_userIds data <> [] ->
  (forall v, In v (am_userIds data) ->
     exists k, to_number v = Some k /\ has_user k (db w) = true) ->
  let g := am_groupId data in
  let w' := run (on_add_group_members sid data) w in
  (exists added,
     group_members (db w') = (group_members (db w) ++ added)%list) /\
  (forall v k, In v (am_userIds data) -> to_number v = Some k ->
     has_member g k (db w') = true) /\
  chat_groups (db w') = chat_groups (db w) /\
  db (run (on_add_group_members sid data) w') = db w'.
Proof.
  intros Hid Hf Hn Hc Hne Hval g w'.
  destruct (upsert_member_rows_ok
              (map (fun v => (g, v)) (am_userIds data)) (db w))
    as (s' & added & Hins & Hpre & Hall).
  { intros g0 v Hin. apply in_map_iff in Hin as (v0 & [= <- <-] & Hv).
    now apply Hval. }
  assert (Hdb : db w' = s')
    by (apply (add_members_tables w sid c n data s'); assumption).
  destruct (insert_member_rows_frame _ _ _ _ Hins) as [Hcg Hus].
  assert (Hmem : forall v k, In v (am_userIds data) -> to_number v = Some k ->
            has_member g k s' = true).
  { intros v k Hv Hk. apply (Hall g v k); [|assumption].
    apply in_map_iff. eauto. }
  rewrite Hdb. repeat apply conj; eauto.
  apply (add_members_tables w' sid c n data s').
  - subst w'. now rewrite (proj1 (run_keeps_process_state _ w)).
  - now apply run_keeps_healthy.
  - assumption.
  - unfold has_creator. rewrite Hdb, Hcg. exact Hc.
  - assumption.
  - rewrite Hdb. apply upsert_member_rows_idem.
    intros g0 v Hin. apply in_map_iff in Hin as (v0 & [= <- <-] & Hv).
    destruct (Hval v0 Hv) as (k & Hk & _). eauto.
Qed.

Section RemoveMember.

Lemma user_name_of_known (k : Z) (s : store) :
  has_user k s = true -> exists name rest, user_name_of k s = name :: rest.
Proof.
  unfold has_user, user_name_of.
  induction (users s) as [|u l IH]; simpl; [discriminate|].
  destruct (u_id u =? k); simpl; eauto.
Qed.

End RemoveMember.

(** X12.  Remove-member by the creator, for a known user and a store that
    answers: the membership row of that user is deleted and no other, the
    group row stays, also when no member is left; the first connection of
    the removed user, when it is a live socket, is out of the room; and the
    removal is announced to the room whether or not the user was a
    member. *)
Theorem remove_member_deletes_the_row_and_keeps_the_group
  (w : world) (sid : string) (c : conn) (n k : Z)
  (data : remove_member_data) :
  connectedUsers_get (connectedUsers w) sid = Some c ->
  faults w = [] ->
  to_number (userId c) = Some n ->
  has_creator (rm_groupId data) n (db w) = true ->
  to_number (rm_userId data) = Some k ->
  has_user k (db w) = true ->
  let g := rm_groupId data in
  let w' := run (on_remove_group_member sid data) w in
  group_members (db w')
  = filter (fun m => negb (is_member g k m)) (group_members (db w)) /\
  chat_groups (db w') = chat_groups (db w) /\
  (forall ts,
     findSocketIdByUserId (connectedUsers w) (rm_userId data) = Some ts ->
     ts <> EmptyString ->
     existsb (String.eqb ts) (sockets w) = true ->
     in_room ts g w' = false) /\
  exists before name,
    trace w'
    = (before ++
       [Emitted (ToRoom g) (room_members g w')
          (MemberRemoved g None (rm_userId data) name);
        Emitted (ToRoom g) (room_members g w')
          (system_message g
             (name ++ " has been removed from the group by "
              ++ userName c))])%list.
Proof.
  intros Hid Hf Hn Hc Hk Hu g w'.
  destruct (has_creator_row _ _ _ Hc) as (row & rest & Hrow).
  destruct (user_name_of_known _ _ Hu) as (name & names & Hname).
  assert (Hrun :
    exists u,
      db u = set_group_members
               (filter (fun m => negb (is_member g k m))
                  (group_members (db w))) (db w) /\
      rooms u = rooms w /\ connectedUsers u = connectedUsers w /\
      sockets u = sockets w /\
      w' = emit (ToRoom g)
             (system_message g
                (name ++ " has been removed from the group by "
                 ++ userName c))
             (emit (ToRoom g) (MemberRemoved g None (rm_userId data) name)
                match truthy (findSocketIdByUserId (connectedUsers u)
                                (rm_userId data)) with
                | Some ts =>
                    let u1 := emit (ToRoom ts)
                                (MemberRemoved g (Some (g_name row))
                                   (rm_userId data) name) u in
                    if existsb (String.eqb ts) (sockets u1)
                    then leave ts g u1 else u1
                | None => u
                end)).
  { subst w'. unfold on_remove_group_member. cbn [run]. rewrite Hid.
    cbn [run].
    rewrite db_query_healthy by exact Hf.
    cbn [exec]. unfold with_int. rewrite Hn. cbn [fst snd]. rewrite Hrow.
    cbn [run]. rewrite db_query_healthy by reflexivity.
    cbn [exec]. unfold with_int. rewrite Hk. cbn [fst snd]. world_simpl.
    rewrite Hname. cbn [run]. rewrite db_query_healthy by reflexivity.
    cbn [exec]. unfold with_int. rewrite Hk. cbn [fst snd run]. world_simpl.
    match goal with
    | |- exists u, _ /\ _ /\ _ /\ _ /\ run _ ?W = _ => exists W
    end.
    repeat (split; [reflexivity|]). world_simpl.
    destruct (truthy (findSocketIdByUserId (connectedUsers w)
                        (rm_userId data))) as [ts|];
      cbn [skip run]; [|reflexivity].
    cbv zeta. world_simpl.
    destruct (existsb (String.eqb ts) (sockets w)); reflexivity. }
  destruct Hrun as (u & Hdb & Hr & Hcu & Hso & Hrun).
  assert (Hdb' : db w' = db u).
  { rewrite Hrun. destruct (truthy _) as [ts|]; [|reflexivity].
    cbn zeta. destruct (existsb _ _); reflexivity. }
  repeat apply conj.
  - now rewrite Hdb', Hdb.
  - now rewrite Hdb', Hdb.
  - intros ts Hfind Hne Hlive. rewrite Hrun, Hcu, Hfind.
    rewrite (truthy_nonempty _ Hne). cbn zeta.
    change (sockets (emit (ToRoom ts)
                       (MemberRemoved g (Some (g_name row)) (rm_userId data)
                          name) u)) with (sockets u).
    rewrite Hso, Hlive.
    change (in_room ts g (leave ts g
                            (emit (ToRoom ts)
                               (MemberRemoved g (Some (g_name row))
                                  (rm_userId data) name) u)) = false).
    apply in_room_leave.
  - rewrite Hrun. eexists. exists name.
    cbn [emit record trace recipients rooms].
    rewrite <- app_assoc. reflexivity.
Qed.

(** X13.  When the delete of leave-group fails, the caller is told so and
    nothing else happens: the tables and the rooms are as before, the
    caller's connection stays in the room, the members are not counted and
    the group is not deleted. *)
Theorem leave_group_failure_changes_nothing
  (w : world) (sid : string) (c : conn) (g : string) (e : sql_error)
  (w2 : world) :
  connectedUsers_get (connectedUsers w) sid = Some c ->
  db_query (DeleteMember g (userId c)) w = (Err e, w2) ->
  let w' := run (on_leave_group sid g) w in
  db w' = db w /\ rooms w' = rooms w /\
  trace w'
  = (trace w ++
     [Queried (DeleteMember g (userId c)) (Err e);
      Emitted (ToSocket sid) [sid]
        (LeaveGroupError "Failed to leave group")])%list.
Proof.
  intros Hid Hq w'. subst w'. unfold on_leave_group. cbn [run].
  rewrite Hid. cbn [run]. rewrite Hq. cbn [run].
  pose proof (db_query_frame _ _ _ _ Hq) as (_ & _ & Hr & _ & Ht).
  pose proof (db_query_err _ _ _ _ Hq) as Hdb.
  repeat apply conj; auto.
  cbn [emit record trace recipients]. now rewrite Ht, <- app_assoc.
Qed.

(** X14.  Request-groups of an identified connection: when the registered
    id is 0 or the empty text nothing is asked and nothing is sent; else, on
    a store that answers, one group list is sent to the caller alone, it
    holds exactly the groups that exist and have a membership row of the
    user, and the member count of each is the number of membership rows of
    that group. *)
Theorem request_groups_lists_the_groups_of_the_user
  (w : world) (sid : string) (c : conn) :
  connectedUsers_get (connectedUsers w) sid = Some c ->
  let w' := run (on_request_groups sid) w in
  (falsy (userId c) = true -> w' = w) /\
  (forall n,
     falsy (userId c) = false -> faults w = [] ->
     to_number (userId c) = Some n ->
     exists rows,
       trace w'
       = (trace w ++
          [Queried (SelectUserGroups (userId c)) (Ok rows);
           Emitted (ToSocket sid) [sid] (GroupList rows)])%list /\
       db w' = db w /\
       (forall g, In g (map gs_group_id rows) <->
                  has_group g (db w) = true /\ has_member g n (db w) = true) /\
       (forall r, In r rows ->
          gs_member_count r
          = Z.of_nat (List.length (members_of (gs_group_id r) (db w))))).
Proof.
  intros Hid w'. subst w'. unfold on_request_groups. cbn [run].
  rewrite Hid. unfold sendUserGroups. split.
  - intros ->. reflexivity.
  - intros n Hfalsy Hf Hn. rewrite Hfalsy. cbn [run].
    rewrite db_query_healthy by exact Hf.
    cbn [exec]. unfold with_int. rewrite Hn. cbn [fst snd run].
    eexists. split; [|split; [|split]].
    + world_simpl. rewrite <- app_assoc. reflexivity.
    + reflexivity.
    + intros g. rewrite map_map. split.
      * intros Hin. apply in_map_iff in Hin as (r & <- & Hr).
        apply filter_In in Hr as [Hr Hm]. split; [|exact Hm].
        unfold has_group. apply existsb_exists. exists r.
        split; [assumption | apply String.eqb_refl].
      * intros [Hg Hm]. unfold has_group in Hg.
        apply existsb_exists in Hg as (r & Hr & Eg).
        apply String.eqb_eq in Eg. subst g.
        apply in_map_iff. exists r. split; [reflexivity|].
        apply filter_In. auto.
    + intros r Hin. apply in_map_iff in Hin as (r0 & <- & _). reflexivity.
Qed.

(** ** Presence *)

Section PresenceFacts.

Lemma ask_frame {R : Type} (rows : store -> result R) (w : world) :
  let w' := world_after (ask rows) w in
  connectedUsers w' = connectedUsers w /\ sockets w' = sockets w /\
  rooms w' = rooms w /\ db w' = db w /\ emitted (ask rows) w = [] /\
  (faults w = [] -> faults w' = [] /\ fst (fst (ask rows w)) = rows (db w)).
Proof.
  unfold world_after, emitted, ask.
  destruct (faults w) as [|[e|] fs] eqn:E; simpl; repeat split; auto;
    congruence.
Qed.

(** The joins of identification: only rooms of that socket are added. *)
Lemma each_join_frame (sid : string) (l : list (string * string)) :
  forall w,
    let w' := world_after
                (each l (fun group => socket_join sid (fst group))) w in
    connectedUsers w' = connectedUsers w /\ sockets w' = sockets w /\
    db w' = db w /\ faults w' = faults w /\
    emitted (each l (fun group => socket_join sid (fst group))) w = [] /\
    forall s r,
      in_room s r w'
      = (in_room s r w
         || (String.eqb s sid && existsb (String.eqb r) (map fst l)))%bool.
Proof.
  induction l as [|[g name] l IH]; intros w.
  - simpl. repeat split; auto. intros s r.
    now rewrite andb_false_r, orb_false_r.
  - cbn zeta in *. unfold world_after, emitted in *.
    cbn [each bind socket_join fst snd].
    specialize (IH (join sid g w)).
    destruct (each l (fun group => socket_join sid (fst group))
                (join sid g w)) as [[u w1] l1].
    cbn [fst snd] in *.
    destruct IH as (Hu & Hs & Hd & Hf & Hl & Hr).
    assert (Hj : connectedUsers (join sid g w) = connectedUsers w /\
                 sockets (join sid g w) = sockets w /\
                 db (join sid g w) = db w /\
                 faults (join sid g w) = faults w).
    { unfold join. destruct (in_room sid g w); simpl; auto. }
    destruct Hj as (Hju & Hjs & Hjd & Hjf).
    repeat split; try congruence.
    + now rewrite Hl.
    + intros s r. rewrite Hr, in_room_join_iff. cbn [map fst existsb].
      destruct (in_room s r w), (String.eqb s sid), (String.eqb r g),
        (existsb (String.eqb r) (map fst l)); reflexivity.
Qed.

Lemma connectedUsers_get_set (m : registry) (sid s : string) (c : conn) :
  connectedUsers_get (connectedUsers_set m sid c) s
  = if String.eqb s sid then Some c else connectedUsers_get m s.
Proof.
  induction m as [|[k c'] m IH]; simpl.
  - rewrite (String.eqb_sym sid s). reflexivity.
  - destruct (String.eqb k sid) eqn:Ek; simpl.
    + apply String.eqb_eq in Ek. subst k.
      rewrite (String.eqb_sym sid s). now destruct (String.eqb s sid).
    + rewrite IH. destruct (String.eqb k s) eqn:Eks; [|reflexivity].
      apply String.eqb_eq in Eks. subst k. now rewrite Ek.
Qed.

Lemma connectedUsers_set_keys (m : registry) (sid : string) (c : conn) :
  map fst (connectedUsers_set m sid c)
  = if existsb (String.eqb sid) (map fst m) then map fst m
    else (map fst m ++ [sid])%list.
Proof.
  induction m as [|[k c'] m IH]; simpl; [reflexivity|].
  rewrite (String.eqb_sym sid k).
  destruct (String.eqb k sid) eqn:Ek; simpl.
  - apply String.eqb_eq in Ek. now subst k.
  - rewrite IH. now destruct (existsb (String.eqb sid) (map fst m)).
Qed.

Lemma connectedUsers_set_twice (m : registry) (sid : string) (c : conn) :
  connectedUsers_set (connectedUsers_set m sid c) sid c
  = connectedUsers_set m sid c.
Proof.
  induction m as [|[k c'] m IH]; simpl.
  - now rewrite String.eqb_refl.
  - destruct (String.eqb k sid) eqn:Ek; simpl; rewrite Ek; [reflexivity|].
    now rewrite IH.
Qed.

Lemma connectedUsers_get_delete (m : registry) (sid s : string) :
  connectedUsers_get (connectedUsers_delete m sid) s
  = if String.eqb s sid then None else connectedUsers_get m s.
Proof.
  unfold connectedUsers_delete.
  induction m as [|[k c] m IH]; simpl.
  - now destruct (String.eqb s sid).
  - destruct (String.eqb k sid) eqn:Ek; simpl.
    + rewrite IH. destruct (String.eqb s sid) eqn:Es; [reflexivity|].
      destruct (String.eqb k s) eqn:Eks; [|reflexivity].
      apply String.eqb_eq in Ek, Eks. subst. now rewrite String.eqb_refl in Es.
    + rewrite IH. destruct (String.eqb k s) eqn:Eks; [|reflexivity].
      apply String.eqb_eq in Eks. subst k. now rewrite Ek.
Qed.

Lemma connectedUsers_delete_set (m : registry) (sid : string) (c : conn) :
  connectedUsers_get m sid = None ->
  connectedUsers_delete (connectedUsers_set m sid c) sid = m.
Proof.
  unfold connectedUsers_delete.
  induction m as [|[k c'] m IH]; simpl.
  - now rewrite String.eqb_refl.
  - destruct (String.eqb k sid) eqn:Ek; [discriminate|].
    intros H. simpl. rewrite Ek. simpl. now rewrite IH.
Qed.

Lemma findSocketIdByUserId_key (m : registry) (u : jsval) (sid : string) :
  findSocketIdByUserId m u = Some sid -> In sid (map fst m).
Proof.
  induction m as [|[k c] m IH]; simpl; [discriminate|].
  destruct (loose_eq (userId c) u); [intros [= ->]; now left | auto].
Qed.

(** The world after identification: registration, then the two reads, then
    the joins. *)
Lemma on_user_connected_world (w : world) (sid : string) (ud : user_data) :
  let entry := {| socketId := sid; userId := ud_userId ud;
                  userName := ud_userName ud; online := true |} in
  let w0 := set_users (connectedUsers_set (connectedUsers w) sid entry) w in
  let w1 := world_after select_users w0 in
  let w2 := world_after (select_groups_of (ud_userId ud)) w1 in
  world_after (on_user_connected sid ud) w
  = match fst (fst (select_groups_of (ud_userId ud) w1)) with
    | Ok results =>
        if (0 <? List.length results)%nat
        then world_after
               (each results (fun group => socket_join sid (fst group))) w2
        else w2
    | Err _ => w2
    end.
Proof.
  cbn zeta. unfold world_after, on_user_connected, bind.
  cbn [users_set users_values notify fst snd].
  destruct (select_users _) as [[r1 w1] l1]. cbn [fst snd].
  destruct r1 as [e1|results1]; cbn [ret users_values notify fst snd];
    destruct (select_groups_of (ud_userId ud) w1) as [[r2 w2] l2];
    cbn [fst snd];
    (destruct r2 as [e2|results]; cbn [ret fst snd]; [reflexivity|]);
    (destruct (0 <? List.length results)%nat; cbn [notify fst snd];
     [|reflexivity]);
    destruct (each results (fun group => socket_join sid (fst group)) w2)
      as [[u w3] l3]; reflexivity.
Qed.

Lemma on_user_connected_frame (w : world) (sid : string) (ud : user_data) :
  let w' := world_after (on_user_connected sid ud) w in
  connectedUsers w'
  = connectedUsers_set (connectedUsers w) sid
      {| socketId := sid; userId := ud_userId ud;
         userName := ud_userName ud; online := true |} /\
  db w' = db w /\ sockets w' = sockets w.
Proof.
  cbn zeta. rewrite on_user_connected_world. cbn zeta.
  set (w0 := set_users _ w).
  pose proof (ask_frame (fun s => Ok (users s)) w0) as (Hu1 & Hs1 & _ & Hd1 & _).
  fold select_users in Hu1, Hs1, Hd1.
  set (w1 := world_after select_users w0) in *.
  pose proof (ask_frame (groups_of (ud_userId ud)) w1)
    as (Hu2 & Hs2 & _ & Hd2 & _).
  fold (select_groups_of (ud_userId ud)) in Hu2, Hs2, Hd2.
  set (w2 := world_after (select_groups_of (ud_userId ud)) w1) in *.
  assert (Hbase : connectedUsers w2
                  = connectedUsers_set (connectedUsers w) sid
                      {| socketId := sid; userId := ud_userId ud;
                         userName := ud_userName ud; online := true |} /\
                  db w2 = db w /\ sockets w2 = sockets w).
  { rewrite Hu2, Hu1, Hd2, Hd1, Hs2, Hs1. repeat split. }
  destruct (fst (fst (select_groups_of (ud_userId ud) w1)))
    as [e|results]; [exact Hbase|].
  destruct (0 <? List.length results)%nat; [|exact Hbase].
  destruct (each_join_frame sid results w2) as (Hu3 & Hs3 & Hd3 & _).
  destruct Hbase as (Hb1 & Hb2 & Hb3). repeat split; congruence.
Qed.

End PresenceFacts.

(** X15.  Identification registers the connection under its socket id with
    the id and the name that the client sent, whatever the store answers:
    the entries of the other sockets are as before, there is still one
    entry per socket, identifying again with the same data changes no
    entry, and the tables are not written. *)
Theorem user_connected_registers_the_connection
  (w : world) (sid : string) (ud : user_data) :
  let entry := {| socketId := sid; userId := ud_userId ud;
                  userName := ud_userName ud; online := true |} in
  let w' := world_after (on_user_connected sid ud) w in
  connectedUsers_get (connectedUsers w') sid = Some entry /\
  (forall s, s <> sid ->
     connectedUsers_get (connectedUsers w') s
     = connectedUsers_get (connectedUsers w) s) /\
  (NoDup (map fst (connectedUsers w)) -> NoDup (map fst (connectedUsers w')))
  /\
  connectedUsers (world_after (on_user_connected sid ud) w')
  = connectedUsers w' /\
  db w' = db w.
Proof.
  intros entry w'.
  destruct (on_user_connected_frame w sid ud) as (Hreg & Hdb & _).
  fold w' entry in Hreg, Hdb.
  repeat apply conj.
  - now rewrite Hreg, connectedUsers_get_set, String.eqb_refl.
  - intros s Hs. rewrite Hreg, connectedUsers_get_set.
    destruct (String.eqb_spec s sid); [contradiction | reflexivity].
  - intros Hnd. rewrite Hreg, connectedUsers_set_keys.
    destruct (existsb (String.eqb sid) (map fst (connectedUsers w))) eqn:E;
      [assumption|].
    apply NoDup_snoc; [assumption|]. intros Hin.
    assert (existsb (String.eqb sid) (map fst (connectedUsers w)) = true).
    { apply existsb_exists. exists sid. split; [assumption|].
      apply String.eqb_refl. }
    congruence.
  - destruct (on_user_connected_frame w' sid ud) as (-> & _).
    fold entry. rewrite Hreg. apply connectedUsers_set_twice.
  - exact Hdb.
Qed.

Section PresenceSync.

Lemma groups_of_rooms (v : jsval) (n : Z) (s : store) :
  to_number v = Some n ->
  exists rows,
    groups_of v s = Ok rows /\
    forall g, In g (map fst rows) <->
              has_group g s = true /\ has_member g n s = true.
Proof.
  intros Hn. unfold groups_of. rewrite Hn. eexists. split; [reflexivity|].
  intros g. rewrite in_map_iff. split.
  - intros ([g0 name] & <- & Hin). simpl.
    apply in_flat_map in Hin as (row & Hrow & Hin).
    apply in_map_iff in Hin as (m & [= <- _] & Hm).
    apply filter_In in Hm as [Hm Hmem]. split.
    + unfold has_group. apply existsb_exists. exists row.
      split; [assumption | apply String.eqb_refl].
    + unfold has_member. apply existsb_exists. eauto.
  - intros [Hg Hm]. unfold has_group in Hg.
    apply existsb_exists in Hg as (row & Hrow & Eg).
    apply String.eqb_eq in Eg. subst g.
    unfold has_member in Hm. apply existsb_exists in Hm as (m & Hm & Hmem).
    exists (g_group_id row, g_name row). split; [reflexivity|].
    apply in_flat_map. exists row. split; [assumption|].
    apply in_map_iff. exists m. split; [reflexivity|].
    apply filter_In. auto.
Qed.

(** What identification emits: the list of connections to everyone, the
    status change to the others, then to the caller the full user list when
    the first read succeeds and the groups when the second does. *)
Lemma on_user_connected_emitted (w : world) (sid : string) (ud : user_data) :
  let w0 := set_users
              (connectedUsers_set (connectedUsers w) sid (entry_of sid ud))
              w in
  let w1 := world_after select_users w0 in
  emitted (on_user_connected sid ud) w
  = ([{| sent_to := Everyone; reached := sockets w;
         what := UsersOnline (map snd (connectedUsers w0)) |};
      {| sent_to := Others sid;
         reached := filter (fun s => negb (String.eqb s sid)) (sockets w);
         what := StatusChange (ud_userId ud) (ud_userName ud) true |}] ++
     match fst (fst (select_users w0)) with
     | Ok results =>
         [{| sent_to := Self sid; reached := [sid];
             what := UsersAll (presence_rows (map snd (connectedUsers w0))
                                 results) |}]
     | Err _ => []
     end ++
     match fst (fst (select_groups_of (ud_userId ud) w1)) with
     | Ok results =>
         [{| sent_to := Self sid; reached := [sid];
             what := GroupsOfUser results |}]
     | Err _ => []
     end)%list.
Proof.
  cbn zeta. unfold emitted, world_after, on_user_connected, bind.
  cbn [users_set users_values notify fst snd app].
  fold (entry_of sid ud).
  set (w0 := set_users _ w).
  pose proof (ask_frame (fun s => Ok (users s)) w0) as (Hu1 & _ & _ & _ & Hl1 & _).
  fold select_users in Hu1, Hl1. unfold emitted, world_after in Hu1, Hl1.
  destruct (select_users w0) as [[r1 w1] l1]. cbn [fst snd] in *. subst l1.
  pose proof (ask_frame (groups_of (ud_userId ud)) w1) as (_ & _ & _ & _ & Hl2 & _).
  fold (select_groups_of (ud_userId ud)) in Hl2. unfold emitted in Hl2.
  destruct r1 as [e1|results1]; cbn [ret users_values notify fst snd app];
    destruct (select_groups_of (ud_userId ud) w1) as [[r2 w2] l2];
    cbn [fst snd] in *; subst l2;
    (destruct r2 as [e2|results]; cbn [ret fst snd app];
     [try rewrite Hu1; reflexivity|]);
    destruct (0 <? List.length results)%nat eqn:Elen;
    cbn [notify fst snd app listeners].
  - pose proof (each_join_frame sid results w2) as (_ & _ & _ & _ & Hl3 & _).
    unfold emitted in Hl3.
    destruct (each results (fun group => socket_join sid (fst group)) w2)
      as [[u w3] l3]. cbn [fst snd] in *. subst l3. reflexivity.
  - destruct results; [reflexivity | discriminate].
  - pose proof (each_join_frame sid results w2) as (_ & _ & _ & _ & Hl3 & _).
    unfold emitted in Hl3.
    destruct (each results (fun group => socket_join sid (fst group)) w2)
      as [[u w3] l3]. cbn [fst snd] in *. subst l3.
    rewrite Hu1. reflexivity.
  - rewrite Hu1. destruct results; [reflexivity | discriminate].
Qed.

(** Identification on a store that answers. *)
Lemma user_connected_sync (w : world) (sid : string) (ud : user_data) (n : Z) :
  faults w = [] ->
  to_number (ud_userId ud) = Some n ->
  let w' := world_after (on_user_connected sid ud) w in
  (forall s r,
     in_room s r w' = true <->
     in_room s r w = true \/
     (s = sid /\ has_group r (db w) = true /\ has_member r n (db w) = true))
  /\
  exists before rows,
    emitted (on_user_connected sid ud) w
    = (before ++
       [{| sent_to := Self sid; reached := [sid];
           what := GroupsOfUser rows |}])%list /\
    (forall g, In g (map fst rows) <->
               has_group g (db w) = true /\ has_member g n (db w) = true).
Proof.
  intros Hf Hn w'.
  set (w0 := set_users
               (connectedUsers_set (connectedUsers w) sid (entry_of sid ud))
               w).
  pose proof (ask_frame (fun s => Ok (users s)) w0)
    as (_ & _ & Hr1 & Hd1 & _ & Hh1).
  fold select_users in Hr1, Hd1, Hh1.
  set (w1 := world_after select_users w0) in *.
  destruct (Hh1 Hf) as [Hf1 _].
  pose proof (ask_frame (groups_of (ud_userId ud)) w1)
    as (_ & _ & Hr2 & Hd2 & _ & Hh2).
  fold (select_groups_of (ud_userId ud)) in Hr2, Hd2, Hh2.
  set (w2 := world_after (select_groups_of (ud_userId ud)) w1) in *.
  destruct (Hh2 Hf1) as [Hf2 Hres].
  destruct (groups_of_rooms (ud_userId ud) n (db w) Hn) as (rows & Hrows & Hiff).
  assert (Hdbw1 : db w1 = db w) by (rewrite Hd1; reflexivity).
  rewrite Hdbw1, Hrows in Hres.
  assert (Hroomsw2 : forall s r, in_room s r w2 = in_room s r w).
  { intros s r. unfold in_room. rewrite Hr2, Hr1. reflexivity. }
  split.
  - intros s r. subst w'. rewrite on_user_connected_world. cbn zeta.
    fold (entry_of sid ud). fold w0 w1 w2. rewrite Hres.
    destruct (0 <? List.length rows)%nat eqn:Elen.
    + destruct (each_join_frame sid rows w2) as (_ & _ & _ & _ & _ & Hin).
      rewrite Hin, Hroomsw2. rewrite orb_true_iff, andb_true_iff.
      rewrite String.eqb_eq. rewrite <- Hiff.
      split; (intros [H | [Hs H]]; [now left | right; split; [assumption|]]).
      * apply existsb_exists in H as (x & Hx & Ex).
        apply String.eqb_eq in Ex. now subst.
      * apply existsb_exists. exists r. split; [assumption|].
        apply String.eqb_refl.
    + rewrite Hroomsw2. destruct rows; [|discriminate]. split; [auto|].
      intros [H | (_ & Hg & Hm)]; [assumption|].
      destruct (proj2 (Hiff r) (conj Hg Hm)).
  - pose proof (on_user_connected_emitted w sid ud) as He. cbn zeta in He.
    fold w0 w1 in He. rewrite Hres in He.
    eexists. exists rows. split; [|exact Hiff].
    rewrite He. rewrite app_assoc. reflexivity.
Qed.

(** The tables after a group creation whose two inserts succeeded. *)
Lemma create_group_success_tables
  (w : world) (sid : string) (c : conn) (data : create_group_data)
  (h h2 : header) (w1 w2 : world) :
  connectedUsers_get (connectedUsers w) sid = Some c ->
  let g := ("group_" ++ Z_to_string (clock w))%string in
  let invited := match cg_memberIds data with Some l => l | None => [] end in
  let memberIds := with_creator invited (userId c) in
  let w' := run (on_create_group sid data) w in
  db_query (InsertGroup (cg_groupName data) (userId c) g) w = (Ok h, w1) ->
  db_query (InsertMembers false (map (fun v => (g, v)) memberIds)) w1
  = (Ok h2, w2) ->
  has_group g (db w') = true /\
  forall v k, In v (userId c :: invited) -> to_number v = Some k ->
    has_member g k (db w') = true.
Proof.
  intros Hid g invited memberIds w' Hq1 Hq2.
  assert (Hdb : db w' = db w2).
  { subst w'. unfold on_create_group. cbn [run]. rewrite Hid. cbn [run].
    fold g invited. fold (with_creator invited (userId c)). fold memberIds.
    rewrite Hq1. cbn [run]. rewrite Hq2.
    match goal with
    | |- db (run ?p w2) = _ => apply (transport_only_keeps_db p)
    end.
    apply create_group_notifications_transport_only. }
  apply db_query_ok in Hq1, Hq2.
  apply exec_InsertGroup_ok in Hq1 as (nc & Hnc & Hs1).
  apply exec_InsertMembers_ok in Hq2.
  pose proof (insert_member_rows_frame _ _ _ _ Hq2) as [Hcg _].
  rewrite Hdb. split.
  - unfold has_group. rewrite Hcg, Hs1. cbn [chat_groups add_group].
    rewrite existsb_app. cbn [existsb g_group_id].
    now rewrite String.eqb_refl, orb_true_r.
  - intros v k Hv Hk.
    destruct (insert_member_rows_once _ _ _ Hq2 g v) as (k' & Hk' & Hrows).
    { apply in_map_iff. exists v. split; [reflexivity|].
      now apply with_creator_complete. }
    assert (k' = k) by congruence. subst k'.
    now apply member_rows_has_member.
Qed.

End PresenceSync.

(** X16.  Identification on a store that answers: the connection is joined
    to the room of every group that exists and has a membership row of the
    user, no other connection joins or leaves a room, and the last event
    sent to the caller is the list of exactly those groups. *)
Theorem user_connected_joins_the_rooms_of_the_groups
  (w : world) (sid : string) (ud : user_data) (n : Z) :
  faults w = [] ->
  to_number (ud_userId ud) = Some n ->
  let w' := world_after (on_user_connected sid ud) w in
  (forall s r,
     in_room s r w' = true <->
     in_room s r w = true \/
     (s = sid /\ has_group r (db w) = true /\ has_member r n (db w) = true))
  /\
  exists before rows,
    emitted (on_user_connected sid ud) w
    = (before ++
       [{| sent_to := Self sid; reached := [sid];
           what := GroupsOfUser rows |}])%list /\
    (forall g, In g (map fst rows) <->
               has_group g (db w) = true /\ has_member g n (db w) = true).
Proof. exact (user_connected_sync w sid ud n). Qed.

(** X17.  When the statement that reads the groups of the user fails, the
    connection is registered all the same but joins no room, and no group
    list is sent to it, not even an empty one. *)
Theorem user_connected_sends_no_group_list_when_the_read_fails
  (w : world) (sid : string) (ud : user_data)
  (first : option sql_error) (e : sql_error) (fs : list (option sql_error)) :
  faults w = first :: Some e :: fs ->
  let w' := world_after (on_user_connected sid ud) w in
  connectedUsers_get (connectedUsers w') sid = Some (entry_of sid ud) /\
  rooms w' = rooms w /\
  forall x rows, In x (emitted (on_user_connected sid ud) w) ->
                 what x <> GroupsOfUser rows.
Proof.
  intros Hf w'.
  set (w0 := set_users
               (connectedUsers_set (connectedUsers w) sid (entry_of sid ud))
               w).
  assert (Hw1 : faults (world_after select_users w0) = Some e :: fs /\
                rooms (world_after select_users w0) = rooms w).
  { unfold world_after, select_users, ask. cbn [faults w0 set_users].
    rewrite Hf. destruct first; split; reflexivity. }
  destruct Hw1 as [Hf1 Hr1].
  set (w1 := world_after select_users w0) in *.
  assert (Hres : fst (fst (select_groups_of (ud_userId ud) w1)) = Err e /\
                 rooms (world_after (select_groups_of (ud_userId ud)) w1)
                 = rooms w).
  { unfold world_after, select_groups_of, ask. rewrite Hf1. split;
      [reflexivity | exact Hr1]. }
  destruct Hres as [Hres Hr2].
  repeat apply conj.
  - destruct (on_user_connected_frame w sid ud) as (Hreg & _).
    fold w' in Hreg. unfold entry_of.
    now rewrite Hreg, connectedUsers_get_set, String.eqb_refl.
  - subst w'. rewrite on_user_connected_world. cbn zeta.
    fold (entry_of sid ud). fold w0 w1. rewrite Hres. exact Hr2.
  - intros x rows Hin. pose proof (on_user_connected_emitted w sid ud) as He.
    cbn zeta in He. fold w0 w1 in He. rewrite Hres, app_nil_r in He.
    rewrite He in Hin.
    destruct Hin as [<- | [<- | Hin]]; try discriminate.
    destruct (fst (fst (select_users w0))); [destruct Hin|].
    destruct Hin as [<- | []]. discriminate.
Qed.

(** X18.  An invited user who was not connected when the group was created
    finds the group on the next identification: after a creation whose two
    inserts succeeded, identifying with the id of any member on a store that
    answers joins the connection to the room of the group, and the group
    list sent to it names the group. *)
Theorem invited_user_joins_the_group_on_identification
  (w : world) (sid : string) (c : conn) (data : create_group_data)
  (h h2 : header) (w1 w2 : world)
  (sid2 : string) (ud : user_data) (v : jsval) (n : Z) :
  connectedUsers_get (connectedUsers w) sid = Some c ->
  let g := ("group_" ++ Z_to_string (clock w))%string in
  let invited := match cg_memberIds data with Some l => l | None => [] end in
  let memberIds := with_creator invited (userId c) in
  let w' := run (on_create_group sid data) w in
  let w'' := world_after (on_user_connected sid2 ud) w' in
  db_query (InsertGroup (cg_groupName data) (userId c) g) w = (Ok h, w1) ->
  db_query (InsertMembers false (map (fun v => (g, v)) memberIds)) w1
  = (Ok h2, w2) ->
  In v invited -> to_number v = Some n ->
  to_number (ud_userId ud) = Some n ->
  faults w' = [] ->
  in_room sid2 g w'' = true /\
  exists before rows,
    emitted (on_user_connected sid2 ud) w'
    = (before ++
       [{| sent_to := Self sid2; reached := [sid2];
           what := GroupsOfUser rows |}])%list /\
    In g (map fst rows).
Proof.
  intros Hid g invited memberIds w' w'' Hq1 Hq2 Hv Hn Hud Hf.
  destruct (create_group_success_tables w sid c data h h2 w1 w2 Hid Hq1 Hq2)
    as [Hg Hm].
  fold g invited w' in Hg, Hm.
  assert (Hmem : has_member g n (db w') = true).
  { apply (Hm v n); [now right | assumption]. }
  destruct (user_connected_sync w' sid2 ud n Hf Hud)
    as (Hrooms & before & rows & He & Hiff).
  split.
  - apply Hrooms. right. auto.
  - exists before, rows. split; [exact He|]. apply Hiff. auto.
Qed.

Section DisconnectFacts.

Lemma connectedUsers_get_none_key (m : registry) (sid : string) :
  connectedUsers_get m sid = None -> ~ In sid (map fst m).
Proof.
  induction m as [|[k c] m IH]; simpl; [tauto|].
  destruct (String.eqb k sid) eqn:E; [discriminate|].
  intros H [Hk | Hin]; [|now apply IH].
  subst k. now rewrite String.eqb_refl in E.
Qed.

Lemma connectedUsers_get_in (m : registry) (sid : string) (c : conn) :
  NoDup (map fst m) -> In (sid, c) m -> connectedUsers_get m sid = Some c.
Proof.
  induction m as [|[k c'] m IH]; simpl; [tauto|].
  intros Hnd [[= -> ->] | Hin].
  - now rewrite String.eqb_refl.
  - inversion Hnd as [|? ? Hk Hnd']. subst.
    destruct (String.eqb k sid) eqn:E; [|now apply IH].
    apply String.eqb_eq in E. subst k. destruct Hk.
    apply in_map_iff. now exists (sid, c).
Qed.

Lemma connectedUsers_set_NoDup (m : registry) (sid : string) (c : conn) :
  NoDup (map fst m) -> NoDup (map fst (connectedUsers_set m sid c)).
Proof.
  intros Hnd. rewrite connectedUsers_set_keys.
  destruct (existsb (String.eqb sid) (map fst m)) eqn:E; [assumption|].
  apply NoDup_snoc; [assumption|]. intros Hin.
  assert (existsb (String.eqb sid) (map fst m) = true); [|congruence].
  apply existsb_exists. exists sid. split; [assumption|].
  apply String.eqb_refl.
Qed.

(** The two cases of the disconnect handler. *)
Lemma on_disconnect_cases (w : world) (sid : string) :
  match connectedUsers_get (connectedUsers w) sid with
  | Some c =>
      world_after (on_disconnect sid) w
      = set_users (connectedUsers_delete (connectedUsers w) sid) w /\
      emitted (on_disconnect sid) w
      = [{| sent_to := Everyone; reached := sockets w;
            what := StatusChange (userId c) (userName c) false |};
         {| sent_to := Everyone; reached := sockets w;
            what := UsersOnline
                      (map snd (connectedUsers_delete (connectedUsers w)
                                  sid)) |}]
  | None =>
      world_after (on_disconnect sid) w = w /\
      emitted (on_disconnect sid) w = []
  end.
Proof.
  unfold world_after, emitted, on_disconnect, bind, users_get.
  destruct (connectedUsers_get (connectedUsers w) sid); split; reflexivity.
Qed.

(** In the event as Socket.io runs it, the announcements go to everyone
    and reach every socket but the closing one. *)
Lemma disconnect_event_reaches_the_others (w : world) (sid : string)
  (x : sent) :
  In x (emitted (disconnect_event sid) w) ->
  sent_to x = Everyone /\
  reached x = filter (fun s => negb (String.eqb s sid)) (sockets w) /\
  ~ In sid (reached x).
Proof.
  change (emitted (disconnect_event sid) w)
    with (emitted (on_disconnect sid) (socket_closed sid w)).
  pose proof (on_disconnect_cases (socket_closed sid w) sid) as H.
  assert (Hout : ~ In sid (filter (fun s => negb (String.eqb s sid))
                             (sockets w))).
  { intros Hin. apply filter_In in Hin as [_ Hin].
    now rewrite String.eqb_refl in Hin. }
  destruct (connectedUsers_get (connectedUsers (socket_closed sid w)) sid);
    destruct H as [_ He]; rewrite He; [|intros []].
  intros [<- | [<- | []]]; repeat split; exact Hout.
Qed.

Lemma parse_magnitude_cons (c : ascii) (s : string) :
  parse_magnitude (String c s)
  = if Ascii.eqb c "0" then
      match s with
      | String d h =>
          if (Ascii.eqb d "x" || Ascii.eqb d "X")%bool then hex_prefix h None
          else digits_to_number (digit_prefix (String c s))
      | EmptyString => digits_to_number (digit_prefix (String c s))
      end
    else digits_to_number (digit_prefix (String c s)).
Proof.
  destruct c as [[|] [|] [|] [|] [|] [|] [|] [|]]; try reflexivity.
  destruct s as [|d h]; [reflexivity|].
  destruct d as [[|] [|] [|] [|] [|] [|] [|] [|]]; reflexivity.
Qed.

Lemma parse_int_cons (c : ascii) (s : string) :
  is_white_space c = false ->
  parse_int (JStr (String c s))
  = if Ascii.eqb c "-" then option_map Z.opp (parse_magnitude s)
    else if Ascii.eqb c "+" then parse_magnitude s
    else parse_magnitude (String c s).
Proof.
  intros H. unfold parse_int. cbn [to_string trim_start]. rewrite H.
  destruct c as [[|] [|] [|] [|] [|] [|] [|] [|]]; reflexivity.
Qed.

Lemma is_digit_not (c d : ascii) :
  is_digit c = true -> is_digit d = false -> Ascii.eqb c d = false.
Proof.
  intros Hc Hd. destruct (Ascii.eqb_spec c d); [congruence | reflexivity].
Qed.

Lemma digit_prefix_digits (s : string) :
  string_forall is_digit s = true -> digit_prefix s = s.
Proof.
  induction s as [|c s IH]; [reflexivity|]. simpl.
  intros H. apply andb_true_iff in H as [Hc Hs].
  unfold is_digit in Hc. unfold is_decimal_digit.
  now rewrite Hc, (IH Hs).
Qed.

Lemma parse_magnitude_digits (s : string) :
  string_forall is_digit s = true ->
  parse_magnitude s = digits_to_number s.
Proof.
  intros H. pose proof (digit_prefix_digits s H) as Hp.
  destruct s as [|c s]; [reflexivity|].
  rewrite parse_magnitude_cons, Hp.
  destruct (Ascii.eqb c "0"); [|reflexivity].
  destruct s as [|d h]; [reflexivity|].
  simpl in H. apply andb_true_iff in H as [_ H].
  apply andb_true_iff in H as [Hd _].
  now rewrite (is_digit_not d "x" Hd), (is_digit_not d "X" Hd).
Qed.

(** [parseInt] of a number is the number. *)
Lemma parse_int_number (z : Z) : parse_int (JNum z) = Some z.
Proof.
  assert (Hpos : forall p,
             exists c s,
               NilZero.string_of_uint (Pos.to_uint p) = String c s /\
               string_forall is_digit (String c s) = true /\
               digits_to_number (String c s) = Some (Z.pos p)).
  { intros p.
    pose proof (DecimalPos.Unsigned.to_uint_nonnil p) as Hn.
    assert (E : NilZero.string_of_uint (Pos.to_uint p)
                = NilEmpty.string_of_uint (Pos.to_uint p))
      by now destruct (Pos.to_uint p).
    pose proof (string_of_uint_digits (Pos.to_uint p)) as Hd.
    pose proof (string_of_uint_nonempty _ Hn) as Hne.
    pose proof (digits_of_pos p) as Hp.
    rewrite E.
    destruct (NilEmpty.string_of_uint (Pos.to_uint p)) as [|c s];
      [congruence|]. now exists c, s. }
  assert (Hstart : forall c s,
             string_forall is_digit (String c s) = true ->
             parse_int (JStr (String c s)) = digits_to_number (String c s)).
  { intros c s H. rewrite <- (parse_magnitude_digits _ H).
    simpl in H. apply andb_true_iff in H as [Hc _].
    rewrite parse_int_cons.
    - now rewrite (is_digit_not c "-" Hc), (is_digit_not c "+" Hc).
    - pose proof (digit_not_white_space c) as Hw.
      unfold not_white_space, is_decimal_char in Hw. rewrite Hc in Hw.
      apply negb_true_iff. now apply Hw. }
  destruct z as [|p|p].
  - reflexivity.
  - destruct (Hpos p) as (c & s & E & Hd & Hv).
    unfold parse_int, to_string, Z_to_string.
    simpl Z.to_int. simpl NilZero.string_of_int. rewrite E.
    fold (to_string (JStr (String c s))).
    fold (parse_int (JStr (String c s))). now rewrite Hstart.
  - destruct (Hpos p) as (c & s & E & Hd & Hv).
    unfold parse_int, to_string, Z_to_string.
    simpl Z.to_int. simpl NilZero.string_of_int. rewrite E.
    cbn [trim_start]. change (is_white_space "-") with false. cbv iota.
    now rewrite parse_magnitude_digits, Hv.
Qed.

(** On a canonical id with a numeric value, [parseInt] and the conversion
    of [==] agree. *)
Lemma parse_int_canonical (v : jsval) (n : Z) :
  canonical_id v = true -> to_number v = Some n -> parse_int v = Some n.
Proof.
  destruct v as [x|s]; simpl.
  - intros _ [= ->]. apply parse_int_number.
  - intros Hc Hn. rewrite Hn in Hc. apply String.eqb_eq in Hc. subst s.
    apply (parse_int_number n).
Qed.

Lemma findSocketIdByUserId_some (m : registry) (u : jsval) :
  findSocketIdByUserId m u <> None <->
  exists sid c, In (sid, c) m /\ loose_eq (userId c) u = true.
Proof.
  split.
  - intros H. destruct (findSocketIdByUserId m u) as [sid|] eqn:E;
      [|congruence].
    apply findSocketIdByUserId_first in E as (pre & c & post & -> & Hc & _).
    exists sid, c. split; [|assumption]. apply in_elt.
  - intros (sid & c & Hin & Hc) Hnone.
    rewrite findSocketIdByUserId_none in Hnone.
    rewrite (Hnone sid c Hin) in Hc. discriminate.
Qed.

End DisconnectFacts.

(** X19.  Disconnect of an identified connection removes its entry and no
    other, so that no lookup by user returns the socket afterwards, touches
    no table, and announces to everyone first the user as offline and then
    the remaining connections.  Disconnect of a connection that never
    identified changes nothing and announces nothing. *)
Theorem disconnect_forgets_the_connection (w : world) (sid : string) :
  let w' := world_after (on_disconnect sid) w in
  connectedUsers_get (connectedUsers w') sid = None /\
  (forall s, s <> sid ->
     connectedUsers_get (connectedUsers w') s
     = connectedUsers_get (connectedUsers w) s) /\
  (forall u, findSocketIdByUserId (connectedUsers w') u <> Some sid) /\
  db w' = db w /\
  match connectedUsers_get (connectedUsers w) sid with
  | Some c =>
      map (fun x => (sent_to x, what x)) (emitted (on_disconnect sid) w)
      = [(Everyone, StatusChange (userId c) (userName c) false);
         (Everyone, UsersOnline (map snd (connectedUsers w')))]
  | None => w' = w /\ emitted (on_disconnect sid) w = []
  end.
Proof.
  intros w'. pose proof (on_disconnect_cases w sid) as H. fold w' in H.
  assert (Hnone : connectedUsers_get (connectedUsers w') sid = None).
  { destruct (connectedUsers_get (connectedUsers w) sid) eqn:E;
      destruct H as [Hw _]; rewrite Hw; [|assumption].
    cbn [set_users connectedUsers].
    now rewrite connectedUsers_get_delete, String.eqb_refl. }
  split; [exact Hnone|]. split; [|split; [|split]].
  - intros s Hs.
    destruct (connectedUsers_get (connectedUsers w) sid) eqn:E;
      destruct H as [Hw _]; rewrite Hw; [|reflexivity].
    cbn [set_users connectedUsers]. rewrite connectedUsers_get_delete.
    apply String.eqb_neq in Hs. now rewrite Hs.
  - intros u Hu. apply findSocketIdByUserId_key in Hu.
    now apply connectedUsers_get_none_key in Hnone.
  - destruct (connectedUsers_get (connectedUsers w) sid);
      destruct H as [Hw _]; now rewrite Hw.
  - destruct (connectedUsers_get (connectedUsers w) sid);
      destruct H as [Hw He]; [|now split].
    rewrite He, Hw. reflexivity.
Qed.

(** X20.  Identification followed by disconnect of the same socket leaves
    the registry as it was before, for a socket that was not registered:
    the entries and their order are those of before. *)
Theorem disconnect_undoes_the_registration
  (w : world) (sid : string) (ud : user_data) :
  connectedUsers_get (connectedUsers w) sid = None ->
  let w1 := world_after (on_user_connected sid ud) w in
  connectedUsers (world_after (on_disconnect sid) w1) = connectedUsers w.
Proof.
  intros Hnone w1.
  destruct (on_user_connected_frame w sid ud) as (Hreg & _).
  fold w1 in Hreg.
  pose proof (on_disconnect_cases w1 sid) as H.
  rewrite Hreg, connectedUsers_get_set, String.eqb_refl in H.
  destruct H as [Hw _]. rewrite Hw. cbn [set_users connectedUsers].
  now apply connectedUsers_delete_set.
Qed.

(** X21.  Disconnect announces the user as offline without looking for
    other connections of the same user: when another socket is registered
    under an id loosely equal to the user's, the offline status is announced
    all the same, while the lookup by user still finds a connection. *)
Theorem disconnect_announces_offline_while_another_connection_remains
  (w : world) (sid : string) (c : conn) (s2 : string) (c2 : conn) :
  connectedUsers_get (connectedUsers w) sid = Some c ->
  In (s2, c2) (connectedUsers w) ->
  s2 <> sid ->
  loose_eq (userId c2) (userId c) = true ->
  let w' := world_after (on_disconnect sid) w in
  In (Everyone, StatusChange (userId c) (userName c) false)
    (map (fun x => (sent_to x, what x)) (emitted (on_disconnect sid) w)) /\
  exists s, findSocketIdByUserId (connectedUsers w') (userId c) = Some s /\
            s <> sid.
Proof.
  intros Hid Hin Hne Hc w'.
  pose proof (on_disconnect_cases w sid) as H. rewrite Hid in H.
  destruct H as [Hw He]. split.
  - rewrite He. now left.
  - assert (Hsome : findSocketIdByUserId (connectedUsers w') (userId c)
                    <> None).
    { apply findSocketIdByUserId_some. exists s2, c2. split; [|assumption].
      subst w'. rewrite Hw. cbn [set_users connectedUsers].
      unfold connectedUsers_delete. apply filter_In. split; [assumption|].
      simpl. apply negb_true_iff. now apply String.eqb_neq. }
    destruct (findSocketIdByUserId (connectedUsers w') (userId c)) as [s|]
      eqn:E; [|congruence].
    exists s. split; [reflexivity|]. intros ->.
    apply findSocketIdByUserId_key in E. subst w'. rewrite Hw in E.
    cbn [set_users connectedUsers] in E.
    apply in_map_iff in E as ([k c'] & Hk & Hf). simpl in Hk. subst k.
    apply filter_In in Hf as [_ Hf]. simpl in Hf.
    now rewrite String.eqb_refl in Hf.
Qed.

(** X22.  A typing event is relayed to the oldest connection registered
    under an id loosely equal to the addressee, and to no other; the user
    id and name of the notice are those of the payload, whether or not the
    sending socket has identified; the handler changes nothing. *)
Theorem typing_is_relayed_to_the_oldest_connection
  (w : world) (sid : string) (data : typing_data)
  (pre post : registry) (s1 : string) (c1 : conn) :
  connectedUsers w = (pre ++ (s1, c1) :: post)%list ->
  loose_eq (userId c1) (ty_toUserId data) = true ->
  (forall e, In e pre -> loose_eq (userId (snd e)) (ty_toUserId data) = false) ->
  s1 <> EmptyString ->
  world_after (on_typing sid data) w = w /\
  emitted (on_typing sid data) w
  = [{| sent_to := RoomOf s1; reached := room_members s1 w;
        what := TypingNotice (ty_userId data) (ty_userName data)
                  (ty_isTyping data) |}].
Proof.
  intros Hreg Hc Hpre Hne.
  unfold world_after, emitted, on_typing, bind, users_entries.
  rewrite Hreg, (findSocketIdByUserId_oldest pre post s1 c1 _ Hc Hpre).
  rewrite (truthy_nonempty _ Hne). split; reflexivity.
Qed.

(** X23.  The online flag of the full user list agrees with the lookup by
    user when every registered id is an id token (a safe integer, or its
    decimal writing) and the ids of the user rows are safe integers: a user
    is shown online exactly when a direct message addressed to the numeric
    id would find a connection. *)
Theorem user_list_flag_agrees_with_the_lookup
  (entries : registry) (results : list user_row) (row : presence) :
  (forall s c, In (s, c) entries -> id_token (userId c) = true) ->
  (forall u, In u results -> safe_integer (u_id u) = true) ->
  In row (presence_rows (map snd entries) results) ->
  pr_online row = true <->
  findSocketIdByUserId entries (JNum (pr_userId row)) <> None.
Proof.
  intros Htok _ Hrow.
  assert (Hcan : forall s c, In (s, c) entries ->
            canonical_id (userId c) = true /\ to_number (userId c) <> None).
  { intros s c Hin.
    destruct (id_token_canonical _ (Htok s c Hin)) as (Hc & n & Hn & _).
    split; [exact Hc | congruence]. }
  unfold presence_rows in Hrow.
  apply in_map_iff in Hrow as (u & <- & _). cbn [pr_online pr_userId].
  rewrite findSocketIdByUserId_some. rewrite existsb_exists. split.
  - intros (c & Hin & Hp). apply in_map_iff in Hin as ([s c'] & Hs & Hin).
    simpl in Hs. subst c'. exists s, c. split; [assumption|].
    destruct (Hcan s c Hin) as [Hc Hn].
    destruct (to_number (userId c)) as [n|] eqn:En; [|congruence].
    rewrite (parse_int_canonical _ _ Hc En) in Hp.
    apply Z.eqb_eq in Hp. subst n.
    apply (loose_eq_canonical (userId c) (JNum (u_id u)) (u_id u));
      auto.
  - intros (s & c & Hin & Hl). exists c. split.
    + apply in_map_iff. now exists (s, c).
    + destruct (Hcan s c Hin) as [Hc Hn].
      apply loose_eq_to_number in Hl. simpl in Hl.
      rewrite (parse_int_canonical _ _ Hc Hl). apply Z.eqb_refl.
Qed.

Section DigitPrefix.

Lemma breaks_numeral_spec (c : ascii) :
  breaks_numeral c = true ->
  is_digit c = false /\ is_white_space c = false /\
  Ascii.eqb c "x" = false /\ Ascii.eqb c "X" = false.
Proof.
  intros H.
  destruct c as [[|] [|] [|] [|] [|] [|] [|] [|]];
    try (cbv in H; discriminate H); repeat split.
Qed.

Lemma Z_to_string_digits (k : Z) :
  0 <= k ->
  exists c s,
    Z_to_string k = String c s /\
    string_forall is_digit (String c s) = true /\
    digits_to_number (String c s) = Some k.
Proof.
  intros Hk. destruct k as [|p|p]; [| |lia].
  - exists "0"%char, EmptyString. repeat split.
  - pose proof (DecimalPos.Unsigned.to_uint_nonnil p) as Hn.
    assert (E : Z_to_string (Z.pos p)
                = NilEmpty.string_of_uint (Pos.to_uint p)).
    { unfold Z_to_string. simpl Z.to_int. simpl NilZero.string_of_int.
      now destruct (Pos.to_uint p). }
    pose proof (string_of_uint_digits (Pos.to_uint p)) as Hd.
    pose proof (string_of_uint_nonempty _ Hn) as Hne.
    pose proof (digits_of_pos p) as Hp.
    rewrite E.
    destruct (NilEmpty.string_of_uint (Pos.to_uint p)) as [|c s];
      [congruence|]. now exists c, s.
Qed.

Lemma digit_prefix_app (ds : string) (c : ascii) (rest : string) :
  string_forall is_digit ds = true -> is_digit c = false ->
  digit_prefix (ds ++ String c rest) = ds.
Proof.
  intros Hds Hc. induction ds as [|a ds IH]; simpl.
  - unfold is_digit in Hc. unfold is_decimal_digit. now rewrite Hc.
  - simpl in Hds. apply andb_true_iff in Hds as [Ha Hds].
    unfold is_digit in Ha. unfold is_decimal_digit.
    now rewrite Ha, (IH Hds).
Qed.

Lemma trim_end_app (ds : string) (c : ascii) (rest : string) :
  is_white_space c = false ->
  trim_end (ds ++ String c rest) = (ds ++ String c (trim_end rest))%string.
Proof.
  intros Hc. induction ds as [|a ds IH].
  - simpl. rewrite Hc. now destruct (trim_end rest).
  - change (trim_end (String a ds ++ String c rest))
      with (match trim_end (ds ++ String c rest) with
            | EmptyString => if is_white_space a then EmptyString
                             else String a EmptyString
            | t => String a t
            end).
    rewrite IH. now destruct ds.
Qed.

Lemma uint_of_string_app (ds : string) (c : ascii) (rest : string) :
  is_digit c = false ->
  NilEmpty.uint_of_string (ds ++ String c rest) = None.
Proof.
  intros Hc. induction ds as [|a ds IH]; simpl.
  - destruct (NilEmpty.uint_of_string rest); [|reflexivity].
    destruct c as [[|] [|] [|] [|] [|] [|] [|] [|]];
      try reflexivity; cbv in Hc; discriminate Hc.
  - now rewrite IH.
Qed.

Lemma string_to_number_digit_first (s : string) (c : ascii) (t : string) :
  trim s = String c t -> is_digit c = true ->
  string_to_number s = digits_to_number (String c t).
Proof.
  intros E Hc. unfold string_to_number. rewrite E.
  destruct c as [[|] [|] [|] [|] [|] [|] [|] [|]];
    try reflexivity; cbv in Hc; discriminate Hc.
Qed.

(** [parseInt] reads the digits before the character that breaks the
    numeral. *)
Lemma parse_int_digit_prefix (k : Z) (c : ascii) (rest : string) :
  0 <= k -> breaks_numeral c = true ->
  parse_int (JStr (Z_to_string k ++ String c rest)) = Some k.
Proof.
  intros Hk Hb.
  destruct (breaks_numeral_spec c Hb) as (Hd & _ & Hx & HX).
  destruct (Z_to_string_digits k Hk) as (c0 & s0 & -> & Hds & Hv).
  pose proof (digit_prefix_app (String c0 s0) c rest Hds Hd) as Hp.
  simpl in Hds. apply andb_true_iff in Hds as [Hc0 Hs0].
  change (String c0 s0 ++ String c rest)%string
    with (String c0 (s0 ++ String c rest)) in *.
  rewrite parse_int_cons.
  - rewrite (is_digit_not c0 "-" Hc0), (is_digit_not c0 "+" Hc0) by reflexivity.
    rewrite parse_magnitude_cons, Hp, Hv.
    destruct (Ascii.eqb c0 "0"); [|reflexivity].
    destruct s0 as [|d s0]; simpl.
    + now rewrite Hx, HX.
    + simpl in Hs0. apply andb_true_iff in Hs0 as [Hd0 _].
      now rewrite (is_digit_not d "x" Hd0), (is_digit_not d "X" Hd0).
  - pose proof (digit_not_white_space c0) as Hw.
    unfold not_white_space, is_decimal_char in Hw. rewrite Hc0 in Hw.
    apply negb_true_iff. now apply Hw.
Qed.

(** The conversion of [==] gives such a text no numeric value. *)
Lemma to_number_digit_prefix (k : Z) (c : ascii) (rest : string) :
  0 <= k -> breaks_numeral c = true ->
  to_number (JStr (Z_to_string k ++ String c rest)) = None.
Proof.
  intros Hk Hb.
  destruct (breaks_numeral_spec c Hb) as (Hd & Hw & _).
  destruct (Z_to_string_digits k Hk) as (c0 & s0 & -> & Hds & _).
  simpl in Hds. apply andb_true_iff in Hds as [Hc0 _].
  assert (Hw0 : is_white_space c0 = false).
  { pose proof (digit_not_white_space c0) as H.
    unfold not_white_space, is_decimal_char in H. rewrite Hc0 in H.
    apply negb_true_iff. now apply H. }
  assert (E : trim (String c0 s0 ++ String c rest)
              = String c0 (s0 ++ String c (trim_end rest))).
  { unfold trim.
    change (String c0 s0 ++ String c rest)%string
      with (String c0 (s0 ++ String c rest)).
    cbn [trim_start]. rewrite Hw0.
    change (String c0 (s0 ++ String c rest))
      with (String c0 s0 ++ String c rest)%string.
    now rewrite trim_end_app. }
  cbn [to_number]. rewrite (string_to_number_digit_first _ _ _ E Hc0).
  unfold digits_to_number. cbn [NilZero.uint_of_string].
  change (String c0 (s0 ++ String c (trim_end rest)))
    with (String c0 s0 ++ String c (trim_end rest))%string.
  now rewrite uint_of_string_app.
Qed.

End DigitPrefix.

(** X24.  The online flag is computed with [parseInt] and the lookup with
    [==].  A connection identified under the decimal writing of a user id
    followed by a character that breaks the numeral (as in ["3abc"]) is
    shown online as that user in the list sent to it, while the lookup by
    the numeric id never returns its socket. *)
Theorem user_list_flag_and_lookup_disagree_on_a_digit_prefix
  (w : world) (sid : string) (ud : user_data) (k : Z) (u : user_row)
  (mark : ascii) (rest : string) :
  faults w = [] ->
  NoDup (map fst (connectedUsers w)) ->
  ud_userId ud = JStr (Z_to_string k ++ String mark rest) ->
  0 <= k -> safe_integer k = true ->
  breaks_numeral mark = true ->
  In u (users (db w)) -> u_id u = k ->
  let w' := world_after (on_user_connected sid ud) w in
  (exists before rows after,
     emitted (on_user_connected sid ud) w
     = (before ++
        {| sent_to := Self sid; reached := [sid]; what := UsersAll rows |}
        :: after)%list /\
     In {| pr_userId := k; pr_userName := u_name u; pr_online := true |} rows)
  /\
  findSocketIdByUserId (connectedUsers w') (JNum k) <> Some sid.
Proof.
  intros Hf Hnd Hid Hk0 _ Hb Hu Hk w'.
  assert (Hp : parse_int (ud_userId ud) = Some k)
    by (rewrite Hid; now apply parse_int_digit_prefix).
  assert (Hn : to_number (ud_userId ud) = None)
    by (rewrite Hid; now apply to_number_digit_prefix).
  clear Hid.
  set (w0 := set_users
               (connectedUsers_set (connectedUsers w) sid (entry_of sid ud))
               w).
  assert (Hget : connectedUsers_get (connectedUsers w0) sid
                 = Some (entry_of sid ud)).
  { cbn [w0 set_users connectedUsers].
    now rewrite connectedUsers_get_set, String.eqb_refl. }
  split.
  - pose proof (on_user_connected_emitted w sid ud) as He. cbn zeta in He.
    fold w0 in He.
    assert (Hres : fst (fst (select_users w0)) = Ok (users (db w))).
    { unfold select_users, ask. cbn [w0 set_users faults db].
      now rewrite Hf. }
    rewrite Hres in He. eexists _, _, _. split; [exact He|].
    unfold presence_rows. apply in_map_iff. exists u. split.
    + rewrite Hk. f_equal. apply existsb_exists.
      exists (entry_of sid ud). split.
      * apply in_map_iff. exists (sid, entry_of sid ud). split;
          [reflexivity|].
        clear - Hget. induction (connectedUsers w0) as [|[k c] m IH];
          simpl in *; [discriminate|].
        destruct (String.eqb k sid) eqn:E; [|right; now apply IH].
        apply String.eqb_eq in E. injection Hget as ->. subst. now left.
      * cbn [entry_of userId]. rewrite Hp. apply Z.eqb_refl.
    + exact Hu.
  - intros Hfind.
    destruct (on_user_connected_frame w sid ud) as (Hreg & _).
    fold w' in Hreg. rewrite Hreg in Hfind.
    apply findSocketIdByUserId_first in Hfind
      as (pre & c & post & Hm & Hc & _).
    assert (Hc' : connectedUsers_get
                    (connectedUsers_set (connectedUsers w) sid
                       {| socketId := sid; userId := ud_userId ud;
                          userName := ud_userName ud; online := true |}) sid
                  = Some c).
    { apply connectedUsers_get_in.
      - now apply connectedUsers_set_NoDup.
      - rewrite Hm. apply in_elt. }
    rewrite connectedUsers_get_set, String.eqb_refl in Hc'.
    injection Hc' as <-. cbn [userId] in Hc.
    destruct (ud_userId ud) as [x|s]; simpl in Hn, Hc; [discriminate|].
    rewrite Hn in Hc. discriminate.
Qed.

(** ** The two group routes *)

Section GroupRoutes.

Lemma filter_unique {A B : Type} (f : A -> B) (eqb : B -> B -> bool)
  (l : list A) (k : B) :
  (forall x y, eqb x y = true <-> x = y) ->
  NoDup (map f l) ->
  existsb (fun a => eqb (f a) k) l = true ->
  exists a, filter (fun a => eqb (f a) k) l = [a] /\ f a = k /\ In a l.
Proof.
  intros Heq. induction l as [|a l IH]; simpl; [discriminate|].
  intros Hnd Hex. inversion Hnd as [|x xs Hx Hl]; subst.
  destruct (eqb (f a) k) eqn:E.
  - apply Heq in E. exists a. repeat split; auto.
    replace (filter (fun a0 => eqb (f a0) k) l) with (@nil A); [reflexivity|].
    symmetry. apply existsb_false_filter.
    destruct (existsb (fun a0 => eqb (f a0) k) l) eqn:Ex; [|reflexivity].
    apply existsb_exists in Ex as (b & Hb & Eb). apply Heq in Eb.
    destruct Hx. rewrite E, <- Eb. now apply in_map.
  - simpl in Hex. destruct (IH Hl Hex) as (b & Hf & Hk & Hin).
    exists b. auto.
Qed.

Lemma Z_eqb_iff (x y : Z) : (x =? y) = true <-> x = y.
Proof. apply Z.eqb_eq. Qed.

(** With unique user ids every row that refers to a user joins with exactly
    one row of [users]. *)
Lemma view_member_one (s : store) (m : member_row) :
  NoDup (map u_id (users s)) ->
  has_user (gm_user_id m) s = true ->
  exists name,
    view_member s m = [{| me_user_id := gm_user_id m; me_user_name := name |}].
Proof.
  intros Hnd Hu. unfold has_user in Hu. unfold view_member.
  destruct (filter_unique u_id Z.eqb (users s) (gm_user_id m) Z_eqb_iff
              Hnd Hu) as (u & -> & Hk & _).
  exists (u_name u). simpl. now rewrite Hk.
Qed.

Lemma view_members_ids (s : store) (l : list member_row) :
  NoDup (map u_id (users s)) ->
  (forall m, In m l -> has_user (gm_user_id m) s = true) ->
  map me_user_id (flat_map (view_member s) l) = map gm_user_id l.
Proof.
  intros Hnd. induction l as [|m l IH]; simpl; [reflexivity|].
  intros H. destruct (view_member_one s m Hnd (H m (or_introl eq_refl)))
    as (name & ->).
  simpl. f_equal. apply IH. intros m' Hm'. apply H. now right.
Qed.

Lemma members_of_ids_NoDup (s : store) (g : string) :
  NoDup (map member_key (group_members s)) ->
  NoDup (map gm_user_id (members_of g s)).
Proof.
  intros Hnd. unfold members_of.
  apply (NoDup_map_filter member_key
           (fun m => String.eqb (gm_group_id m) g)) in Hnd.
  assert (Hall : forall x,
             In x (filter (fun m => String.eqb (gm_group_id m) g)
                     (group_members s)) -> gm_group_id x = g).
  { intros x Hx. apply filter_In in Hx as [_ Hx]. now apply String.eqb_eq. }
  revert Hnd Hall.
  induction (filter _ (group_members s)) as [|a l IH]; simpl; [constructor|].
  intros Hnd Hall. inversion Hnd as [|x xs Hx Hl]; subst. constructor.
  - intros Hin. apply in_map_iff in Hin as (b & Hb & Hin). apply Hx.
    apply in_map_iff. exists b. split; [|assumption].
    unfold member_key. rewrite Hb.
    now rewrite (Hall a (or_introl eq_refl)), (Hall b (or_intror Hin)).
  - apply IH; [assumption|]. intros x Hx'. apply Hall. now right.
Qed.

End GroupRoutes.

(** X25.  The two group routes agree on the members.  On tables that keep
    the keys of the schema and a store that answers, the group route
    returns for an existing group one group row and one entry per member,
    no user twice, and the groups route of a member lists the group with a
    member count equal to the number of those entries. *)
Theorem group_routes_agree_on_the_members
  (w : world) (g uid : string) (n : Z) :
  store_ok (db w) ->
  NoDup (map u_id (users (db w))) ->
  faults w = [] ->
  has_group g (db w) = true ->
  to_number (JStr uid) = Some n ->
  has_member g n (db w) = true ->
  exists info members groups summary,
    trace (run (get_group g) w)
    = (trace w ++
       [Queried (SelectGroupInfo g) (Ok [info]);
        Queried (SelectGroupMembers g) (Ok members);
        Responded 200 (GroupBody info members)])%list /\
    trace (run (get_user_groups uid) w)
    = (trace w ++
       [Queried (SelectUserGroups (JStr uid)) (Ok groups);
        Responded 200 (GroupsBody groups)])%list /\
    g_group_id (gi_group info) = g /\
    NoDup (map me_user_id members) /\
    In n (map me_user_id members) /\
    In summary groups /\
    gs_group_id summary = g /\
    gs_member_count summary = Z.of_nat (List.length members).
Proof.
  intros Hok Hnd Hf Hg Hn Hm.
  destruct Hok as [Hgu Hmu Hmr Hcr _].
  unfold has_group in Hg.
  destruct (filter_unique g_group_id String.eqb (chat_groups (db w)) g
              String.eqb_eq Hgu Hg) as (row & Hrow & Hgid & Hin).
  assert (Hcreator : has_user (g_creator_id row) (db w) = true)
    by now apply Hcr.
  destruct (filter_unique u_id Z.eqb (users (db w)) (g_creator_id row)
              Z_eqb_iff Hnd Hcreator) as (u & Hu & _ & _).
  assert (Hids : map me_user_id
                   (flat_map (view_member (db w)) (members_of g (db w)))
                 = map gm_user_id (members_of g (db w))).
  { apply view_members_ids; [assumption|]. intros m Hm'. apply Hmr.
    unfold members_of in Hm'. now apply filter_In in Hm' as [Hm' _]. }
  exists {| gi_group := row; gi_creator_name := u_name u |},
    (flat_map (view_member (db w)) (members_of g (db w))),
    (map (summary_of (db w))
       (filter (fun r => has_member (g_group_id r) n (db w))
          (chat_groups (db w)))),
    (summary_of (db w) row).
  repeat apply conj.
  - unfold get_group. cbn [run]. rewrite db_query_healthy by exact Hf.
    cbn [exec fst snd]. rewrite Hrow. cbn [flat_map app].
    unfold view_group. rewrite Hu. cbn [map app run].
    rewrite db_query_healthy by reflexivity.
    cbn [exec fst snd run]. world_simpl. now rewrite <- !app_assoc.
  - unfold get_user_groups. cbn [run]. rewrite db_query_healthy by exact Hf.
    cbn [exec]. unfold with_int. rewrite Hn. cbn [fst snd run]. world_simpl.
    now rewrite <- !app_assoc.
  - exact Hgid.
  - rewrite Hids. now apply members_of_ids_NoDup.
  - rewrite Hids. unfold has_member in Hm.
    apply existsb_exists in Hm as (m & Hm & Hmem).
    unfold is_member in Hmem. apply andb_true_iff in Hmem as [Eg En].
    apply Z.eqb_eq in En. apply in_map_iff. exists m. split; [assumption|].
    unfold members_of. apply filter_In. auto.
  - apply in_map. apply filter_In. split; [assumption|]. now rewrite Hgid.
  - exact Hgid.
  - cbn [summary_of gs_member_count]. rewrite Hgid. f_equal.
    rewrite <- (length_map me_user_id), Hids, length_map. reflexivity.
Qed.

(** ** The statements on the scenarios *)

Section ScenarioFacts.

(** The tables after Ann created the group with Bo keep the keys. *)
Lemma team_created_store_ok : store_ok (db team_created).
Proof.
  constructor.
  - vm_compute. repeat constructor. intros [].
  - vm_compute. repeat constructor; [intros [H | []]; discriminate H | intros []].
  - intros m Hm. vm_compute in Hm.
    destruct Hm as [<- | [<- | []]]; reflexivity.
  - intros g Hg. vm_compute in Hg. destruct Hg as [<- | []]. reflexivity.
  - intros m Hm. vm_compute in Hm. destruct Hm.
Qed.

Lemma world0_keys : NoDup (map fst (connectedUsers world0)).
Proof.
  vm_compute. repeat constructor; [intros [H | []]; discriminate H | intros []].
Qed.

End ScenarioFacts.

(** Bo is connected from two devices; the message of Ann goes to the room
    of the older connection. *)
Lemma private_message_addresses_the_oldest_connection_witness :
  connectedUsers two_devices
  = ([("sA", ann)] ++ ("sB", bo) :: [("sP", bo_phone)])%list /\
  exists r,
    trace (run (on_private_message "sA" direct) two_devices)
    = [Queried (InsertMessage (JNum 1) "hi" "private_1_2" None) r;
       Emitted (ToRoom "sB") ["sB"] (PrivateMessage (JNum 1) "Ann" "hi");
       Emitted (ToSocket "sA") ["sA"]
         (MessageSent (JStr "2") "hi" (id_or_null r))].
Proof.
  split; [reflexivity|].
  apply (private_message_addresses_the_oldest_connection two_devices "sA"
           direct [("sA", ann)] [("sP", bo_phone)] "sB" bo eq_refl eq_refl).
  - intros e [<- | []]. reflexivity.
  - discriminate.
Defined.



(** Ann sends a group message to a group that does not exist. *)
Lemma group_message_checks_neither_group_nor_membership_witness :
  has_group "nowhere" (db world0) = false /\
  let w' := run (on_group_message "sA"
                   {| gm_groupId := "nowhere"; gm_message := "hi" |})
              world0 in
  messages (db w')
  = [{| m_id := 1; m_user_id := 1; m_content := "hi";
        m_room_id := "nowhere"; m_is_group := true |}] /\
  in_room "sA" "nowhere" w' = true.
Proof.
  split; [reflexivity|]. intros w'.
  destruct (group_message_checks_neither_group_nor_membership world0 "sA"
              ann {| gm_groupId := "nowhere"; gm_message := "hi" |} 1
              eq_refl eq_refl eq_refl eq_refl eq_refl)
    as (Hm & _ & _ & Hr & _).
  split; [exact Hm | exact Hr].
Defined.

(** Ann sends a group message to the room named by the socket of Bo; the
    direct message that a third socket then sends to Bo reaches Ann. *)
Lemma group_message_to_a_socket_id_taps_direct_messages_witness :
  findSocketIdByUserId (connectedUsers world0) (JStr "2") = Some "sB" /\
  exists reached,
    In (Emitted (ToRoom "sB") reached (PrivateMessage (JNum 3) "Cy" "psst"))
       (trace (run (on_private_message "sC"
                      {| pm_toUserId := JStr "2"; pm_fromUserId := JNum 3;
                         pm_fromUserName := "Cy"; pm_message := "psst" |})
                 (run (on_group_message "sA"
                         {| gm_groupId := "sB"; gm_message := "hi" |})
                    world0))) /\
    In "sA" reached.
Proof.
  split; [reflexivity|].
  destruct (group_message_to_a_socket_id_taps_direct_messages world0 "sA"
              ann {| gm_groupId := "sB"; gm_message := "hi" |} "sC"
              {| pm_toUserId := JStr "2"; pm_fromUserId := JNum 3;
                 pm_fromUserName := "Cy"; pm_message := "psst" |} "sB"
              eq_refl eq_refl eq_refl ltac:(discriminate))
    as (r & reached & Ht & Hin).
  exists reached. split; [|exact Hin].
  rewrite Ht. apply in_or_app. right. right. now left.
Defined.


(** The deployment without the column: the message of Ann is in the group
    history until the column is added. *)
Lemma fallback_messages_leave_the_history_when_the_column_is_added_witness :
  has_is_group (db legacy0) = false /\
  let w' := run (on_group_message "sA" hello) legacy0 in
  let migrated := with_db (checkMessageTable (db w')) w' in
  has_is_group (db migrated) = true /\
  trace (run (get_group_messages team) migrated)
  = (trace w' ++
     [Queried (SelectRoomMessages team true) (Ok []);
      Responded 200 (MessagesBody [] None)])%list.
Proof.
  split; [reflexivity|]. intros w' migrated.
  assert (Hlen : (List.length (room_view (gm_groupId hello) (db legacy0))
                  < 100)%nat)
    by (apply Nat.ltb_lt; reflexivity).
  exact (proj2 (fallback_messages_leave_the_history_when_the_column_is_added
                  legacy0 "sA" ann hello 1 eq_refl eq_refl eq_refl eq_refl
                  eq_refl Hlen)).
Defined.

(** Ann is registered under the text "1" and invites the numbers 1 and 2:
    the group row stays without any member. *)
Lemma create_group_with_the_creator_under_two_types_fails_half_way_witness :
  array_includes [JNum 1; JNum 2] (JStr "1") = false /\
  let w' := run (on_create_group "sA" with_herself) text0 in
  has_group team (db w') = true /\ group_members (db w') = [] /\
  rooms w' = rooms text0.
Proof.
  split; [reflexivity|]. intros w'.
  destruct (create_group_with_the_creator_under_two_types_fails_half_way
              text0 "sA" ann_text with_herself [JNum 1; JNum 2] (JNum 1) 1
              eq_refl eq_refl eq_refl eq_refl (or_introl eq_refl) eq_refl
              eq_refl eq_refl eq_refl) as (Hdb & Hr & _).
  fold w' in Hdb, Hr. rewrite Hdb.
  split; [reflexivity | split; [reflexivity | exact Hr]].
Defined.

(** Ann creates the group with Bo, who is connected. *)
Lemma create_group_joins_the_connected_members_witness :
  connectedUsers_get (connectedUsers world0) "sA" = Some ann /\
  in_room "sA" team team_created = true /\
  in_room "sB" team team_created = true /\
  in_room "sB" "sA" team_created = false.
Proof.
  split; [reflexivity|].
  set (data := {| cg_groupName := "Team"; cg_memberIds := Some [JNum 2] |}).
  set (q1 := InsertGroup "Team" (JNum 1) team).
  set (q2 := InsertMembers false [(team, JNum 2); (team, JNum 1)]).
  pose proof (create_group_joins_the_connected_members world0 "sA" ann data
                (header_of 1 1) (header_of 1 2)
                (snd (db_query q1 world0))
                (snd (db_query q2 (snd (db_query q1 world0))))
                eq_refl eq_refl eq_refl) as H.
  split; [|split].
  - exact (H "sA" team).
  - exact (H "sB" team).
  - exact (H "sB" "sA").
Defined.

(** Ann adds Cy to the group, twice. *)
Lemma add_members_is_an_upsert_witness :
  has_creator team 1 (db team_created) = true /\
  let data := {| am_groupId := team; am_userIds := [JNum 3] |} in
  let w' := run (on_add_group_members "sA" data) team_created in
  has_member team 3 (db w') = true /\
  db (run (on_add_group_members "sA" data) w') = db w'.
Proof.
  split; [reflexivity|]. intros data w'.
  assert (Hne : am_userIds data <> []) by discriminate.
  assert (Hknown : forall v, In v (am_userIds data) ->
            exists k, to_number v = Some k /\
                      has_user k (db team_created) = true).
  { intros v [<- | []]. exists 3. split; reflexivity. }
  destruct (add_members_is_an_upsert team_created "sA" ann 1 data
              eq_refl eq_refl eq_refl eq_refl Hne Hknown)
    as (_ & Hm & _ & Hidem).
  split; [|exact Hidem].
  apply (Hm (JNum 3) 3); [now left | reflexivity].
Defined.

(** Ann removes Bo from the group. *)
Lemma remove_member_deletes_the_row_and_keeps_the_group_witness :
  has_member team 2 (db team_created) = true /\
  in_room "sB" team team_created = true /\
  let w' := run (on_remove_group_member "sA"
                   {| rm_groupId := team; rm_userId := JNum 2 |})
              team_created in
  has_member team 2 (db w') = false /\
  has_group team (db w') = true /\
  in_room "sB" team w' = false.
Proof.
  split; [reflexivity|]. split; [reflexivity|]. intros w'.
  destruct (remove_member_deletes_the_row_and_keeps_the_group team_created
              "sA" ann 1 2 {| rm_groupId := team; rm_userId := JNum 2 |}
              eq_refl eq_refl eq_refl eq_refl eq_refl eq_refl)
    as (Hm & Hg & Hroom & _).
  fold w' in Hm, Hg, Hroom. split; [|split].
  - unfold has_member. rewrite Hm. reflexivity.
  - unfold has_group. rewrite Hg. reflexivity.
  - apply (Hroom "sB"); [reflexivity | discriminate | reflexivity].
Defined.

(** Bo leaves the group while the store is unreachable. *)
Lemma leave_group_failure_changes_nothing_witness :
  faults team_outage = [Some connection_lost] /\
  let w' := run (on_leave_group "sB" team) team_outage in
  has_member team 2 (db w') = true /\ in_room "sB" team w' = true.
Proof.
  split; [reflexivity|]. intros w'.
  destruct (leave_group_failure_changes_nothing team_outage "sB" bo team
              connection_lost
              (snd (db_query (DeleteMember team (JStr "2")) team_outage))
              eq_refl eq_refl) as (Hdb & Hr & _).
  fold w' in Hdb, Hr. unfold in_room. rewrite Hdb, Hr. split; reflexivity.
Defined.

(** Bo asks for the list of groups after Ann created the group. *)
Lemma request_groups_lists_the_groups_of_the_user_witness :
  connectedUsers_get (connectedUsers team_created) "sB" = Some bo /\
  exists rows,
    In (Emitted (ToSocket "sB") ["sB"] (GroupList rows))
       (trace (run (on_request_groups "sB") team_created)) /\
    In team (map gs_group_id rows).
Proof.
  split; [reflexivity|].
  destruct (request_groups_lists_the_groups_of_the_user team_created "sB"
              bo eq_refl) as [_ H].
  destruct (H 2 eq_refl eq_refl eq_refl) as (rows & Ht & _ & Hiff & _).
  exists rows. split.
  - rewrite Ht. apply in_or_app. right. right. now left.
  - apply Hiff. split; reflexivity.
Defined.

(** Bo connects a second device after the group was created. *)
Lemma user_connected_joins_the_rooms_of_the_groups_witness :
  faults team_created = [] /\
  in_room "sP" team team_created = false /\
  in_room "sP" team
    (world_after (on_user_connected "sP" bo_returns) team_created) = true.
Proof.
  split; [reflexivity|]. split; [reflexivity|].
  destruct (user_connected_joins_the_rooms_of_the_groups team_created "sP"
              bo_returns 2 eq_refl eq_refl) as [Hrooms _].
  apply Hrooms. right. repeat split; reflexivity.
Defined.

(** The store fails the second read of the identification of Cy. *)
Lemma user_connected_sends_no_group_list_when_the_read_fails_witness :
  faults second_fails = [None; Some connection_lost] /\
  forall x, In x (emitted (on_user_connected "sC" cy_arrives) second_fails) ->
            what x <> GroupsOfUser [].
Proof.
  split; [reflexivity|].
  destruct (user_connected_sends_no_group_list_when_the_read_fails
              second_fails "sC" cy_arrives None connection_lost []
              eq_refl) as (_ & _ & H).
  intros x Hx. exact (H x [] Hx).
Defined.

(** Ann invites Cy, who identifies afterwards. *)
Lemma invited_user_joins_the_group_on_identification_witness :
  findSocketIdByUserId (connectedUsers world0) (JNum 3) = None /\
  in_room "sC" team
    (world_after (on_user_connected "sC" cy_arrives)
       (run (on_create_group "sA" with_cy) world0)) = true.
Proof.
  split; [reflexivity|].
  set (q1 := InsertGroup "Plans" (JNum 1) team).
  set (q2 := InsertMembers false [(team, JNum 3); (team, JNum 1)]).
  exact (proj1 (invited_user_joins_the_group_on_identification world0 "sA"
                  ann with_cy (header_of 1 1) (header_of 1 2)
                  (snd (db_query q1 world0))
                  (snd (db_query q2 (snd (db_query q1 world0))))
                  "sC" cy_arrives (JNum 3) 3
                  eq_refl eq_refl eq_refl (or_introl eq_refl) eq_refl
                  eq_refl eq_refl)).
Defined.

(** A third socket identifies as Bo and closes. *)
Lemma disconnect_undoes_the_registration_witness :
  connectedUsers_get (connectedUsers world0) "sP" = None /\
  connectedUsers
    (world_after (on_disconnect "sP")
       (world_after (on_user_connected "sP" bo_returns) world0))
  = connectedUsers world0.
Proof.
  split; [reflexivity|].
  exact (disconnect_undoes_the_registration world0 "sP" bo_returns eq_refl).
Defined.

(** Bo closes one of two devices. *)
Lemma disconnect_announces_offline_while_another_connection_remains_witness :
  connectedUsers_get (connectedUsers two_devices) "sB" = Some bo /\
  In (Everyone, StatusChange (JStr "2") "Bo" false)
    (map (fun x => (sent_to x, what x))
       (emitted (on_disconnect "sB") two_devices)) /\
  exists s,
    findSocketIdByUserId
      (connectedUsers (world_after (on_disconnect "sB") two_devices))
      (JStr "2") = Some s /\ s <> "sB".
Proof.
  split; [reflexivity|].
  apply (disconnect_announces_offline_while_another_connection_remains
           two_devices "sB" bo "sP" bo_phone eq_refl).
  - right. right. now left.
  - discriminate.
  - reflexivity.
Defined.

(** Ann types to Bo, who has two devices. *)
Lemma typing_is_relayed_to_the_oldest_connection_witness :
  connectedUsers two_devices
  = ([("sA", ann)] ++ ("sB", bo) :: [("sP", bo_phone)])%list /\
  emitted (on_typing "sA" ann_types) two_devices
  = [{| sent_to := RoomOf "sB"; reached := ["sB"];
        what := TypingNotice (JNum 1) "Ann" true |}].
Proof.
  split; [reflexivity|].
  refine (proj2 (typing_is_relayed_to_the_oldest_connection two_devices "sA"
                   ann_types [("sA", ann)] [("sP", bo_phone)] "sB" bo
                   eq_refl eq_refl _ _)).
  - intros e [<- | []]. reflexivity.
  - discriminate.
Defined.

(** Bo on two devices, under a text and under a number. *)
Lemma user_list_flag_agrees_with_the_lookup_witness :
  In {| pr_userId := 2; pr_userName := "Bo"; pr_online := true |}
    (presence_rows (map snd (connectedUsers two_devices)) (users store0)) /\
  findSocketIdByUserId (connectedUsers two_devices) (JNum 2) <> None.
Proof.
  assert (Hrow : In {| pr_userId := 2; pr_userName := "Bo";
                       pr_online := true |}
                   (presence_rows (map snd (connectedUsers two_devices))
                      (users store0)))
    by (right; left; reflexivity).
  split; [exact Hrow|].
  refine (proj1 (user_list_flag_agrees_with_the_lookup
                   (connectedUsers two_devices) (users store0) _ _ _ Hrow)
            eq_refl).
  - intros s c [[= <- <-] | [[= <- <-] | [[= <- <-] | []]]]; reflexivity.
  - intros u [<- | [<- | [<- | []]]]; reflexivity.
Defined.

(** A client identifies under the text "3abc". *)
Lemma user_list_flag_and_lookup_disagree_on_a_digit_prefix_witness :
  ud_userId cy_tagged = JStr (Z_to_string 3 ++ String "a" "bc") /\
  breaks_numeral "a" = true /\
  findSocketIdByUserId
    (connectedUsers (world_after (on_user_connected "sC" cy_tagged) world0))
    (JNum 3) <> Some "sC".
Proof.
  split; [reflexivity|]. split; [reflexivity|].
  assert (H0 : 0 <= 3) by discriminate.
  exact (proj2 (user_list_flag_and_lookup_disagree_on_a_digit_prefix world0
                  "sC" cy_tagged 3 {| u_id := 3; u_name := "Cy" |}
                  "a"%char "bc" eq_refl world0_keys eq_refl H0 eq_refl eq_refl
                  (or_intror (or_intror (or_introl eq_refl))) eq_refl)).
Defined.

(** The group of Ann and Bo through the two routes. *)
Lemma group_routes_agree_on_the_members_witness :
  has_group team (db team_created) = true /\
  exists info members groups summary,
    In (Responded 200 (GroupBody info members))
       (trace (run (get_group team) team_created)) /\
    In (Responded 200 (GroupsBody groups))
       (trace (run (get_user_groups "2") team_created)) /\
    In summary groups /\
    gs_member_count summary = Z.of_nat (List.length members) /\
    In 2 (map me_user_id members).
Proof.
  split; [reflexivity|].
  assert (Hu : NoDup (map u_id (users (db team_created)))).
  { vm_compute. repeat constructor;
      [intros [H | [H | []]]; discriminate H
      | intros [H | []]; discriminate H | intros []]. }
  destruct (group_routes_agree_on_the_members team_created team "2" 2
              team_created_store_ok Hu eq_refl eq_refl eq_refl eq_refl)
    as (info & members & groups & summary & Ht1 & Ht2 & _ & _ & Hin & Hs & _
        & Hc).
  exists info, members, groups, summary. repeat split.
  - rewrite Ht1. apply in_or_app. right. right. right. now left.
  - rewrite Ht2. apply in_or_app. right. right. now left.
  - exact Hs.
  - exact Hc.
  - exact Hin.
Defined.
